(** * eslogging: the Elasticsearch log handler [ESHandler]

    A shallow embedding of [eslogging/handlers.py] and the properties its
    specification states about it.  The definitions come first:

    - [Exc]: exceptions and the state-and-exception monad;
    - [Calendar]: the part of Python's [datetime] the handler calls
      ([utcfromtimestamp], [weekday], subtraction of a [timedelta] of
      days), written after the pure-Python implementation of the module;
    - [Fmt]: the string formatting the handler uses ([strftime], [format]);
    - [Py]: values, dictionaries, the object store, timers, the backend;
    - [Handlers]: the handler itself, method by method;
    - [Samples]: a host, a handler and records to evaluate the methods on;
    - [Records]: attributes, truth values and the message of a log record;
    - [IgnoreESLogs]: the subclass [ESHandlerIgnoreESLogs];
    - [ESFilter]: the filter on the records of the Elasticsearch client,
      with the part of [re] its pattern needs;
    - [Client]: the making of the Elasticsearch client and the two methods
      that use it directly;
    - [Accounts]: notions on histories of calls;
    - [MoreSamples]: sample data for these.

    The properties follow, in the order: calendar, [flush], index names,
    [emit] and [close], timers, formatting, entries, construction; then
    the filter, the client, [ESHandlerIgnoreESLogs], histories, errors,
    timestamps and index names again. *)

From Stdlib Require Import ZArith Lia Bool List Ascii String.
From stdpp Require Import base option list strings gmap fin_maps.

Local Open Scope Z_scope.

(* ====================================================================== *)
(** * Exceptions and the state-and-exception monad *)
(* ====================================================================== *)

Module Exc.

(** The exceptions the handler can meet.  [OSError] carries its [errno];
    the others carry their message.  [Exception] stands for an exception
    of any other class. *)
Inductive Exn : Type :=
| ValueError (msg : string)
| OverflowError (msg : string)
| TypeError (msg : string)
| AttributeError (msg : string)
| OSError (errno : Z)
| Exception (msg : string).

(** The outcome of a call: a value, or an exception on its way up. *)
Inductive Result (A : Type) : Type :=
| Ok (a : A)
| Raise (e : Exn).
Arguments Ok {A} a.
Arguments Raise {A} e.

Definition is_Ok {A} (r : Result A) : bool :=
  match r with Ok _ => true | Raise _ => false end.

Global Instance Result_ret : MRet Result := fun A a => Ok a.
Global Instance Result_bind : MBind Result := fun A B f r =>
  match r with
  | Ok a => f a
  | Raise e => Raise e
  end.

(** A computation over a state [S]: the state is threaded through, and
    what was written before an exception is raised stays written. *)
Definition M (S A : Type) : Type := S -> Result A * S.

Global Instance M_ret {S} : MRet (M S) := fun A a s => (Ok a, s).
Global Instance M_bind {S} : MBind (M S) := fun A B f m s =>
  match m s with
  | (Ok a, s') => f a s'
  | (Raise e, s') => (Raise e, s')
  end.

Definition raise {S A} (e : Exn) : M S A := fun s => (Raise e, s).
Definition gets {S A} (f : S -> A) : M S A := fun s => (Ok (f s), s).
Definition modify {S} (f : S -> S) : M S unit := fun s => (Ok tt, f s).
Definition lift_result {S A} (r : Result A) : M S A := fun s => (r, s).

(** [try: body except Exception as e: handler e]. *)
Definition try_except {S A} (body : M S A) (handler : Exn -> M S A) : M S A :=
  fun s =>
    match body s with
    | (Ok a, s') => (Ok a, s')
    | (Raise e, s') => handler e s'
    end.

(** [for x in xs: body x], and the list of the results. *)
Fixpoint for_each {S A B} (xs : list A) (body : A -> M S B) : M S (list B) :=
  match xs with
  | [] => mret []
  | x :: xs' => b ← body x; bs ← for_each xs' body; mret (b :: bs)
  end.

End Exc.

(* ====================================================================== *)
(** * Calendar arithmetic, after CPython's [Lib/_pydatetime.py] *)
(* ====================================================================== *)

Module Calendar.
Import Exc.

(** [_DAYS_IN_MONTH[month]] and [_DAYS_BEFORE_MONTH[month]]; index 0 is the
    placeholder -1 of the Python tables. *)
Definition _DAYS_IN_MONTH (month : Z) : Z :=
  match month with
  | 1 => 31 | 2 => 28 | 3 => 31 | 4 => 30 | 5 => 31 | 6 => 30
  | 7 => 31 | 8 => 31 | 9 => 30 | 10 => 31 | 11 => 30 | 12 => 31
  | _ => -1
  end.

Definition _DAYS_BEFORE_MONTH (month : Z) : Z :=
  match month with
  | 1 => 0 | 2 => 31 | 3 => 59 | 4 => 90 | 5 => 120 | 6 => 151
  | 7 => 181 | 8 => 212 | 9 => 243 | 10 => 273 | 11 => 304 | 12 => 334
  | _ => -1
  end.

Definition _is_leap (year : Z) : bool :=
  (year mod 4 =? 0) && (negb (year mod 100 =? 0) || (year mod 400 =? 0)).

Definition _days_before_year (year : Z) : Z :=
  let y := year - 1 in
  y * 365 + y / 4 - y / 100 + y / 400.

Definition _days_in_month (year month : Z) : Z :=
  if (month =? 2) && _is_leap year then 29 else _DAYS_IN_MONTH month.

Definition _days_before_month (year month : Z) : Z :=
  _DAYS_BEFORE_MONTH month + (if (2 <? month) && _is_leap year then 1 else 0).

Definition _ymd2ord (year month day : Z) : Z :=
  _days_before_year year + _days_before_month year month + day.

Definition _DI400Y : Z := 146097.
Definition _DI100Y : Z := 36524.
Definition _DI4Y : Z := 1461.
Definition _MAXORDINAL : Z := 3652059.

(** [_ord2ymd]: ordinal (1 = 0001-01-01) to (year, month, day). *)
Definition _ord2ymd (ordinal : Z) : Z * Z * Z :=
  let n := ordinal - 1 in
  let n400 := n / _DI400Y in
  let n := n mod _DI400Y in
  let year := n400 * 400 + 1 in
  let n100 := n / _DI100Y in
  let n := n mod _DI100Y in
  let n4 := n / _DI4Y in
  let n := n mod _DI4Y in
  let n1 := n / 365 in
  let n := n mod 365 in
  let year := year + (n100 * 100 + n4 * 4 + n1) in
  if (n1 =? 4) || (n100 =? 4) then (year - 1, 12, 31)
  else
    let leapyear := (n1 =? 3) && (negb (n4 =? 24) || (n100 =? 3)) in
    let month := Z.shiftr (n + 50) 5 in
    let preceding :=
      _DAYS_BEFORE_MONTH month
      + (if (2 <? month) && leapyear then 1 else 0) in
    let '(month, preceding) :=
      if n <? preceding
      then (month - 1,
            preceding
            - (_DAYS_IN_MONTH (month - 1)
               + (if (month - 1 =? 2) && leapyear then 1 else 0)))
      else (month, preceding) in
    (year, month, n - preceding + 1).

(** A [datetime.datetime] value (naive: no time zone attached). *)
Record datetime : Type := mk_datetime {
  year : Z; month : Z; day : Z;
  hour : Z; minute : Z; second : Z; microsecond : Z
}.

(** The fields are in the ranges the [datetime] constructor checks. *)
Definition valid_datetime (d : datetime) : Prop :=
  1 <= year d <= 9999 /\ 1 <= month d <= 12 /\
  1 <= day d <= _days_in_month (year d) (month d) /\
  0 <= hour d < 24 /\ 0 <= minute d < 60 /\ 0 <= second d < 60 /\
  0 <= microsecond d < 1000000.

Definition toordinal (d : datetime) : Z :=
  _ymd2ord (year d) (month d) (day d).

(** [datetime.weekday()]: Monday is 0, Sunday is 6. *)
Definition weekday (d : datetime) : Z := (toordinal d + 6) mod 7.

(** [d - datetime.timedelta(days=k)]: through the ordinal, the time of day
    kept; [OverflowError] outside of the years 1..9999. *)
Definition sub_days (d : datetime) (k : Z) : Result datetime :=
  let o := toordinal d - k in
  if (0 <? o) && (o <=? _MAXORDINAL) then
    let '(y, m, dd) := _ord2ymd o in
    Ok (mk_datetime y m dd (hour d) (minute d) (second d) (microsecond d))
  else Raise (OverflowError "date value out of range").

(** Microseconds per second and per day. *)
Definition US_PER_SECOND : Z := 1000000.
Definition US_PER_DAY : Z := 86400 * US_PER_SECOND.

(** Ordinal of 1970-01-01. *)
Definition EPOCH_ORDINAL : Z := 719163.

(** [datetime.utcfromtimestamp(t)].  The argument is the float [t] as the
    whole number of microseconds it is rounded to (the rounding is the
    first thing [utcfromtimestamp] does); the result is the UTC broken-down
    time of that instant, [ValueError] when the year is not in 1..9999. *)
Definition utcfromtimestamp (us : Z) : Result datetime :=
  let days := us / US_PER_DAY in
  let rem := us mod US_PER_DAY in
  let o := EPOCH_ORDINAL + days in
  if (0 <? o) && (o <=? _MAXORDINAL) then
    let '(y, m, d) := _ord2ymd o in
    let secs := rem / US_PER_SECOND in
    Ok (mk_datetime y m d (secs / 3600) (secs / 60 mod 60) (secs mod 60)
          (rem mod US_PER_SECOND))
  else Raise (ValueError "year is out of range").

End Calendar.


(* ====================================================================== *)
(** * String formatting *)
(* ====================================================================== *)

Module Fmt.
Import Calendar.

(** The character of a decimal digit. *)
Definition digit (k : Z) : ascii := ascii_of_nat (48 + Z.to_nat k).

(** The decimal digits of [n >= 0], most significant first; [fuel] bounds
    their number. *)
Fixpoint decimal (fuel : nat) (n : Z) : string :=
  match fuel with
  | O => ""
  | S fuel' =>
      if n <? 10 then String (digit n) ""
      else decimal fuel' (n / 10) +:+ String (digit (n mod 10)) ""
  end.

(** [str(n)] for an integer.  A number has no more decimal digits than
    binary ones. *)
Definition str_int (n : Z) : string :=
  if n <? 0 then String "-" (decimal (S (Z.to_nat (Z.log2 (- n)))) (- n))
  else decimal (S (Z.to_nat (Z.log2 n))) n.

Fixpoint zeros (k : nat) : string :=
  match k with
  | O => ""
  | S k' => String "0" (zeros k')
  end.

(** [format(n, "0<w>d")]: sign first, then zeros up to the width [w]. *)
Definition format_0d (w : nat) (n : Z) : string :=
  if n <? 0 then
    let digits := str_int (- n) in
    String "-" (zeros (w - 1 - String.length digits) +:+ digits)
  else
    let digits := str_int n in
    zeros (w - String.length digits) +:+ digits.

(** One conversion of [strftime]: [%Y] is the year with century, on four
    digits; [%m %d %H %M %S] are on two digits; any other character after
    [%] is kept as it is.  (For a year below 1000 the C library decides
    whether [%Y] is padded, and glibc does not pad; here it is padded.) *)
Definition directive (c : ascii) (d : datetime) : string :=
  if Ascii.eqb c "Y" then format_0d 4 (year d)
  else if Ascii.eqb c "m" then format_0d 2 (month d)
  else if Ascii.eqb c "d" then format_0d 2 (day d)
  else if Ascii.eqb c "H" then format_0d 2 (hour d)
  else if Ascii.eqb c "M" then format_0d 2 (minute d)
  else if Ascii.eqb c "S" then format_0d 2 (second d)
  else String "%" (String c "").

(** [d.strftime(fmt)]. *)
Fixpoint strftime (fmt : string) (d : datetime) : string :=
  match fmt with
  | EmptyString => ""
  | String c rest =>
      if Ascii.eqb c "%" then
        match rest with
        | EmptyString => "%"
        | String c' rest' => directive c' d +:+ strftime rest' d
        end
      else String c (strftime rest d)
  end.

(** The [w] low decimal digits of [n], most significant first: what a
    field of exactly [w] digits looks like. *)
Fixpoint digits (w : nat) (n : Z) : string :=
  match w with
  | O => ""
  | S w' => digits w' (n / 10) +:+ String (digit (n mod 10)) ""
  end.

End Fmt.


(* ====================================================================== *)
(** * Python values, dictionaries, the object store, timers *)
(* ====================================================================== *)

Module Py.
Import Exc Calendar Fmt.

(** The values a log record or a field dictionary holds.  A [float] is the
    rational number it denotes. *)
#[local] Set Warnings "-register-all".
Inductive Value : Type :=
| VNone
| VBool (b : bool)
| VInt (n : Z)
| VFloat (num : Z) (den : positive)
| VStr (s : string)
| VTuple (items : list Value)
| VList (items : list Value)
| VDict (items : list (Value * Value)).

(** A [dict] with string keys: the attribute dictionary of a record, the
    additional fields, an entry of the buffer. *)
Abbreviation Dict := (gmap string Value).

Definition type_name (v : Value) : string :=
  match v with
  | VNone => "NoneType" | VBool _ => "bool" | VInt _ => "int"
  | VFloat _ _ => "float" | VStr _ => "str" | VTuple _ => "tuple"
  | VList _ => "list" | VDict _ => "dict"
  end.

Fixpoint chars (s : string) : list Value :=
  match s with
  | EmptyString => []
  | String c s' => VStr (String c "") :: chars s'
  end.

(** [for x in v]: the elements of a tuple or a list, the characters of a
    string, the keys of a dict; anything else is not iterable. *)
Definition iter (v : Value) : Result (list Value) :=
  match v with
  | VTuple items | VList items => Ok items
  | VStr s => Ok (chars s)
  | VDict items => Ok (items.*1)
  | _ => Raise (TypeError ("'" +:+ type_name v +:+ "' object is not iterable"))
  end.

(** The builtins the handler calls and this development does not define:
    [str(v)]. *)
Class Builtins : Type := { str : Value -> string }.

(** References to dict objects, and the store they live in. *)
Definition loc : Type := positive.

Inductive TimerStatus : Type :=
| Initial      (** created, not started *)
| Waiting      (** started, the interval has not elapsed *)
| Running      (** the interval elapsed, the function is being run *)
| Cancelled    (** cancelled while waiting *)
| Finished.    (** the function returned or raised *)

Global Instance TimerStatus_eq_dec : EqDecision TimerStatus.
Proof. solve_decision. Defined.

(** One action handed to [elasticsearch.helpers.bulk]. *)
Record Action : Type := mk_Action {
  _index : string;
  _type : string;
  _source : Dict
}.

(** All the handler touches outside of its own fields. *)
Record World : Type := mk_World {
  heap : gmap loc Dict;             (** the dict objects *)
  timers : list TimerStatus;        (** the [threading.Timer] objects, by number *)
  error_stream : list Exn;          (** tracebacks printed on the error stream *)
  bulk_calls : list (list Action);  (** the calls of [helpers.bulk], oldest first *)
  clock : datetime;                 (** [datetime.datetime.now()] *)
  hostname : string;                (** [socket.gethostname()] *)
  platform_system : string;         (** [platform.system()] *)
  gethostbyname : string -> Result string  (** [socket.gethostbyname] *)
}.

Definition set_heap (f : gmap loc Dict -> gmap loc Dict) (w : World) : World :=
  mk_World (f (heap w)) (timers w) (error_stream w) (bulk_calls w) (clock w)
    (hostname w) (platform_system w) (gethostbyname w).
Definition set_timers (f : list TimerStatus -> list TimerStatus) (w : World) : World :=
  mk_World (heap w) (f (timers w)) (error_stream w) (bulk_calls w) (clock w)
    (hostname w) (platform_system w) (gethostbyname w).
Definition set_error_stream (f : list Exn -> list Exn) (w : World) : World :=
  mk_World (heap w) (timers w) (f (error_stream w)) (bulk_calls w) (clock w)
    (hostname w) (platform_system w) (gethostbyname w).
Definition set_bulk_calls (f : list (list Action) -> list (list Action)) (w : World) : World :=
  mk_World (heap w) (timers w) (error_stream w) (f (bulk_calls w)) (clock w)
    (hostname w) (platform_system w) (gethostbyname w).

(** ** Dict objects *)

(** The dict a reference points to. *)
Definition deref (w : World) (l : loc) : Dict := default ∅ (heap w !! l).

(** A new dict object with the content [d]. *)
Definition dict_new (d : Dict) : M World loc := fun w =>
  let l := fresh (dom (heap w)) in
  (Ok l, set_heap <[l := d]> w).

(** [l.copy()]. *)
Definition dict_copy (l : loc) : M World loc :=
  d ← gets (fun w => deref w l); dict_new d.

(** [l.update(other)]: the keys of [other] win. *)
Definition dict_update (l : loc) (other : Dict) : M World unit :=
  modify (fun w => set_heap <[l := other ∪ deref w l]> w).

(** ** Timers *)

(** [threading.Timer(interval, function)]: a new timer object, not started.
    Every timer of this program runs the handler's [flush]. *)
Definition Timer_new : M World nat := fun w =>
  (Ok (length (timers w)), set_timers (fun ts => ts ++ [Initial]) w).

Definition Timer_set (t : nat) (st : TimerStatus) : M World unit :=
  modify (set_timers <[t := st]>).

Definition Timer_status (w : World) (t : nat) : TimerStatus :=
  default Finished (timers w !! t).

(** [t.start()]. *)
Definition Timer_start (t : nat) : M World unit := fun w =>
  match Timer_status w t with
  | Initial => Timer_set t Waiting w
  | _ => (Raise (Exception "threads can only be started once"), w)
  end.

(** [t.is_alive()]: the thread has been started and has not ended.  (The
    thread of a cancelled timer ends at once; [flush] asks only to know
    whether to call [cancel], which does nothing on such a timer.) *)
Definition Timer_is_alive (t : nat) : M World bool :=
  gets (fun w =>
    match Timer_status w t with
    | Waiting | Running => true
    | _ => false
    end).

(** [t.cancel()]: stops the timer if it is still waiting. *)
Definition Timer_cancel (t : nat) : M World unit := fun w =>
  match Timer_status w t with
  | Waiting => Timer_set t Cancelled w
  | _ => (Ok tt, w)
  end.

(** The timers that will still fire. *)
Definition live_timers (w : World) : list nat :=
  filter (fun t => Timer_status w t = Waiting) (seq 0 (length (timers w))).

(** ** The outside world *)

(** What is not the handler's to decide when it transmits, and is an
    argument of every operation that may transmit:
    - [client_error]: the exception that [self._get_es_client()] raises when
      it is called there, if it raises one (the method is in module
      [Client] below: a client that was made before is returned, otherwise
      one is made, which can fail);
    - [helpers_bulk]: what [helpers.bulk] does with the actions it is
      given: it returns, or raises. *)
Record Backend : Type := mk_Backend {
  client_error : option Exn;
  helpers_bulk : list Action -> option Exn
}.

(** [self._get_es_client()] as [flush] sees it: a client, or an
    exception. *)
Definition es_client {S} (backend : Backend) : M S unit :=
  match client_error backend with
  | None => mret tt
  | Some e => raise e
  end.

Definition bulk (backend : Backend) (actions : list Action) : M World unit :=
  modify (set_bulk_calls (fun cs => cs ++ [actions]));;
  match helpers_bulk backend actions with
  | None => mret tt
  | Some e => raise e
  end.

(** [traceback.print_exc(file=error_stream)]. *)
Definition print_exc (e : Exn) : M World unit :=
  modify (set_error_stream (fun es => es ++ [e])).

End Py.

(* ====================================================================== *)
(** * [eslogging/handlers.py] *)
(* ====================================================================== *)

Module Handlers.
Import Exc Calendar Fmt Py.

(** [ESHandler.IndexNameFrequency]. *)
Inductive IndexNameFrequency : Type :=
| NO_FREQ | DAILY | WEEKLY | MONTHLY | YEARLY.

Definition __DEFAULT_INDEX_FREQUENCY : IndexNameFrequency := DAILY.
Definition __DEFAULT_BUFFER_SIZE : Z := 1000.
Definition __DEFAULT_ES_INDEX_NAME : string := "python_logger".
Definition __DEFAULT_ES_DOC_TYPE : string := "python_log".
Definition __DEFAULT_RAISE_ON_EXCEPTION : bool := false.
Definition __DEFAULT_TIMESTAMP_FIELD_NAME : string := "timestamp".

Definition __LOGGING_FILTER_FIELDS : list string :=
  ["msecs"; "relativeCreated"; "levelno"; "created"].

(** The fields of a handler object that the methods below read or write.
    (The interval of the timer is left out: when a waiting timer fires is
    the scheduler's choice, see [Timer_run].) *)
Record ESHandler : Type := mk_ESHandler {
  buffer_size : Z;
  es_index_name : string;
  index_name_frequency : IndexNameFrequency;
  es_doc_type : string;
  es_additional_fields : loc;
  raise_on_indexing_exceptions : bool;
  default_timestamp_field_name : string;
  _timed_flush : bool;
  _buffer : list Dict;
  _timer : option nat
}.

(** A log record is its attribute dictionary, [record.__dict__]. *)
Abbreviation LogRecord := (gmap string Value).

(** The state the methods run in: the handler and the world around it. *)
Record State : Type := mk_State { self : ESHandler; world : World }.

Definition set__buffer (f : list Dict -> list Dict) (s : State) : State :=
  let h := self s in
  mk_State
    (mk_ESHandler (buffer_size h) (es_index_name h) (index_name_frequency h)
       (es_doc_type h) (es_additional_fields h)
       (raise_on_indexing_exceptions h) (default_timestamp_field_name h)
       (_timed_flush h) (f (_buffer h)) (_timer h))
    (world s).

Definition set__timer (t : option nat) (s : State) : State :=
  let h := self s in
  mk_State
    (mk_ESHandler (buffer_size h) (es_index_name h) (index_name_frequency h)
       (es_doc_type h) (es_additional_fields h)
       (raise_on_indexing_exceptions h) (default_timestamp_field_name h)
       (_timed_flush h) (_buffer h) t)
    (world s).

(** A computation on the world, run from a method. *)
Definition in_world {A} (m : M World A) : M State A := fun s =>
  let '(r, w) := m (world s) in (r, mk_State (self s) w).

(** ** Index names *)

Definition datetime_now : M World datetime := gets clock.

Definition _get_daily_index_name (es_index_name : string) : M World string :=
  now ← datetime_now;
  mret (es_index_name +:+ "-" +:+ strftime "%Y.%m.%d" now).

Definition _get_weekly_index_name (es_index_name : string) : M World string :=
  current_date ← datetime_now;
  start_of_the_week ← lift_result (sub_days current_date (weekday current_date));
  mret (es_index_name +:+ "-" +:+ strftime "%Y.%m.%d" start_of_the_week).

Definition _get_monthly_index_name (es_index_name : string) : M World string :=
  now ← datetime_now;
  mret (es_index_name +:+ "-" +:+ strftime "%Y.%m" now).

Definition _get_unchanged_index_name (es_index_name : string) : M World string :=
  mret es_index_name.

Definition _get_yearly_index_name (es_index_name : string) : M World string :=
  now ← datetime_now;
  mret (es_index_name +:+ "-" +:+ strftime "%Y" now).

Definition _INDEX_FREQUENCY_FUNCION_DICT (f : IndexNameFrequency)
  : string -> M World string :=
  match f with
  | NO_FREQ => _get_unchanged_index_name
  | DAILY => _get_daily_index_name
  | WEEKLY => _get_weekly_index_name
  | MONTHLY => _get_monthly_index_name
  | YEARLY => _get_yearly_index_name
  end.

(** [self._index_name_func], set once by [__init__] from the frequency. *)
Definition _index_name_func (h : ESHandler) : string -> M World string :=
  _INDEX_FREQUENCY_FUNCION_DICT (index_name_frequency h).

(** ** Construction *)

(** The arguments of [__init__] that reach the fields above. *)
Record InitArgs : Type := mk_InitArgs {
  arg_buffer_size : Z;
  arg_es_index_name : string;
  arg_index_name_frequency : IndexNameFrequency;
  arg_es_doc_type : string;
  arg_es_additional_fields : option loc;
  arg_raise_on_indexing_exceptions : bool;
  arg_default_timestamp_field_name : string;
  arg_timed_flush : bool
}.

Definition default_args : InitArgs :=
  mk_InitArgs __DEFAULT_BUFFER_SIZE __DEFAULT_ES_INDEX_NAME
    __DEFAULT_INDEX_FREQUENCY __DEFAULT_ES_DOC_TYPE None
    __DEFAULT_RAISE_ON_EXCEPTION __DEFAULT_TIMESTAMP_FIELD_NAME false.

(** [err.errno] in the handler of [gethostbyname]'s failure. *)
Definition errno_of (err : Exn) : Result Z :=
  match err with
  | OSError n => Ok n
  | _ => Raise (AttributeError "object has no attribute 'errno'")
  end.

Definition __init__ (args : InitArgs) : M World ESHandler :=
  fields ← match arg_es_additional_fields args with
           | None => dict_new ∅
           | Some d => dict_copy d
           end;
  host ← gets hostname;
  system ← gets platform_system;
  host_ip ← (if negb (String.eqb system "Darwin") then
               try_except
                 (resolve ← gets gethostbyname; lift_result (resolve host))
                 (fun err =>
                    n ← lift_result (errno_of err);
                    if n =? 8 then mret "127.0.0.1" else raise err)
             else mret "127.0.0.1");
  dict_update fields
    (<["host" := VStr host]> (<["host_ip" := VStr host_ip]> ∅));;
  mret (mk_ESHandler (arg_buffer_size args) (arg_es_index_name args)
          (arg_index_name_frequency args) (arg_es_doc_type args) fields
          (arg_raise_on_indexing_exceptions args)
          (arg_default_timestamp_field_name args) (arg_timed_flush args)
          [] None).

(** ** The scheduler *)

Definition _schedule_flush : M State unit :=
  timer ← gets (fun s => _timer (self s));
  match timer with
  | None =>
      t ← in_world Timer_new;
      modify (set__timer (Some t));;
      in_world (Timer_start t)
  | Some _ => mret tt
  end.

(** ** The timestamp *)

(** The integer nearest to [num/den], ties to the even one. *)
Definition round_half_even (num : Z) (den : positive) : Z :=
  let q := num / Z.pos den in
  let r := num mod Z.pos den in
  match 2 * r ?= Z.pos den with
  | Lt => q
  | Gt => q + 1
  | Eq => if Z.even q then q else q + 1
  end.

(** The exponent of the leading bit of [num/den], for [num > 0]: the
    greatest [k] with [2^k <= num/den]. *)
Definition exponent (num : Z) (den : positive) : Z :=
  let k := Z.log2 num - Z.log2 (Z.pos den) in
  if (if 0 <=? k then Z.pos den * 2 ^ k <=? num
      else Z.pos den <=? num * 2 ^ (- k))
  then k else k - 1.

(** The result of a floating-point operation whose exact result is
    [num/den]: the nearest binary64 number, ties to the even mantissa.  It
    is a multiple of [2^e], where [e] leaves 53 bits to the mantissa and is
    not below -1074 (the subnormal numbers).  Overflow is left out: the
    results below are less than [10^6] in absolute value. *)
Definition round_binary64 (num : Z) (den : positive) : Z * positive :=
  if num =? 0 then (0, 1%positive)
  else
    let e := Z.max (exponent (Z.abs num) den - 52) (- 1074) in
    if 0 <=? e then
      (round_half_even num (den * Z.to_pos (2 ^ e)) * 2 ^ e, 1%positive)
    else
      (round_half_even (num * 2 ^ (- e)) den, Z.to_pos (2 ^ (- e))).

(** The whole number of microseconds [utcfromtimestamp] makes of its
    argument.  An integer is a number of seconds.  A float is split by
    [modf] into its integral and its fractional part, which has the sign
    of the number; the fractional part is multiplied by [1e6] in floating
    point, and the product is rounded to the nearest integer, ties to the
    even one (the conversion of CPython's [pytime.c]; the pure-Python
    [_fromtimestamp] does the same with [round(frac * 1e6)]); a result of
    [10^6], or a negative one, is carried over to the seconds, which the
    sum does here. *)
Definition timestamp_us (timestamp : Value) : Result Z :=
  match timestamp with
  | VInt n => Ok (n * US_PER_SECOND)
  | VBool b => Ok (if b then US_PER_SECOND else 0)
  | VFloat num den =>
      let intpart := Z.quot num (Z.pos den) in
      let frac := Z.rem num (Z.pos den) in
      let '(p, q) := round_binary64 (frac * US_PER_SECOND) den in
      Ok (intpart * US_PER_SECOND + round_half_even p q)
  | _ => Raise (TypeError "an integer is required")
  end.

(** [int(current_date.microsecond / 1000)] is the quotient of the integer
    division: the microseconds are below 10^6, where the float division and
    the truncation lose nothing. *)
Definition _get_es_datetime_str (timestamp : Value) : Result string :=
  us ← timestamp_us timestamp;
  current_date ← utcfromtimestamp us;
  mret (strftime "%Y-%m-%dT%H:%M:%S" current_date +:+ "."
        +:+ format_0d 3 (microsecond current_date / 1000) +:+ "Z").

(** ** [flush] *)

(** The actions generator of [flush], one action per buffered entry. *)
Definition actions_of (h : ESHandler) (logs_buffer : list Dict)
  : M World (list Action) :=
  for_each logs_buffer (fun log_record =>
    index ← _index_name_func h (es_index_name h);
    mret (mk_Action index (es_doc_type h) log_record)).

(** The body of the [try] of [flush]: the transmission of the buffer, and
    its reset once [helpers.bulk] has returned.  The arguments of
    [helpers.bulk] are evaluated first, so [self._get_es_client()] comes
    before the call, and no call is made when it raises; the generator
    [actions] is read by [helpers.bulk].  The buffer lock taken around the
    body is not modelled: the methods run one at a time here. *)
Definition transmit (backend : Backend) : M State unit :=
  h ← gets self;
  let logs_buffer := _buffer h in
  es_client backend;;
  actions ← in_world (actions_of h logs_buffer);
  in_world (bulk backend actions);;
  modify (set__buffer (fun _ => [])).

Definition flush (backend : Backend) : M State unit :=
  timer ← gets (fun s => _timer (self s));
  match timer with
  | Some t =>
      alive ← in_world (Timer_is_alive t);
      if alive : bool then in_world (Timer_cancel t) else mret tt
  | None => mret tt
  end;;
  modify (set__timer None);;
  buffer ← gets (fun s => _buffer (self s));
  match buffer with
  | [] => mret tt
  | _ :: _ =>
      try_except (transmit backend)
        (fun exception =>
           fail_fast ← gets (fun s => raise_on_indexing_exceptions (self s));
           if fail_fast : bool then raise exception
           else
             in_world (print_exc exception);;
             _schedule_flush)
  end.

(** ** [close] *)

Definition close (backend : Backend) : M State unit :=
  timer ← gets (fun s => _timer (self s));
  match timer with
  | Some _ => flush backend
  | None => mret tt
  end;;
  modify (set__timer None).

(** ** [emit] *)

Definition _try_flush (backend : Backend) : M State unit :=
  h ← gets self;
  if (buffer_size h <=? Z.of_nat (length (_buffer h))) && negb (_timed_flush h)
  then flush backend
  else _schedule_flush.

Section emit.
Context `{Builtins}.

(** What the loop over [record.__dict__.items()] stores for an attribute
    that is not filtered out: [tuple(str(arg) for arg in value)] for
    [args], and [""] for [None]. *)
Definition stored (key : string) (value : Value) : Result Value :=
  value ← (if String.eqb key "args"
           then args ← iter value;
                mret (VTuple ((fun arg => VStr (str arg)) <$> args))
           else mret value);
  mret (match value with VNone => VStr "" | _ => value end).

(** One turn of that loop. *)
Definition emit_item (key : string) (value : Value) (rec : Result Dict)
  : Result Dict :=
  rec ← rec;
  if bool_decide (key ∈ __LOGGING_FILTER_FIELDS) then mret rec
  else value ← stored key value; mret (<[key := value]> rec).

(** [record.created]. *)
Definition created (record : LogRecord) : Result Value :=
  match record !! "created" with
  | Some v => Ok v
  | None => Raise (AttributeError "'LogRecord' object has no attribute 'created'")
  end.

(** The entry [emit] builds for a record, from the additional fields
    [fields] and the name [ts] of the timestamp field (the first seven
    lines of [emit]). *)
Definition entry_of (fields : Dict) (ts : string) (record : LogRecord)
  : Result Dict :=
  rec ← map_fold emit_item (Ok fields) record;
  timestamp ← created record;
  stamp ← _get_es_datetime_str timestamp;
  mret (<[ts := VStr stamp]> rec).

Definition emit (backend : Backend) (record : LogRecord) : M State unit :=
  fields ← gets (fun s => deref (world s) (es_additional_fields (self s)));
  ts ← gets (fun s => default_timestamp_field_name (self s));
  rec ← lift_result (entry_of fields ts record);
  modify (set__buffer (fun b => b ++ [rec]));;
  _try_flush backend.

End emit.

(** ** The timer thread *)

(** What the thread of timer [t] does once its interval has elapsed: it
    runs [flush]; the thread ends when [flush] returns or raises.  A timer
    that is not waiting does not fire. *)
Definition Timer_run (backend : Backend) (t : nat) : M State unit := fun s =>
  match Timer_status (world s) t with
  | Waiting =>
      let '(r, s1) := (in_world (Timer_set t Running);; flush backend) s in
      let '(_, s2) := in_world (Timer_set t Finished) s1 in
      (r, s2)
  | _ => (Ok tt, s)
  end.

(** ** Notions used to state the properties *)

(** The two handler objects have the same configuration: they differ at
    most in the buffer and in the timer. *)
Definition same_config (h h' : ESHandler) : Prop :=
  buffer_size h' = buffer_size h /\
  es_index_name h' = es_index_name h /\
  index_name_frequency h' = index_name_frequency h /\
  es_doc_type h' = es_doc_type h /\
  es_additional_fields h' = es_additional_fields h /\
  raise_on_indexing_exceptions h' = raise_on_indexing_exceptions h /\
  default_timestamp_field_name h' = default_timestamp_field_name h /\
  _timed_flush h' = _timed_flush h.

(** The two worlds differ at most in what the methods write: the timers,
    the error stream and the calls of [helpers.bulk]. *)
Definition same_surroundings (w w' : World) : Prop :=
  heap w' = heap w /\ clock w' = clock w /\ hostname w' = hostname w /\
  platform_system w' = platform_system w /\
  gethostbyname w' = gethostbyname w.

(** The timers once the timer the handler holds, if any, is cancelled. *)
Definition held_cancelled (s : State) : list TimerStatus :=
  match _timer (self s) with
  | Some t =>
      match Timer_status (world s) t with
      | Waiting => <[t := Cancelled]> (timers (world s))
      | _ => timers (world s)
      end
  | None => timers (world s)
  end.

(** The calls of [helpers.bulk] that a transmission of the buffer makes:
    one, with the actions of the buffer; none if there is no client, or if
    making the actions raises. *)
Definition attempted (backend : Backend) (s : State) : list (list Action) :=
  match client_error backend with
  | Some _ => []
  | None =>
      match (actions_of (self s) (_buffer (self s)) (world s)).1 with
      | Ok acts => [acts]
      | Raise _ => []
      end
  end.

(** Every timer that will still fire is the one the handler holds. *)
Definition timers_held (s : State) : Prop :=
  forall t, Timer_status (world s) t = Waiting -> _timer (self s) = Some t.

(** The timer the handler holds, if any, will still fire. *)
Definition held_waiting (s : State) : Prop :=
  forall t, _timer (self s) = Some t -> Timer_status (world s) t = Waiting.

(** [us] is the instant [timestamp], a number of seconds, in whole
    microseconds: exactly when the number is an integer; to less than one
    microsecond when it is a float, and to the nearest microsecond when the
    float is a multiple of [2^-33], as every float from [2^19] on is (the
    instants from 7 January 1970 on). *)
Definition microseconds_of (timestamp : Value) (us : Z) : Prop :=
  match timestamp with
  | VInt n => us = n * US_PER_SECOND
  | VBool b => us = (if b then 1 else 0) * US_PER_SECOND
  | VFloat num den =>
      Z.abs (us * Z.pos den - num * US_PER_SECOND) < Z.pos den /\
      ((Z.pos den | 2 ^ 33) ->
       2 * Z.abs (us * Z.pos den - num * US_PER_SECOND) <= Z.pos den)
  | _ => False
  end.

(** ** Histories *)

(** What can happen to a handler: the application logs a record, flushes,
    closes, or a timer fires; each time the backend answers as it likes. *)
Inductive Call : Type :=
| Emit (backend : Backend) (record : LogRecord)
| Flush (backend : Backend)
| Close (backend : Backend)
| Fire (backend : Backend) (t : nat).

Definition call `{Builtins} (c : Call) : M State unit :=
  match c with
  | Emit backend record => emit backend record
  | Flush backend => flush backend
  | Close backend => close backend
  | Fire backend t => Timer_run backend t
  end.

Definition is_close (c : Call) : bool :=
  match c with Close _ => true | _ => false end.

(** The state after a history; an exception ends the call that raised it,
    not the history. *)
Definition run `{Builtins} (cs : list Call) (s : State) : State :=
  foldl (fun s c => (call c s).2) s cs.

End Handlers.

(* ====================================================================== *)
(** * Sample data *)
(* ====================================================================== *)

Module Samples.
Import Exc Calendar Fmt Py Handlers.

(** A [str] for the scalars; containers are not printed. *)
Definition sample_str (v : Value) : string :=
  match v with
  | VNone => "None"
  | VBool true => "True"
  | VBool false => "False"
  | VInt n => str_int n
  | VStr s => s
  | _ => "..."
  end.

Definition sample_builtins : Builtins := {| str := sample_str |}.

(** A Linux host on Wednesday 2026-11-04, 10:30 local time, with the
    caller's dictionary [{'App': 'Test'}] at reference 1. *)
Definition caller_fields : Dict := <["App" := VStr "Test"]> ∅.

Definition sample_world : World :=
  mk_World (<[1%positive := caller_fields]> ∅) [] [] []
    (mk_datetime 2026 11 4 10 30 0 0) "box" "Linux"
    (fun _ => Ok "10.0.0.1").

(** A backend that accepts everything, and one that is down. *)
Definition backend_up : Backend := mk_Backend None (fun _ => None).
Definition backend_down : Backend :=
  mk_Backend None (fun _ => Some (Exception "connection refused")).

(** A handler whose client cannot be made: [helpers.bulk] would accept
    everything, and is not reached. *)
Definition backend_without_client : Backend :=
  mk_Backend (Some (ValueError "Authentication method not supported"))
    (fun _ => None).

(** [ESHandler(es_additional_fields={'App': 'Test'}, ...)] on that host. *)
Definition sample_args (fail_fast : bool) : InitArgs :=
  mk_InitArgs __DEFAULT_BUFFER_SIZE __DEFAULT_ES_INDEX_NAME
    __DEFAULT_INDEX_FREQUENCY __DEFAULT_ES_DOC_TYPE (Some 1%positive)
    fail_fast __DEFAULT_TIMESTAMP_FIELD_NAME false.

Definition sample_handler (fail_fast : bool) : State :=
  match __init__ (sample_args fail_fast) sample_world with
  | (Ok h, w) => mk_State h w
  | (Raise _, w) =>
      mk_State (mk_ESHandler 0 "" NO_FREQ "" 1%positive false "" false [] None) w
  end.

(** [ESHandler(buffer_size=1, es_additional_fields={'App': 'Test'})]: every
    record fills the buffer. *)
Definition eager_handler : State :=
  match __init__
          (mk_InitArgs 1 __DEFAULT_ES_INDEX_NAME __DEFAULT_INDEX_FREQUENCY
             __DEFAULT_ES_DOC_TYPE (Some 1%positive) false
             __DEFAULT_TIMESTAMP_FIELD_NAME false) sample_world with
  | (Ok h, w) => mk_State h w
  | (Raise _, w) =>
      mk_State (mk_ESHandler 0 "" NO_FREQ "" 1%positive false "" false [] None) w
  end.

(** A record as [logging] makes it for [log.warning("disk %s", "full")] at
    1700000000.123456 seconds after the epoch. *)
Definition sample_record : LogRecord :=
  <["name" := VStr "app"]>
  (<["msg" := VStr "disk %s"]>
  (<["args" := VTuple [VStr "full"]]>
  (<["levelname" := VStr "WARNING"]>
  (<["levelno" := VInt 30]>
  (<["exc_info" := VNone]>
  (<["created" := VFloat 1700000000123456 1000000]>
  (<["msecs" := VFloat 123456 1000]>
  (<["relativeCreated" := VFloat 5 1]> ∅)))))))).

(** The handler once it has been given [sample_record]: one entry in the
    buffer, timer 0 waiting. *)
Definition one_buffered (fail_fast : bool) : State :=
  @run sample_builtins [Emit backend_up sample_record] (sample_handler fail_fast).

(** [log.warning("disk %s", "full", extra={"timestamp": 123})]. *)
Definition record_with_timestamp_extra : LogRecord :=
  <["timestamp" := VInt 123]> sample_record.

(** A record whose [args] is [None], as [logging.makeLogRecord] makes of a
    record received from a [SocketHandler]. *)
Definition record_args_None : LogRecord :=
  <["args" := VNone]> sample_record.

(** A record whose creation time is the first second of the year 10000. *)
Definition record_of_year_10000 : LogRecord :=
  <["created" := VInt 253402300800]> sample_record.

End Samples.

(* ====================================================================== *)
(** * Log records *)
(* ====================================================================== *)

Module Records.
Import Exc Py Handlers.

(** [record.<name>]. *)
Definition attribute (record : LogRecord) (name : string) : Result Value :=
  match record !! name with
  | Some v => Ok v
  | None =>
      Raise (AttributeError
               ("'LogRecord' object has no attribute '" +:+ name +:+ "'"))
  end.

(** The truth value of a value, as [if v:] tests it. *)
Definition truthy (v : Value) : bool :=
  match v with
  | VNone => false
  | VBool b => b
  | VInt n => negb (n =? 0)
  | VFloat num _ => negb (num =? 0)
  | VStr s => negb (String.eqb s "")
  | VTuple items | VList items => negb (Nat.eqb (length items) 0)
  | VDict items => negb (Nat.eqb (length items) 0)
  end.

(** What the records and the handler below call and this development does
    not define: [json.dumps(v)] and the formatting [msg % args]. *)
Class Text : Type := {
  json_dumps : Value -> Result string;
  percent : string -> Value -> Result string
}.

(** [LogRecord.getMessage], after CPython's [logging/__init__.py]. *)
Definition getMessage `{Builtins} `{Text} (record : LogRecord) : Result string :=
  msg ← attribute record "msg";
  let msg := str msg in
  args ← attribute record "args";
  if truthy args then percent msg args else mret msg.

End Records.

(* ====================================================================== *)
(** * [ESHandlerIgnoreESLogs] *)
(* ====================================================================== *)

Module IgnoreESLogs.
Import Exc Py Handlers Records.

Section methods.
Context `{Builtins} `{Text}.

Definition log_keys : list string :=
  ["levelname"; "pathname"; "lineno"; "funcName"; "threadName";
   "processName"; "process"].

(** One turn of the loop over [log_keys]. *)
Definition copy_key (record : LogRecord) (rec : Dict) (key : string) : Dict :=
  match default VNone (record !! key) with
  | VNone => rec
  | v => <[key := VStr (str v)]> rec
  end.

(** The entry [_emit] builds for a record (its lines before the buffer
    is touched). *)
Definition entry_of (fields : Dict) (ts : string) (record : LogRecord)
  : Result Dict :=
  let rec := fields in
  message ← getMessage record;
  let rec := <["msg" := VStr message]> rec in
  let rec := foldl (copy_key record) rec log_keys in
  timestamp ← created record;
  stamp ← _get_es_datetime_str timestamp;
  mret (<[ts := VStr stamp]> rec).

Definition _emit (backend : Backend) (record : LogRecord) : M State unit :=
  fields ← gets (fun s => deref (world s) (es_additional_fields (self s)));
  ts ← gets (fun s => default_timestamp_field_name (self s));
  rec ← lift_result (entry_of fields ts record);
  modify (set__buffer (fun b => b ++ [rec]));;
  _try_flush backend.

(** The first four lines of [emit]: the record once [record.msg] has been
    made a string. *)
Definition stringified (record : LogRecord) : Result LogRecord :=
  msg ← attribute record "msg";
  match msg with
  | VDict _ | VList _ | VTuple _ =>
      text ← json_dumps msg; mret (<["msg" := VStr text]> record)
  | VStr _ => mret record
  | _ => mret (<["msg" := VStr (str msg)]> record)
  end.

(** [emit] writes to the record it is given: the result is the outcome,
    the state, and the record as the caller finds it afterwards. *)
Definition emit (backend : Backend) (record : LogRecord) (s : State)
  : Result unit * State * LogRecord :=
  match stringified record with
  | Ok record' => (_emit backend record' s, record')
  | Raise e => (Raise e, s, record)
  end.

End methods.

End IgnoreESLogs.

(* ====================================================================== *)
(** * The filter on records of the Elasticsearch client *)
(* ====================================================================== *)

Module ESFilter.
Import Exc Py Handlers Records.

Local Open Scope N_scope.

(** The part of Python's [re] that the pattern of the handler uses, on
    [str]: a character is a code point.  The pattern has ASCII characters
    only. *)
Inductive Atom : Type :=
| Dot                     (** [.]: any character but a newline *)
| Lit (c : N)             (** a literal character *)
| OneOf (cs : list N)     (** [[...]]: one of the characters listed *).

Inductive Item : Type :=
| One (a : Atom)          (** the atom, once *)
| Plus (a : Atom)         (** [a+] *)
| Star (a : Atom)         (** [a*] *)
| Dollar.                 (** [$] *)

Definition newline : N := 10.

(** A string of this development holds a [str] as its UTF-8 encoding.  The
    bits that a continuation byte carries: *)
Definition continuation (c : ascii) : option N :=
  let b := N_of_ascii c in
  if (128 <=? b) && (b <? 192) then Some (b - 128) else None.

(** The code points of a string: a byte below 128 is a character, and a
    byte from 192 on begins a character of two, three or four bytes.  (A
    byte that begins no such sequence is taken as it is; the encoding of a
    [str] has none.) *)
Fixpoint code_points (s : string) : list N :=
  match s with
  | EmptyString => []
  | String c0 s1 =>
      let b0 := N_of_ascii c0 in
      let alone := b0 :: code_points s1 in
      match s1 with
      | String c1 s2 =>
          match continuation c1 with
          | Some x1 =>
              if (192 <=? b0) && (b0 <? 224)
              then ((b0 - 192) * 64 + x1) :: code_points s2
              else
                match s2 with
                | String c2 s3 =>
                    match continuation c2 with
                    | Some x2 =>
                        if (224 <=? b0) && (b0 <? 240)
                        then ((b0 - 224) * 4096 + x1 * 64 + x2) :: code_points s3
                        else
                          match s3 with
                          | String c3 s4 =>
                              match continuation c3 with
                              | Some x3 =>
                                  if (240 <=? b0) && (b0 <? 248)
                                  then ((b0 - 240) * 262144 + x1 * 4096
                                        + x2 * 64 + x3) :: code_points s4
                                  else alone
                              | None => alone
                              end
                          | EmptyString => alone
                          end
                    | None => alone
                    end
                | EmptyString => alone
                end
          | None => alone
          end
      | EmptyString => alone
      end
  end.

(** The characters of a pattern, written as an ASCII string. *)
Definition codes (s : string) : list N :=
  N_of_ascii <$> list_ascii_of_string s.

(** The lower case of a character, where it is an ASCII character: of the
    letters A-Z, of U+0130 (capital I with a dot above) and of U+212A (the
    Kelvin sign).  The lower case of any other character, itself or not, is
    not an ASCII character, and is not needed to compare with the
    characters of an ASCII pattern: it is left as it is. *)
Definition lower (c : N) : N :=
  if (65 <=? c) && (c <=? 90) then c + 32
  else if c =? 304 then 105
  else if c =? 8490 then 107
  else c.

(** What [re.I] takes for equal beyond the lower case, as far as ASCII
    letters go: U+0131 (dotless i) is an [i], and U+017F (long s) is an
    [s] (the [_ignorecase_fixes] of [sre_compile]). *)
Definition fold (c : N) : N :=
  let c := lower c in
  if c =? 305 then 105 else if c =? 383 then 115 else c.

Definition same_char (ignorecase : bool) (c p : N) : bool :=
  if ignorecase then fold c =? fold p else c =? p.

Definition atom_matches (ignorecase : bool) (a : Atom) (c : N) : bool :=
  match a with
  | Dot => negb (c =? newline)
  | Lit p => same_char ignorecase c p
  | OneOf cs => existsb (same_char ignorecase c) cs
  end.

(** A repetition: as many characters as the atom matches, then the rest of
    the pattern ([k]); one character less when the rest does not match. *)
Fixpoint many (ignorecase : bool) (a : Atom) (k : list N -> bool) (s : list N)
  : bool :=
  match s with
  | c :: s' => atom_matches ignorecase a c && many ignorecase a k s' || k s
  | [] => k s
  end.

(** [$] without [re.M]: at the end of the string, or before the newline
    that ends it. *)
Definition at_end (s : list N) : bool :=
  match s with
  | [] => true
  | [c] => c =? newline
  | _ => false
  end.

(** Whether the pattern matches a prefix of [s]. *)
Fixpoint match_here (ignorecase : bool) (p : list Item) (s : list N) : bool :=
  match p with
  | [] => true
  | One a :: p' =>
      match s with
      | c :: s' => atom_matches ignorecase a c && match_here ignorecase p' s'
      | [] => false
      end
  | Plus a :: p' =>
      match s with
      | c :: s' =>
          atom_matches ignorecase a c
          && many ignorecase a (match_here ignorecase p') s'
      | [] => false
      end
  | Star a :: p' => many ignorecase a (match_here ignorecase p') s
  | Dollar :: p' => at_end s && match_here ignorecase p' s
  end.

(** A compiled pattern, and [pattern.match(s)] as a truth value: a match
    object is true, [None] is false. *)
Record Pattern : Type := compile { items : list Item; ignorecase : bool }.

Definition re_match (p : Pattern) (s : string) : bool :=
  match_here (ignorecase p) (items p) (code_points s).

Definition lits (s : string) : list Item := (fun c => One (Lit c)) <$> codes s.

(** [re.compile(r'.+elasticsearch[\\/]connection[\\/]base.py.*$', re.I)] *)
Definition BASE_ES_MODULE_FILTER_RE : Pattern :=
  compile
    ([Plus Dot] ++ lits "elasticsearch" ++ [One (OneOf (codes "\/"))]
     ++ lits "connection" ++ [One (OneOf (codes "\/"))]
     ++ lits "base" ++ [One Dot] ++ lits "py" ++ [Star Dot; Dollar])
    true.

Definition es_filter (record : LogRecord) : Result bool :=
  pathname ← attribute record "pathname";
  match pathname with
  | VStr pathname => Ok (negb (re_match BASE_ES_MODULE_FILTER_RE pathname))
  | _ => Raise (TypeError "expected string or bytes-like object")
  end.

(** [logging.Handler.handle], after CPython's [logging/__init__.py], for
    a handler whose only filter is the one that [__init__] adds with
    [self.addFilter(self.es_filter)]: the record is emitted if the filter
    lets it through, and the result tells whether it did. *)
Definition handle `{Builtins} (backend : Backend) (record : LogRecord)
  : M State bool :=
  rv ← lift_result (es_filter record);
  (if rv : bool then emit backend record else mret tt);;
  mret rv.

End ESFilter.

(* ====================================================================== *)
(** * The Elasticsearch client of the handler *)
(* ====================================================================== *)

Module Client.
Import Exc Py Handlers.

(** [ESHandler.AuthType]. *)
Inductive AuthType : Type :=
| NO_AUTH | BASIC_AUTH | KERBEROS_AUTH | AWS_SIGNED_AUTH.

(** The [auth_type] a handler was given: a member of the enumeration, or
    some other value (which is equal to no member). *)
Inductive AuthArg : Type :=
| Member (a : AuthType)
| NotMember (v : Value).

(** What is passed to the [Elasticsearch] constructor under a keyword. *)
Inductive Arg : Type :=
| Given (v : Value)              (** a value the handler was given *)
| Serializer                     (** [self.serializer] *)
| RequestsHttpConnection         (** the connection class *)
| HTTPKerberosAuth_DISABLED      (** [HTTPKerberosAuth(mutual_authentication=DISABLED)] *)
| AWS4Auth (access_key secret_key region : Value) (service : string).

(** What the methods of this part raise: [EnvironmentError] (the other
    name of [OSError]) made of a message alone, so without an [errno], or
    an exception of [Exc]. *)
Inductive Error : Type :=
| EnvironmentError (msg : string)
| Raised (e : Exn).

Inductive Outcome (A : Type) : Type :=
| Done (a : A)
| Failed (e : Error).
Arguments Done {A} a.
Arguments Failed {A} e.

(** A request made on a client object. *)
Inductive Request : Type :=
| IndicesCreate (client : nat) (index : string) (body : Value) (ignore : Z)
| Ping (client : nat).

(** The fields of the handler that are read here; [__init__] sets them and
    no method writes them. *)
Record Settings : Type := mk_Settings {
  hosts : Value;
  auth_details : Value;
  aws_access_key : Value;
  aws_secret_key : Value;
  aws_region : Value;
  auth_type : AuthArg;
  index_name : string;             (** [self.es_index_name] *)
  kwargs : gmap string Value
}.

(** What changes: the field [_client], the [Elasticsearch] objects made so
    far (by number, with the keyword arguments each was made with), and the
    requests made on them, oldest first. *)
Record State : Type := mk_State {
  _client : option nat;
  clients : list (gmap string Arg);
  requests : list Request
}.

(** What is not the handler's to decide: which optional modules could be
    imported, and what the libraries answer. *)
Record Library : Type := mk_Library {
  KERBEROS_SUPPORTED : bool;
  AWS4AUTH_SUPPORTED : bool;
  Elasticsearch_init : gmap string Arg -> option Exn;
  AWS4Auth_init : Value -> Value -> Value -> string -> option Exn;
  indices_create : string -> Value -> Z -> option Exn;
  ping : Result bool
}.

Definition C (A : Type) : Type := State -> Outcome A * State.

Global Instance C_ret : MRet C := fun A a st => (Done a, st).
Global Instance C_bind : MBind C := fun A B f m st =>
  match m st with
  | (Done a, st') => f a st'
  | (Failed e, st') => (Failed e, st')
  end.

Definition fail {A} (e : Error) : C A := fun st => (Failed e, st).

(** A call [f(k1=v1, ..., **kwargs)]: a keyword given twice is a
    [TypeError], raised before [f] is entered. *)
Definition keywords (explicit : list (string * Arg)) (kwargs : gmap string Value)
  : Outcome (gmap string Arg) :=
  match List.find (fun kv => bool_decide (is_Some (kwargs !! kv.1))) explicit with
  | Some kv =>
      Failed (Raised (TypeError
        ("got multiple values for keyword argument '" +:+ kv.1 +:+ "'")))
  | None => Done (list_to_map explicit ∪ (Given <$> kwargs))
  end.

(** [Elasticsearch(k1=v1, ..., **kwargs)]: a new client object. *)
Definition Elasticsearch (lib : Library) (explicit : list (string * Arg))
    (kwargs : gmap string Value) : C nat := fun st =>
  match keywords explicit kwargs with
  | Failed e => (Failed e, st)
  | Done kw =>
      match Elasticsearch_init lib kw with
      | Some e => (Failed (Raised e), st)
      | None =>
          (Done (length (clients st)),
           mk_State (_client st) (clients st ++ [kw]) (requests st))
      end
  end.

(** [s] between double quotes. *)
Definition quoted (s : string) : string :=
  String (ascii_of_nat 34) s +:+ String (ascii_of_nat 34) "".

Definition set__client (client : nat) : C unit := fun st =>
  (Done tt, mk_State (Some client) (clients st) (requests st)).

Definition _get_es_client (lib : Library) (self : Settings) : C nat := fun st =>
  match _client st with
  | Some client => (Done client, st)
  | None =>
      (client ←
         match auth_type self with
         | Member NO_AUTH =>
             Elasticsearch lib
               [("hosts", Given (hosts self)); ("serializer", Serializer)]
               (kwargs self)
         | Member BASIC_AUTH =>
             Elasticsearch lib
               [("hosts", Given (hosts self));
                ("http_auth", Given (auth_details self));
                ("serializer", Serializer)]
               (kwargs self)
         | Member KERBEROS_AUTH =>
             if negb (KERBEROS_SUPPORTED lib) then
               fail (EnvironmentError
                 ("Kerberos module not available. Please install "
                  +:+ quoted "requests-kerberos"))
             else
               Elasticsearch lib
                 [("hosts", Given (hosts self));
                  ("connection_class", RequestsHttpConnection);
                  ("http_auth", HTTPKerberosAuth_DISABLED);
                  ("serializer", Serializer)]
                 (kwargs self)
         | Member AWS_SIGNED_AUTH =>
             if negb (AWS4AUTH_SUPPORTED lib) then
               fail (EnvironmentError
                 ("AWS4Auth not available. Please install "
                  +:+ quoted "requests-aws4auth"))
             else
               match AWS4Auth_init lib (aws_access_key self)
                       (aws_secret_key self) (aws_region self) "es" with
               | Some e => fail (Raised e)
               | None =>
                   Elasticsearch lib
                     [("hosts", Given (hosts self));
                      ("http_auth",
                       AWS4Auth (aws_access_key self) (aws_secret_key self)
                         (aws_region self) "es");
                      ("verify_certs", Given (VBool true));
                      ("connection_class", RequestsHttpConnection);
                      ("serializer", Serializer)]
                     (kwargs self)
               end
         | NotMember _ =>
             fail (Raised (ValueError "Authentication method not supported"))
         end;
       set__client client;;
       mret client) st
  end.

(** A request on a client: it is made, then the library answers. *)
Definition request {A} (r : Request) (answer : Outcome A) : C A := fun st =>
  (answer, mk_State (_client st) (clients st) (requests st ++ [r])).

Definition create_index_with_mapping (lib : Library) (self : Settings)
    (mapping : Value) : C unit :=
  client ← _get_es_client lib self;
  request (IndicesCreate client (index_name self) mapping 400)
    (match indices_create lib (index_name self) mapping 400 with
     | None => Done tt
     | Some e => Failed (Raised e)
     end).

Definition test_es_source (lib : Library) (self : Settings) : C bool :=
  client ← _get_es_client lib self;
  request (Ping client)
    (match ping lib with
     | Ok b => Done b
     | Raise e => Failed (Raised e)
     end).

(** The keywords the call of [Elasticsearch] spells out, by authentication
    type. *)
Definition spelled_out (a : AuthType) : list string :=
  match a with
  | NO_AUTH => ["hosts"; "serializer"]
  | BASIC_AUTH => ["hosts"; "http_auth"; "serializer"]
  | KERBEROS_AUTH => ["hosts"; "connection_class"; "http_auth"; "serializer"]
  | AWS_SIGNED_AUTH =>
      ["hosts"; "http_auth"; "verify_certs"; "connection_class"; "serializer"]
  end.

(** The authentication type can be used with the modules that could be
    imported. *)
Definition supported (lib : Library) (a : AuthType) : bool :=
  match a with
  | KERBEROS_AUTH => KERBEROS_SUPPORTED lib
  | AWS_SIGNED_AUTH => AWS4AUTH_SUPPORTED lib
  | _ => true
  end.

End Client.

(* ====================================================================== *)
(** * Notions on histories *)
(* ====================================================================== *)

Module Accounts.
Import Exc Py Handlers.

(** The backend that answers a call. *)
Definition backend_of (c : Call) : Backend :=
  match c with
  | Emit backend _ | Flush backend | Close backend | Fire backend _ => backend
  end.

(** The entries that the backend takes of those it is offered: the
    sources of the calls of [helpers.bulk] that return. *)
Definition delivered (backend : Backend) (calls : list (list Action))
  : list Dict :=
  concat ((fun acts : list Action => _source <$> acts)
            <$> List.filter
                  (fun acts => bool_decide (helpers_bulk backend acts = None))
                  calls).

(** The entries that are handed over during one call of a history: those
    of the calls of [helpers.bulk] made during the call and that its
    backend takes. *)
Definition taken `{Builtins} (c : Call) (s : State) : list Dict :=
  delivered (backend_of c)
    (drop (length (bulk_calls (world s))) (bulk_calls (world (call c s).2))).

(** The entries handed over along a history, oldest first. *)
Fixpoint taken_along `{Builtins} (cs : list Call) (s : State) : list Dict :=
  match cs with
  | [] => []
  | c :: cs' => taken c s ++ taken_along cs' (call c s).2
  end.

(** The entries that the calls of [emit] of a history append to the
    buffer, oldest first: one per record an entry can be built for. *)
Definition appended `{Builtins} (fields : Dict) (ts : string) (cs : list Call)
  : list Dict :=
  omap (fun c =>
          match c with
          | Emit _ record =>
              match entry_of fields ts record with
              | Ok rec => Some rec
              | Raise _ => None
              end
          | _ => None
          end) cs.

(** A retry is on its way: the timer the handler holds is waiting, and
    the buffer is empty when the handler holds none. *)
Definition retry_armed (s : State) : Prop :=
  match _timer (self s) with
  | Some t => Timer_status (world s) t = Waiting
  | None => _buffer (self s) = []
  end.

End Accounts.

(* ====================================================================== *)
(** * More sample data *)
(* ====================================================================== *)

Module MoreSamples.
Import Exc Calendar Fmt Py Handlers Records Samples.

(** A [json.dumps] for the scalars that are not strings and for the empty
    containers. *)
Definition sample_dumps (v : Value) : Result string :=
  match v with
  | VNone => Ok "null"
  | VBool true => Ok "true"
  | VBool false => Ok "false"
  | VInt n => Ok (str_int n)
  | VList [] | VTuple [] => Ok "[]"
  | VDict [] => Ok "{}"
  | _ => Raise (TypeError "Object is not JSON serializable")
  end.

(** A [%] for the conversion [%s] alone. *)
Fixpoint percent_s (msg : string) (args : list Value) : Result string :=
  match msg with
  | EmptyString =>
      match args with
      | [] => Ok ""
      | _ :: _ =>
          Raise (TypeError "not all arguments converted during string formatting")
      end
  | String c rest =>
      match rest with
      | String c' rest' =>
          if Ascii.eqb c "%" && Ascii.eqb c' "s" then
            match args with
            | arg :: args' =>
                text ← percent_s rest' args'; mret (sample_str arg +:+ text)
            | [] => Raise (TypeError "not enough arguments for format string")
            end
          else text ← percent_s rest args; mret (String c text)
      | EmptyString => text ← percent_s rest args; mret (String c text)
      end
  end.

Definition sample_text : Text :=
  {| json_dumps := sample_dumps;
     percent := fun msg args =>
       match args with
       | VTuple items => percent_s msg items
       | _ => percent_s msg [args]
       end |}.

(** A record made in the connection module of the Elasticsearch client. *)
Definition client_module_record : LogRecord :=
  <["pathname" :=
      VStr "/usr/lib/python3/site-packages/elasticsearch/connection/base.py"]>
    sample_record.

(** [log.warning({})] at line 42 of [/srv/app/main.py]. *)
Definition record_with_dict_msg : LogRecord :=
  <["msg" := VDict []]>
  (<["args" := VTuple []]>
  (<["lineno" := VInt 42]>
  (<["pathname" := VStr "/srv/app/main.py"]> sample_record))).

(** Libraries without [requests_kerberos] and [requests_aws4auth], whose
    [Elasticsearch] takes whatever it is given. *)
Definition sample_library : Client.Library :=
  Client.mk_Library false false (fun _ => None) (fun _ _ _ _ => None)
    (fun _ _ _ => None) (Ok true).

(** [ESHandler(auth_type=..., **kwargs)] with the defaults for the rest. *)
Definition sample_settings (auth_type : Client.AuthArg)
    (kwargs : gmap string Value) : Client.Settings :=
  Client.mk_Settings
    (VTuple [VDict [(VStr "host", VStr "localhost"); (VStr "port", VInt 9200)]])
    (VTuple [VStr ""; VStr ""]) (VStr "") (VStr "") (VStr "")
    auth_type __DEFAULT_ES_INDEX_NAME kwargs.

(** The keyword arguments of [test_get_es_client_with_kwargs]. *)
Definition sample_kwargs : gmap string Value :=
  <["ssl_context" := VStr "ssl-context"]>
    (<["unknown_arg" := VStr "unknown-value"]> ∅).

Definition no_client : Client.State := Client.mk_State None [] [].

(** Two floats of the same millisecond: 1700000000.0, and the float
    nearest to 1700000000.0009996, which is 7130316800004193 / 2^22. *)
Definition on_the_second : Value := VFloat 1700000000 1.
Definition late_in_the_millisecond : Value := VFloat 7130316800004193 4194304.

(** The float [0.1369995], which is 2467963588599777 / 2^54 and lies below
    136999.5 microseconds. *)
Definition below_the_half : Value :=
  VFloat 2467963588599777 18014398509481984.

(** The sample host at another moment. *)
Definition sample_world_at (now : datetime) : World :=
  mk_World (heap sample_world) (timers sample_world)
    (error_stream sample_world) (bulk_calls sample_world) now
    (hostname sample_world) (platform_system sample_world)
    (gethostbyname sample_world).

End MoreSamples.

(* ====================================================================== *)
(** * Properties *)
(* ====================================================================== *)

Import Exc Calendar Fmt Py Handlers Samples.

(** ** The calendar *)

Ltac eqb_cases :=
  repeat match goal with
         | |- context [?a =? ?b] => destruct (Z.eqb_spec a b)
         | |- context [?a <? ?b] => destruct (Z.ltb_spec a b)
         | |- context [?a <=? ?b] => destruct (Z.leb_spec a b)
         end.

Lemma is_leap_decompose (n400 n100 n4 n1 : Z) :
  0 <= n100 <= 3 -> 0 <= n4 <= 24 -> 0 <= n1 <= 3 ->
  _is_leap (n400 * 400 + 1 + (n100 * 100 + n4 * 4 + n1))
  = (n1 =? 3) && (negb (n4 =? 24) || (n100 =? 3)).
Proof.
  intros H100 H4 H1. unfold _is_leap.
  eqb_cases; simpl; try reflexivity; exfalso;
    Z.div_mod_to_equations; lia.
Qed.

Lemma days_before_year_decompose (n400 n100 n4 n1 : Z) :
  0 <= n100 <= 3 -> 0 <= n4 <= 24 -> 0 <= n1 <= 3 ->
  _days_before_year (n400 * 400 + 1 + (n100 * 100 + n4 * 4 + n1))
  = n400 * _DI400Y + n100 * _DI100Y + n4 * _DI4Y + n1 * 365.
Proof.
  intros H100 H4 H1. unfold _days_before_year, _DI400Y, _DI100Y, _DI4Y.
  cbv zeta. Z.div_mod_to_equations. lia.
Qed.

(** The month and the day of the month of the day number [n] of a year. *)
Lemma month_day_of_year (n : Z) (leapyear : bool) :
  0 <= n < 365 ->
  let month := Z.shiftr (n + 50) 5 in
  let preceding :=
    _DAYS_BEFORE_MONTH month + (if (2 <? month) && leapyear then 1 else 0) in
  let '(month, preceding) :=
    if n <? preceding
    then (month - 1,
          preceding
          - (_DAYS_IN_MONTH (month - 1)
             + (if (month - 1 =? 2) && leapyear then 1 else 0)))
    else (month, preceding) in
  1 <= month <= 12 /\
  preceding
  = _DAYS_BEFORE_MONTH month + (if (2 <? month) && leapyear then 1 else 0) /\
  1 <= n - preceding + 1
    <= _DAYS_IN_MONTH month + (if (month =? 2) && leapyear then 1 else 0).
Proof.
  intros Hn. rewrite Z.shiftr_div_pow2 by lia.
  change (2 ^ 5) with 32.
  assert (Hm : 1 <= (n + 50) / 32 <= 12) by (Z.div_mod_to_equations; lia).
  assert (Hlo : 32 * ((n + 50) / 32) <= n + 50 < 32 * ((n + 50) / 32) + 32)
    by (Z.div_mod_to_equations; lia).
  remember ((n + 50) / 32) as m eqn:Em. clear Em.
  assert (Hcases : m = 1 \/ m = 2 \/ m = 3 \/ m = 4 \/ m = 5 \/ m = 6 \/
                   m = 7 \/ m = 8 \/ m = 9 \/ m = 10 \/ m = 11 \/ m = 12) by lia.
  destruct leapyear;
    repeat (destruct Hcases as [-> | Hcases]); try subst m; cbv zeta;
    repeat match goal with
           | |- context [Z.pos ?a - 1] =>
               let v := eval vm_compute in (Z.pos a - 1) in
               change (Z.pos a - 1) with v
           end;
    cbn; eqb_cases; cbn; lia.
Qed.

Lemma ord2ymd_spec (n : Z) :
  1 <= n ->
  let '(y, m, d) := _ord2ymd n in
  _ymd2ord y m d = n /\ 1 <= y /\ 1 <= m <= 12 /\
  1 <= d <= _days_in_month y m /\
  (n <= _MAXORDINAL -> y <= 9999).
Proof.
  intros Hn. unfold _ord2ymd. cbv zeta.
  pose proof (Z.div_mod (n - 1) _DI400Y ltac:(discriminate)) as E400.
  pose proof (Z.mod_pos_bound (n - 1) _DI400Y ltac:(reflexivity)) as B400.
  assert (Q400 : 0 <= (n - 1) / _DI400Y) by (apply Z.div_pos; [lia|reflexivity]).
  remember ((n - 1) / _DI400Y) as n400 eqn:X; clear X.
  remember ((n - 1) mod _DI400Y) as r400 eqn:X; clear X.
  pose proof (Z.div_mod r400 _DI100Y ltac:(discriminate)) as E100.
  pose proof (Z.mod_pos_bound r400 _DI100Y ltac:(reflexivity)) as B100.
  assert (Q100 : 0 <= r400 / _DI100Y) by (apply Z.div_pos; [lia|reflexivity]).
  remember (r400 / _DI100Y) as n100 eqn:X; clear X.
  remember (r400 mod _DI100Y) as r100 eqn:X; clear X.
  pose proof (Z.div_mod r100 _DI4Y ltac:(discriminate)) as E4.
  pose proof (Z.mod_pos_bound r100 _DI4Y ltac:(reflexivity)) as B4.
  assert (Q4 : 0 <= r100 / _DI4Y) by (apply Z.div_pos; [lia|reflexivity]).
  remember (r100 / _DI4Y) as n4 eqn:X; clear X.
  remember (r100 mod _DI4Y) as r4 eqn:X; clear X.
  pose proof (Z.div_mod r4 365 ltac:(discriminate)) as E1.
  pose proof (Z.mod_pos_bound r4 365 ltac:(reflexivity)) as B1.
  assert (Q1 : 0 <= r4 / 365) by (apply Z.div_pos; [lia|reflexivity]).
  remember (r4 / 365) as n1 eqn:X; clear X.
  remember (r4 mod 365) as r1 eqn:X; clear X.
  unfold _DI400Y, _DI100Y, _DI4Y, _MAXORDINAL in *.
  destruct (Z.eqb_spec n1 4) as [H14|H14]; [|destruct (Z.eqb_spec n100 4) as [H1004|H1004]];
    cbn [orb].
  - (* the last day of a leap year that ends a four-year cycle *)
    assert (H100 : 0 <= n100 <= 3) by lia.
    assert (H4 : 0 <= n4 <= 24) by lia.
    replace (n400 * 400 + 1 + (n100 * 100 + n4 * 4 + n1) - 1)
      with (n400 * 400 + 1 + (n100 * 100 + n4 * 4 + 3)) by lia.
    unfold _ymd2ord, _days_before_month, _days_in_month.
    rewrite is_leap_decompose, days_before_year_decompose by lia.
    unfold _DI400Y, _DI100Y, _DI4Y. cbn.
    eqb_cases; cbn; lia.
  - (* the last day of a 400-year cycle *)
    assert (n4 = 0 /\ n1 = 0 /\ r1 = 0) as (-> & -> & ->) by lia.
    replace (n400 * 400 + 1 + (n100 * 100 + 0 * 4 + 0) - 1)
      with (n400 * 400 + 1 + (3 * 100 + 24 * 4 + 3)) by lia.
    unfold _ymd2ord, _days_before_month, _days_in_month.
    rewrite is_leap_decompose, days_before_year_decompose by lia.
    unfold _DI400Y, _DI100Y, _DI4Y. cbn. lia.
  - assert (H100 : 0 <= n100 <= 3) by lia.
    assert (H4 : 0 <= n4 <= 24) by lia.
    assert (H1 : 0 <= n1 <= 3) by lia.
    pose proof (month_day_of_year r1
                  ((n1 =? 3) && (negb (n4 =? 24) || (n100 =? 3))) B1) as Hmd.
    cbv zeta in Hmd.
    destruct (if r1 <? _ then _ else _) as [month preceding].
    destruct Hmd as (Hmonth & -> & Hday).
    unfold _ymd2ord, _days_before_month, _days_in_month.
    rewrite is_leap_decompose, days_before_year_decompose by lia.
    unfold _DI400Y, _DI100Y, _DI4Y.
    remember ((n1 =? 3) && (negb (n4 =? 24) || (n100 =? 3))) as leapyear.
    clear Heqleapyear.
    destruct (Z.eqb_spec month 2) as [-> | Hfeb], leapyear;
      cbn [andb] in *; cbn in Hday |- *; repeat split; lia.
Qed.

(** ** The monad, the actions, the scheduler, [flush] *)

Ltac run_M :=
  unfold mbind, mret, M_bind, M_ret, Result_bind, Result_ret, gets, modify, raise, lift_result,
    in_world, try_except in *; cbn in *.

Lemma bind_apply {S A B} (m : M S A) (f : A -> M S B) (s : S) :
  (m ≫= f) s
  = match m s with
    | (Ok a, s') => f a s'
    | (Raise e, s') => (Raise e, s')
    end.
Proof. reflexivity. Qed.

Lemma ret_apply {S A} (a : A) (s : S) : (mret a : M S A) s = (Ok a, s).
Proof. reflexivity. Qed.

(** A loop whose body only reads the state. *)
Lemma for_each_reader {S A B} (xs : list A) (body : A -> M S B) (s : S) :
  (forall x, (body x s).2 = s) ->
  for_each xs body s = (mapM (fun x => (body x s).1) xs, s).
Proof.
  intros Hpure. induction xs as [|x xs IH]; [reflexivity|].
  cbn [for_each mapM]. rewrite bind_apply.
  specialize (Hpure x). destruct (body x s) as [[b|e] s1]; cbn in Hpure; subst s1;
    [|reflexivity].
  rewrite bind_apply, IH. cbn.
  destruct (mapM _ xs); reflexivity.
Qed.

Lemma index_name_pure f name w : (_INDEX_FREQUENCY_FUNCION_DICT f name w).2 = w.
Proof.
  destruct f;
    unfold _INDEX_FREQUENCY_FUNCION_DICT, _get_unchanged_index_name,
      _get_daily_index_name, _get_weekly_index_name, _get_monthly_index_name,
      _get_yearly_index_name, datetime_now;
    run_M; try reflexivity.
  destruct (sub_days (clock w) (weekday (clock w))); reflexivity.
Qed.

Lemma index_name_clock f name w w' :
  clock w = clock w' ->
  (_INDEX_FREQUENCY_FUNCION_DICT f name w).1
  = (_INDEX_FREQUENCY_FUNCION_DICT f name w').1.
Proof.
  intros Hc.
  destruct f;
    unfold _INDEX_FREQUENCY_FUNCION_DICT, _get_unchanged_index_name,
      _get_daily_index_name, _get_weekly_index_name, _get_monthly_index_name,
      _get_yearly_index_name, datetime_now;
    run_M; rewrite ?Hc; try reflexivity.
  destruct (sub_days (clock w') (weekday (clock w'))); reflexivity.
Qed.

Lemma for_each_reader_ext {S S' A B} (xs : list A)
    (body : A -> M S B) (body' : A -> M S' B) (s : S) (s' : S') :
  (forall x, (body x s).2 = s) ->
  (forall x, (body' x s').2 = s') ->
  (forall x, (body x s).1 = (body' x s').1) ->
  (for_each xs body s).1 = (for_each xs body' s').1.
Proof.
  intros Hp Hp' He. rewrite !for_each_reader by assumption. cbn.
  induction xs as [|x xs IH]; [reflexivity|].
  cbn [mapM]. rewrite He, IH. reflexivity.
Qed.

Lemma action_pure h x w :
  ((index ← _index_name_func h (es_index_name h);
    mret (mk_Action index (es_doc_type h) x)) w).2 = w.
Proof.
  rewrite bind_apply. unfold _index_name_func.
  pose proof (index_name_pure (index_name_frequency h) (es_index_name h) w) as Hp.
  destruct (_INDEX_FREQUENCY_FUNCION_DICT _ _ w) as [[idx|e] w1]; exact Hp.
Qed.

Lemma actions_of_pure h buf w : (actions_of h buf w).2 = w.
Proof.
  unfold actions_of. rewrite for_each_reader; [reflexivity|].
  intros x. apply action_pure.
Qed.

Lemma actions_of_ext h h' buf w w' :
  index_name_frequency h = index_name_frequency h' ->
  es_index_name h = es_index_name h' ->
  es_doc_type h = es_doc_type h' ->
  clock w = clock w' ->
  (actions_of h buf w).1 = (actions_of h' buf w').1.
Proof.
  intros Hf Hn Hd Hc. unfold actions_of.
  apply for_each_reader_ext; try (intros x; apply action_pure).
  intros x. rewrite !bind_apply. unfold _index_name_func.
  rewrite <- Hf, <- Hn, <- Hd.
  pose proof (index_name_pure (index_name_frequency h) (es_index_name h) w) as Hp.
  pose proof (index_name_pure (index_name_frequency h) (es_index_name h) w') as Hp'.
  pose proof (index_name_clock (index_name_frequency h) (es_index_name h) w w' Hc) as He.
  destruct (_INDEX_FREQUENCY_FUNCION_DICT _ _ w) as [r1 w1].
  destruct (_INDEX_FREQUENCY_FUNCION_DICT _ _ w') as [r2 w2].
  cbn in Hp, Hp', He. subst w1 w2 r2. destruct r1; reflexivity.
Qed.

Lemma actions_of_sources h buf w acts :
  (actions_of h buf w).1 = Ok acts -> _source <$> acts = buf.
Proof.
  unfold actions_of. rewrite for_each_reader by (intros x; apply action_pure).
  cbn. revert acts. induction buf as [|x buf IH]; intros acts.
  - cbn. intros [= <-]. reflexivity.
  - cbn [mapM]. rewrite bind_apply.
    destruct (_index_name_func h (es_index_name h) w) as [[idx|e] w1]; cbn;
      [|discriminate].
    destruct (mapM _ buf) as [bs|e]; cbn; [|discriminate].
    intros [= <-]. cbn. f_equal. apply IH. reflexivity.
Qed.

Lemma transmit_eq backend s :
  transmit backend s =
  match client_error backend with
  | Some e => (Raise e, s)
  | None =>
      match (actions_of (self s) (_buffer (self s)) (world s)).1 with
      | Raise e => (Raise e, s)
      | Ok acts =>
          let s1 := mk_State (self s)
                      (set_bulk_calls (fun cs => cs ++ [acts]) (world s)) in
          match helpers_bulk backend acts with
          | None => (Ok tt, set__buffer (fun _ => []) s1)
          | Some e => (Raise e, s1)
          end
      end
  end.
Proof.
  unfold transmit, es_client. run_M.
  destruct (client_error backend) as [e|]; [reflexivity|]. cbn.
  pose proof (actions_of_pure (self s) (_buffer (self s)) (world s)) as Hp.
  destruct (actions_of _ _ _) as [[acts|e] w1]; cbn in Hp |- *; subst w1.
  - unfold bulk. run_M. destruct (helpers_bulk backend acts); reflexivity.
  - destruct s; reflexivity.
Qed.

Lemma same_config_refl h : same_config h h.
Proof. repeat split. Qed.
Lemma same_surroundings_refl w : same_surroundings w w.
Proof. repeat split. Qed.

Lemma transmit_ext backend s s' :
  same_config (self s) (self s') ->
  _buffer (self s') = _buffer (self s) ->
  clock (world s') = clock (world s) ->
  (transmit backend s').1 = (transmit backend s).1.
Proof.
  intros (_ & Hn & Hf & Hd & _) Hb Hc. rewrite !transmit_eq, Hb.
  destruct (client_error backend); [reflexivity|].
  rewrite (actions_of_ext (self s') (self s) _ (world s') (world s)) by assumption.
  destruct (actions_of _ _ _).1 as [acts|e]; [|reflexivity].
  cbn. destruct (helpers_bulk backend acts); reflexivity.
Qed.

Lemma schedule_flush_unarmed s :
  _timer (self s) = None ->
  _schedule_flush s
  = (Ok tt,
     mk_State (self (set__timer (Some (length (timers (world s)))) s))
       (set_timers (fun ts => ts ++ [Waiting]) (world s))).
Proof.
  destruct s as [[bs name freq doc fields ff ts tf buf tm] [hp tms err bc clk hn ps gh]].
  cbn. intros ->. unfold _schedule_flush, Timer_new, Timer_start, Timer_status, Timer_set.
  unfold mbind, mret, M_bind, M_ret, gets, modify, in_world. cbn.
  rewrite list_lookup_middle by reflexivity. cbn.
  unfold set_timers. cbn.
  rewrite insert_app_r_alt by reflexivity.
  rewrite Nat.sub_diag. reflexivity.
Qed.

Lemma schedule_flush_armed s t :
  _timer (self s) = Some t -> _schedule_flush s = (Ok tt, s).
Proof.
  intros Ht. unfold _schedule_flush.
  unfold mbind, mret, M_bind, M_ret, gets. cbn. rewrite Ht. reflexivity.
Qed.

Lemma length_held_cancelled s :
  length (held_cancelled s) = length (timers (world s)).
Proof.
  unfold held_cancelled. destruct (_timer (self s)); [|reflexivity].
  destruct (Timer_status _ _); rewrite ?length_insert; reflexivity.
Qed.

(** What [flush] does, case by case. *)
Lemma flush_cases backend s :
  let '(r, s') := flush backend s in
  same_config (self s) (self s') /\ same_surroundings (world s) (world s') /\
  ((_buffer (self s) = [] /\ r = Ok tt /\ _buffer (self s') = [] /\
    _timer (self s') = None /\ timers (world s') = held_cancelled s /\
    bulk_calls (world s') = bulk_calls (world s) /\
    error_stream (world s') = error_stream (world s))
   \/
   (_buffer (self s) <> [] /\ (transmit backend s).1 = Ok tt /\
    r = Ok tt /\ _buffer (self s') = [] /\
    _timer (self s') = None /\ timers (world s') = held_cancelled s /\
    bulk_calls (world s') = bulk_calls (world s) ++ attempted backend s /\
    error_stream (world s') = error_stream (world s))
   \/
   (exists e, _buffer (self s) <> [] /\ (transmit backend s).1 = Raise e /\
    raise_on_indexing_exceptions (self s) = true /\
    r = Raise e /\ _buffer (self s') = _buffer (self s) /\
    _timer (self s') = None /\ timers (world s') = held_cancelled s /\
    bulk_calls (world s') = bulk_calls (world s) ++ attempted backend s /\
    error_stream (world s') = error_stream (world s))
   \/
   (exists e, _buffer (self s) <> [] /\ (transmit backend s).1 = Raise e /\
    raise_on_indexing_exceptions (self s) = false /\
    r = Ok tt /\ _buffer (self s') = _buffer (self s) /\
    _timer (self s') = Some (length (timers (world s))) /\
    timers (world s') = held_cancelled s ++ [Waiting] /\
    bulk_calls (world s') = bulk_calls (world s) ++ attempted backend s /\
    error_stream (world s') = error_stream (world s) ++ [e])).
Proof.
  destruct s as [[bs name freq doc fields ff ts tf buf tm] [hp tms err bc clk hn ps gh]].
  set (h1 := mk_ESHandler bs name freq doc fields ff ts tf buf None).
  set (s0 := mk_State (mk_ESHandler bs name freq doc fields ff ts tf buf tm)
               (mk_World hp tms err bc clk hn ps gh)).
  set (s1 := mk_State h1 (mk_World hp (held_cancelled s0) err bc clk hn ps gh)).
  assert (Hprefix : flush backend s0 =
    match buf with
    | [] => (Ok tt, s1)
    | _ :: _ =>
        try_except (transmit backend)
          (fun exception =>
             fail_fast ← gets (fun s => raise_on_indexing_exceptions (self s));
             if fail_fast : bool then raise exception
             else in_world (print_exc exception);; _schedule_flush) s1
    end).
  { unfold flush, s1, s0, h1, held_cancelled.
    unfold Timer_is_alive, Timer_cancel, Timer_status, Timer_set.
    unfold mbind, mret, M_bind, M_ret, gets, modify, in_world.
    cbn -[transmit _schedule_flush try_except].
    destruct tm as [t|]; cbn -[transmit _schedule_flush try_except].
    - destruct (tms !! t) as [[]|] eqn:E;
        cbn -[transmit _schedule_flush try_except]; rewrite ?E;
        cbn -[transmit _schedule_flush try_except]; destruct buf; reflexivity.
    - destruct buf; reflexivity. }
  rewrite Hprefix. clear Hprefix.
  destruct buf as [|x buf].
  { split; [repeat split|]. split; [repeat split|]. left. repeat split. }
  set (buf' := x :: buf) in *.
  assert (Hext : (transmit backend s1).1 = (transmit backend s0).1).
  { apply transmit_ext; [repeat split|reflexivity|reflexivity]. }
  assert (Hatt : (actions_of (self s1) (_buffer (self s1)) (world s1)).1
                 = (actions_of (self s0) (_buffer (self s0)) (world s0)).1).
  { apply actions_of_ext; reflexivity. }
  pose proof (transmit_eq backend s1) as Heq.
  unfold try_except, attempted.
  destruct (transmit backend s1) as [r1 s2]. cbn [fst] in Hext.
  rewrite <- Hatt.
  destruct (client_error backend) as [e|];
    [|destruct ((actions_of (self s1) (_buffer (self s1)) (world s1)).1)
        as [acts|e]].
  - injection Heq as -> ->.
    unfold mbind, M_bind, gets, raise, in_world, print_exc, modify. cbn.
    destruct ff; cbn.
    + split; [repeat split|]. split; [repeat split|].
      right; right; left. exists e. repeat split; eauto; try discriminate.
      now rewrite app_nil_r.
    + rewrite schedule_flush_unarmed by reflexivity. cbn.
      split; [repeat split|]. split; [repeat split|].
      right; right; right. exists e.
      rewrite length_held_cancelled.
      repeat split; eauto; try discriminate.
      now rewrite app_nil_r.
  - cbv zeta in Heq. destruct (helpers_bulk backend acts) as [e|].
    + injection Heq as -> ->.
      unfold mbind, M_bind, gets, raise, in_world, print_exc, modify. cbn.
      destruct ff; cbn.
      * split; [repeat split|]. split; [repeat split|].
        right; right; left. exists e. repeat split; eauto; try discriminate.
      * rewrite schedule_flush_unarmed by reflexivity. cbn.
        split; [repeat split|]. split; [repeat split|].
        right; right; right. exists e.
        rewrite length_held_cancelled.
        repeat split; eauto; try discriminate.
    + injection Heq as -> ->. cbn.
      split; [repeat split|]. split; [repeat split|].
      right; left. repeat split; eauto; try discriminate.
  - injection Heq as -> ->.
    unfold mbind, M_bind, gets, raise, in_world, print_exc, modify. cbn.
    destruct ff; cbn.
    + split; [repeat split|]. split; [repeat split|].
      right; right; left. exists e. repeat split; eauto; try discriminate.
      now rewrite app_nil_r.
    + rewrite schedule_flush_unarmed by reflexivity. cbn.
      split; [repeat split|]. split; [repeat split|].
      right; right; right. exists e.
      rewrite length_held_cancelled.
      repeat split; eauto; try discriminate.
      now rewrite app_nil_r.
Qed.

(** ** Dates, and the index names *)

Lemma days_before_year_bounds (y : Z) :
  1 <= y <= 9999 ->
  0 <= _days_before_year y /\ _days_before_year y + 366 <= _MAXORDINAL + 1 /\
  (_is_leap y = true -> _days_before_year y + 366 <= _MAXORDINAL).
Proof.
  intros Hy. unfold _days_before_year, _MAXORDINAL, _is_leap. cbv zeta.
  repeat split.
  - Z.div_mod_to_equations. lia.
  - Z.div_mod_to_equations. lia.
  - intros Hl. apply andb_prop in Hl as [H4 _].
    apply Z.eqb_eq in H4. Z.div_mod_to_equations. lia.
Qed.

Lemma toordinal_bounds (d : datetime) :
  valid_datetime d -> 1 <= toordinal d <= _MAXORDINAL.
Proof.
  intros (Hy & Hm & Hd & _).
  pose proof (days_before_year_bounds (year d) Hy) as (H0 & H1 & H2).
  unfold toordinal, _ymd2ord, _days_before_month.
  unfold _days_in_month in Hd.
  remember (month d) as m eqn:X. clear X.
  remember (day d) as dd eqn:X. clear X.
  remember (_days_before_year (year d)) as dby eqn:X. clear X.
  assert (Hcases : m = 1 \/ m = 2 \/ m = 3 \/ m = 4 \/ m = 5 \/ m = 6 \/
                   m = 7 \/ m = 8 \/ m = 9 \/ m = 10 \/ m = 11 \/ m = 12) by lia.
  destruct (_is_leap (year d));
    [specialize (H2 eq_refl)|clear H2];
    repeat (destruct Hcases as [-> | Hcases]); try subst m;
    cbn in Hd |- *; lia.
Qed.

(** The Monday of the week of a date. *)
Lemma sub_days_weekday (d : datetime) :
  valid_datetime d ->
  exists monday,
    sub_days d (weekday d) = Ok monday /\
    toordinal monday = toordinal d - weekday d /\
    weekday monday = 0 /\
    0 <= weekday d <= 6 /\
    valid_datetime monday.
Proof.
  intros Hv. pose proof (toordinal_bounds d Hv) as Hb.
  destruct Hv as (Hy & Hm & Hd & Ht).
  unfold sub_days, weekday in *.
  assert (Hw : 0 <= (toordinal d + 6) mod 7 <= 6) by (Z.div_mod_to_equations; lia).
  assert (Ho : 1 <= toordinal d - (toordinal d + 6) mod 7 <= _MAXORDINAL)
    by (Z.div_mod_to_equations; lia).
  remember (toordinal d - (toordinal d + 6) mod 7) as o.
  destruct (Z.ltb_spec 0 o); [|lia].
  destruct (Z.leb_spec o _MAXORDINAL); [|lia]. cbn.
  pose proof (ord2ymd_spec o ltac:(lia)) as Hs.
  destruct (_ord2ymd o) as [[y m] dd].
  destruct Hs as (Ho2 & Hy2 & Hm2 & Hd2 & Hy3).
  eexists. split; [reflexivity|].
  unfold valid_datetime, toordinal in *. cbn. rewrite Ho2.
  repeat split; try lia; try apply Ht.
  subst o. Z.div_mod_to_equations. lia.
Qed.

Ltac unfold_strftime :=
  cbv [strftime directive Ascii.eqb Bool.eqb].

Lemma append_nil_r (s : string) : s +:+ "" = s.
Proof.
  induction s as [|c s IH]; [reflexivity|].
  change (String c (s +:+ "") = String c s). now rewrite IH.
Qed.

Lemma strftime_Ymd (d : datetime) :
  strftime "%Y.%m.%d" d
  = format_0d 4 (year d) +:+ "." +:+ format_0d 2 (month d) +:+ "."
    +:+ format_0d 2 (day d).
Proof. unfold_strftime. now rewrite append_nil_r. Qed.

Lemma strftime_Ym (d : datetime) :
  strftime "%Y.%m" d = format_0d 4 (year d) +:+ "." +:+ format_0d 2 (month d).
Proof. unfold_strftime. now rewrite append_nil_r. Qed.

Lemma strftime_Y (d : datetime) : strftime "%Y" d = format_0d 4 (year d).
Proof. unfold_strftime. now rewrite append_nil_r. Qed.

Lemma strftime_iso (d : datetime) :
  strftime "%Y-%m-%dT%H:%M:%S" d
  = format_0d 4 (year d) +:+ "-" +:+ format_0d 2 (month d) +:+ "-"
    +:+ format_0d 2 (day d) +:+ "T" +:+ format_0d 2 (hour d) +:+ ":"
    +:+ format_0d 2 (minute d) +:+ ":" +:+ format_0d 2 (second d).
Proof. unfold_strftime. now rewrite append_nil_r. Qed.

(** C8.  For a fixed base name and a fixed current date, each of the five
    index-naming policies is a pure function of the two: it leaves the world
    as it is, and two clocks that show the same date (whatever the time of
    day) give the same index name.  The [NO_FREQ] policy returns the base
    name unchanged, and the weekly policy suffixes the date of the Monday of
    the week: the current date minus its weekday. *)
Theorem C8_index_name_is_a_function_of_name_and_date
    (f : IndexNameFrequency) (name : string) (w w' : World) :
  valid_datetime (clock w) ->
  year (clock w') = year (clock w) ->
  month (clock w') = month (clock w) ->
  day (clock w') = day (clock w) ->
  (exists index,
     _INDEX_FREQUENCY_FUNCION_DICT f name w = (Ok index, w) /\
     _INDEX_FREQUENCY_FUNCION_DICT f name w' = (Ok index, w')) /\
  _INDEX_FREQUENCY_FUNCION_DICT NO_FREQ name w = (Ok name, w) /\
  (exists monday,
     sub_days (clock w) (weekday (clock w)) = Ok monday /\
     toordinal monday = toordinal (clock w) - weekday (clock w) /\
     0 <= weekday (clock w) <= 6 /\
     weekday monday = 0 /\
     _INDEX_FREQUENCY_FUNCION_DICT WEEKLY name w
     = (Ok (name +:+ "-" +:+ strftime "%Y.%m.%d" monday), w)).
Proof.
  intros Hv Hy Hm Hd.
  destruct (sub_days_weekday (clock w) Hv) as (monday & Hsub & Hord & Hmon & Hwd & _).
  assert (Hweekly : _INDEX_FREQUENCY_FUNCION_DICT WEEKLY name w
                    = (Ok (name +:+ "-" +:+ strftime "%Y.%m.%d" monday), w)).
  { unfold _INDEX_FREQUENCY_FUNCION_DICT, _get_weekly_index_name, datetime_now.
    unfold mbind, mret, M_bind, M_ret, gets, lift_result. rewrite Hsub. reflexivity. }
  split; [|split; [reflexivity|]].
  - destruct f;
      unfold _INDEX_FREQUENCY_FUNCION_DICT, _get_unchanged_index_name,
        _get_daily_index_name, _get_monthly_index_name, _get_yearly_index_name,
        datetime_now, mbind, mret, M_bind, M_ret, gets;
      try (eexists; split; [reflexivity|];
           rewrite ?strftime_Ymd, ?strftime_Ym, ?strftime_Y, ?Hy, ?Hm, ?Hd;
           reflexivity).
    fold (_INDEX_FREQUENCY_FUNCION_DICT WEEKLY).
    eexists. split; [exact Hweekly|].
    unfold _INDEX_FREQUENCY_FUNCION_DICT, _get_weekly_index_name, datetime_now.
    unfold mbind, mret, M_bind, M_ret, gets, lift_result.
    assert (Ho : toordinal (clock w') = toordinal (clock w))
      by (unfold toordinal; now rewrite Hy, Hm, Hd).
    unfold sub_days, weekday in Hsub |- *. rewrite Ho.
    destruct (_ && _); [|discriminate].
    destruct (_ord2ymd _) as [[y m] dd].
    injection Hsub as <-. rewrite !strftime_Ymd. reflexivity.
  - exists monday. auto.
Qed.

(** C8 at the sample world, a Wednesday. *)
Lemma C8_index_name_witness :
  exists index,
    _INDEX_FREQUENCY_FUNCION_DICT WEEKLY "pythontest" sample_world
    = (Ok index, sample_world).
Proof.
  destruct (C8_index_name_is_a_function_of_name_and_date WEEKLY "pythontest"
              sample_world sample_world) as ((index & Hi & _) & _);
    [repeat split; vm_compute; (reflexivity || discriminate)
    |reflexivity|reflexivity|reflexivity|].
  exists index. exact Hi.
Defined.

(** ** [flush], [emit], [close] *)

Lemma status_new_timer (ts : list TimerStatus) :
  (ts ++ [Waiting]) !! length ts = Some Waiting.
Proof. apply list_lookup_middle. reflexivity. Qed.

Lemma Result_bind_Ok {A B} (a : A) (f : A -> Result B) : (Ok a ≫= f) = f a.
Proof. reflexivity. Qed.

Lemma Ok_inj {A} (a b : A) : Ok a = Ok b -> a = b.
Proof. intros Heq. exact (f_equal (fun r => match r with Ok x => x | Raise _ => a end) Heq). Qed.

Lemma index_name_ok f name w :
  valid_datetime (clock w) ->
  exists index, _INDEX_FREQUENCY_FUNCION_DICT f name w = (Ok index, w).
Proof.
  intros Hv.
  destruct f;
    unfold _INDEX_FREQUENCY_FUNCION_DICT, _get_unchanged_index_name,
      _get_daily_index_name, _get_weekly_index_name, _get_monthly_index_name,
      _get_yearly_index_name, datetime_now, mbind, mret, M_bind, M_ret, gets,
      lift_result;
    try (eexists; reflexivity).
  destruct (sub_days_weekday (clock w) Hv) as (monday & -> & _).
  eexists; reflexivity.
Qed.

Lemma attempted_sources backend s acts :
  acts ∈ attempted backend s -> _source <$> acts = _buffer (self s).
Proof.
  unfold attempted.
  destruct (client_error backend); [intros Hin; inversion Hin|].
  destruct (actions_of _ _ _).1 as [acts'|e] eqn:E.
  - intros ->%list_elem_of_singleton. eapply actions_of_sources, E.
  - intros Hin. inversion Hin.
Qed.

Lemma attempted_without_client backend s e :
  client_error backend = Some e -> attempted backend s = [].
Proof. unfold attempted. now intros ->. Qed.

Lemma actions_of_valid_clock h buf w :
  valid_datetime (clock w) -> exists acts, (actions_of h buf w).1 = Ok acts.
Proof.
  intros Hv. unfold actions_of.
  rewrite for_each_reader by (intros x; apply action_pure). cbn.
  destruct (index_name_ok (index_name_frequency h) (es_index_name h) w Hv)
    as (index & Hi).
  unfold _index_name_func.
  induction buf as [|x buf (acts & IH)]; [eexists; reflexivity|].
  cbn [mapM]. rewrite bind_apply, Hi, ret_apply. cbn [fst].
  rewrite Result_bind_Ok, IH. eexists; reflexivity.
Qed.

Lemma attempted_valid_clock backend s :
  client_error backend = None ->
  valid_datetime (clock (world s)) ->
  exists acts,
    attempted backend s = [acts] /\ _source <$> acts = _buffer (self s).
Proof.
  intros Hc Hv. unfold attempted. rewrite Hc.
  destruct (actions_of_valid_clock (self s) (_buffer (self s)) (world s) Hv)
    as (acts & E).
  rewrite E. exists acts. split; [reflexivity|]. eapply actions_of_sources, E.
Qed.

Lemma transmit_ok_attempted backend s :
  (transmit backend s).1 = Ok tt ->
  exists acts,
    attempted backend s = [acts] /\ _source <$> acts = _buffer (self s).
Proof.
  rewrite transmit_eq. unfold attempted.
  destruct (client_error backend); [discriminate|].
  destruct (actions_of _ _ _).1 as [acts|e] eqn:E; [|discriminate].
  intros _. exists acts. split; [reflexivity|]. eapply actions_of_sources, E.
Qed.

Lemma Timer_run_waiting backend t s :
  Timer_status (world s) t = Waiting ->
  Timer_run backend t s
  = let '(r, s1) :=
      flush backend (mk_State (self s) (set_timers <[t := Running]> (world s))) in
    (r, mk_State (self s1) (set_timers <[t := Finished]> (world s1))).
Proof.
  intros Hw. unfold Timer_run. rewrite Hw.
  unfold Timer_set, mbind, M_bind, in_world, modify. cbn.
  destruct (flush _ _) as [r s1]. reflexivity.
Qed.

Lemma Timer_run_not_waiting backend t s :
  Timer_status (world s) t <> Waiting -> Timer_run backend t s = (Ok tt, s).
Proof.
  intros Hw. unfold Timer_run. destruct (Timer_status _ _); congruence.
Qed.

(** When [flush] raises, what it raises, and what it does instead. *)
Lemma flush_outcome (backend : Backend) (s : State) :
  let '(r, s') := flush backend s in
  (raise_on_indexing_exceptions (self s) = false -> r = Ok tt) /\
  (forall e, r = Raise e ->
     raise_on_indexing_exceptions (self s) = true /\
     _buffer (self s) <> [] /\ (transmit backend s).1 = Raise e) /\
  (forall e, _buffer (self s) <> [] -> (transmit backend s).1 = Raise e ->
     (raise_on_indexing_exceptions (self s) = true -> r = Raise e) /\
     (raise_on_indexing_exceptions (self s) = false ->
        error_stream (world s') = error_stream (world s) ++ [e] /\
        _timer (self s') = Some (length (timers (world s))) /\
        Timer_status (world s') (length (timers (world s))) = Waiting)).
Proof.
  pose proof (flush_cases backend s) as H.
  destruct (flush backend s) as [r s'].
  destruct H as (_ & _ & [H|[H|[(e' & H)|(e' & H)]]]).
  - destruct H as (Hb & -> & _). repeat split; try discriminate; intros; congruence.
  - destruct H as (Hb & Ht & -> & _).
    repeat split; try discriminate; intros; congruence.
  - destruct H as (Hb & Ht & Hff & -> & _).
    repeat split; intros; try congruence.
  - destruct H as (Hb & Ht & Hff & -> & _ & Htm & Hts & _ & Herr).
    repeat split; intros; try congruence; try discriminate.
    unfold Timer_status. rewrite Hts, <- (length_held_cancelled s).
    rewrite status_new_timer. reflexivity.
Qed.

(** C1, amended.  When the transmission raises and the handler is not in
    fail-fast mode, [flush] returns normally, the buffer is left as it was
    (the records of the failed batch are still held), and a new timer is
    started and held; when that timer fires and the transmission then
    succeeds, the same records are submitted again and the buffer is
    emptied. *)
Theorem C1_failed_batch_stays_in_buffer (backend : Backend) (s : State) (e : Exn) :
  _buffer (self s) <> [] ->
  (transmit backend s).1 = Raise e ->
  raise_on_indexing_exceptions (self s) = false ->
  let '(r, s') := flush backend s in
  let t := length (timers (world s)) in
  r = Ok tt /\
  _buffer (self s') = _buffer (self s) /\
  _timer (self s') = Some t /\
  Timer_status (world s') t = Waiting /\
  (forall backend',
     (transmit backend' s').1 = Ok tt ->
     let '(r2, s2) := Timer_run backend' t s' in
     r2 = Ok tt /\ _buffer (self s2) = [] /\
     exists acts,
       bulk_calls (world s2) = bulk_calls (world s') ++ [acts] /\
       _source <$> acts = _buffer (self s)).
Proof.
  intros Hne Hfail Hff.
  pose proof (flush_cases backend s) as H.
  destruct (flush backend s) as [r s'].
  destruct H as (Hcfg & Hsur & [H|[H|[(e' & H)|(e' & H)]]]).
  - destruct H as (Hb & _). contradiction.
  - destruct H as (_ & Ht & _). congruence.
  - destruct H as (_ & _ & Hff' & _). congruence.
  - destruct H as (_ & _ & _ & -> & Hbuf & Htm & Hts & _ & _).
    cbv zeta.
    assert (Hst : Timer_status (world s') (length (timers (world s))) = Waiting).
    { unfold Timer_status. rewrite Hts, <- (length_held_cancelled s).
      rewrite status_new_timer. reflexivity. }
    repeat split; try assumption.
    intros backend' Hok.
    rewrite (Timer_run_waiting _ _ _ Hst).
    set (s_run := mk_State (self s') _).
    assert (Hok' : (transmit backend' s_run).1 = Ok tt).
    { rewrite <- Hok. apply transmit_ext; [apply same_config_refl|reflexivity|reflexivity]. }
    pose proof (flush_cases backend' s_run) as H.
    destruct (flush backend' s_run) as [r2 s2].
    assert (Hne' : _buffer (self s_run) <> []) by (cbn; congruence).
    destruct H as (_ & _ & [H|[H|[(e2 & H)|(e2 & H)]]]).
    + destruct H as (Hb & _). contradiction.
    + destruct H as (_ & _ & -> & Hb2 & _ & _ & Hbc & _).
      destruct (transmit_ok_attempted _ _ Hok') as (acts & Hatt & Hsrc).
      cbn. repeat split; try assumption.
      exists acts. rewrite Hbc, Hatt. split; [reflexivity|].
      rewrite Hsrc. cbn. exact Hbuf.
    + destruct H as (_ & Ht & _). congruence.
    + destruct H as (_ & Ht & _). congruence.
Qed.

(** C4, amended.  After a [flush] whose transmission did not fail (the
    buffer was empty, or [helpers.bulk] returned) the buffer is empty.  A
    [flush] that returns without raising leaves either an empty buffer or,
    when the transmission failed and the handler is not in fail-fast mode,
    the buffer as it was.  If the buffer is empty when [flush] is entered,
    [helpers.bulk] is not called and no timer is started. *)
Theorem C4_flush_empties_buffer_unless_transmission_fails
    (backend : Backend) (s : State) :
  let '(r, s') := flush backend s in
  (_buffer (self s) = [] \/ (transmit backend s).1 = Ok tt ->
   r = Ok tt /\ _buffer (self s') = []) /\
  (_buffer (self s) = [] ->
   bulk_calls (world s') = bulk_calls (world s) /\
   _timer (self s') = None /\
   length (timers (world s')) = length (timers (world s)) /\
   (forall t, Timer_status (world s') t = Waiting ->
              Timer_status (world s) t = Waiting)) /\
  (r = Ok tt ->
   _buffer (self s') = [] \/
   (raise_on_indexing_exceptions (self s) = false /\
    _buffer (self s') = _buffer (self s) /\
    exists e, (transmit backend s).1 = Raise e)).
Proof.
  pose proof (flush_cases backend s) as H.
  destruct (flush backend s) as [r s'].
  destruct H as (_ & _ & [H|[H|[(e' & H)|(e' & H)]]]).
  - destruct H as (Hb & -> & Hb' & Htm & Hts & Hbc & _).
    repeat split; auto.
    + rewrite Hts. apply length_held_cancelled.
    + intros t. unfold Timer_status. rewrite Hts. unfold held_cancelled.
      destruct (_timer (self s)) as [t0|]; [|auto].
      unfold Timer_status.
      destruct (timers (world s) !! t0) as [[]|] eqn:E; cbn; auto.
      destruct (decide (t0 = t)) as [->|Hn].
      * rewrite list_lookup_insert_eq by (eapply lookup_lt_Some, E). discriminate.
      * rewrite list_lookup_insert_ne by assumption. auto.
  - destruct H as (Hb & Ht & -> & Hb' & _).
    split; [auto|]. split; [intros; contradiction|auto].
  - destruct H as (Hb & Ht & Hff & -> & _).
    split; [intros [?|?]; congruence|].
    split; [intros; contradiction|discriminate].
  - destruct H as (Hb & Ht & Hff & -> & Hbuf & _).
    split; [intros [?|?]; congruence|].
    split; [intros; contradiction|]. intros _. right. eauto.
Qed.

Section emit_facts.
Context `{Builtins}.

Lemma try_flush_eq backend s :
  _try_flush backend s
  = if (buffer_size (self s) <=? Z.of_nat (length (_buffer (self s))))
       && negb (_timed_flush (self s))
    then flush backend s
    else _schedule_flush s.
Proof.
  unfold _try_flush, mbind, M_bind, gets. destruct (_ && _); reflexivity.
Qed.

Lemma emit_eq backend record s :
  emit backend record s
  = match entry_of (deref (world s) (es_additional_fields (self s)))
            (default_timestamp_field_name (self s)) record with
    | Ok rec => _try_flush backend (set__buffer (fun b => b ++ [rec]) s)
    | Raise e => (Raise e, s)
    end.
Proof.
  unfold emit. unfold mbind, M_bind, gets, lift_result, modify.
  destruct (entry_of _ _ _); reflexivity.
Qed.

(** C3.  [flush] raises exactly when the transmission of a non-empty
    buffer raises and the handler is in fail-fast mode
    ([raise_on_indexing_exceptions]); the exception it raises is the one of
    the transmission, and it reaches the caller of [emit] when [flush] was
    called from there.  When the flag is false [flush] never raises: the
    exception of a failed transmission is printed on the error stream, and
    a new timer is started and held by the handler. *)
Theorem C3_failure_propagates_iff_fail_fast (backend : Backend) (s : State) :
  let '(r, s') := flush backend s in
  (raise_on_indexing_exceptions (self s) = false -> r = Ok tt) /\
  (forall e, r = Raise e ->
     raise_on_indexing_exceptions (self s) = true /\
     _buffer (self s) <> [] /\ (transmit backend s).1 = Raise e) /\
  (forall e, _buffer (self s) <> [] -> (transmit backend s).1 = Raise e ->
     (raise_on_indexing_exceptions (self s) = true -> r = Raise e) /\
     (raise_on_indexing_exceptions (self s) = false ->
        error_stream (world s') = error_stream (world s) ++ [e] /\
        _timer (self s') = Some (length (timers (world s))) /\
        Timer_status (world s') (length (timers (world s))) = Waiting)) /\
  (forall record rec e,
     entry_of (deref (world s) (es_additional_fields (self s)))
       (default_timestamp_field_name (self s)) record = Ok rec ->
     let s1 := set__buffer (fun b => b ++ [rec]) s in
     (buffer_size (self s) <=? Z.of_nat (length (_buffer (self s1))))
     && negb (_timed_flush (self s)) = true ->
     (transmit backend s1).1 = Raise e ->
     ((emit backend record s).1 = Raise e
      <-> raise_on_indexing_exceptions (self s) = true)).
Proof.
  pose proof (flush_outcome backend s) as Hs.
  destruct (flush backend s) as [r s'].
  destruct Hs as (H1 & H2 & H3).
  split; [exact H1|]. split; [exact H2|]. split; [exact H3|].
  intros record rec e Hrec s1 Hcond Htr.
  assert (Hbs : buffer_size (self s1) = buffer_size (self s))
    by (destruct s as [[] ?]; reflexivity).
  assert (Htf : _timed_flush (self s1) = _timed_flush (self s))
    by (destruct s as [[] ?]; reflexivity).
  assert (Hff : raise_on_indexing_exceptions (self s1)
                = raise_on_indexing_exceptions (self s))
    by (destruct s as [[] ?]; reflexivity).
  assert (Hne : _buffer (self s1) <> []).
  { destruct s as [[? ? ? ? ? ? ? ? buf ?] ?]. cbn. destruct buf; discriminate. }
  rewrite emit_eq, Hrec, try_flush_eq. fold s1. rewrite Hbs, Htf, Hcond.
  pose proof (flush_outcome backend s1) as Hs1.
  destruct (flush backend s1) as [r1 s1']. cbn [fst].
  destruct Hs1 as (_ & Hs1 & Hs1'). rewrite <- Hff. split.
  - intros ->. apply (Hs1 e eq_refl).
  - apply (Hs1' e Hne Htr).
Qed.

(** C2.  Once [emit] has appended the entry of the record, it calls
    [flush] from the caller's thread exactly when the buffer is now at least
    [buffer_size] long and [timed_flush] is false: then [emit] is the
    [flush] of the whole buffer, which hands every entry of the buffer to
    [helpers.bulk] in one call, unless the client cannot be made (then no
    call is made, and the entries stay).  Otherwise [emit] is
    [_schedule_flush]: it returns normally, [helpers.bulk] is not called,
    nothing is printed, the entry stays in the buffer, and the handler
    holds a timer: the one it held, or else a new one, which is started. *)
Theorem C2_synchronous_flush_iff_threshold
    (backend : Backend) (record : LogRecord) (s : State) (rec : Dict) :
  entry_of (deref (world s) (es_additional_fields (self s)))
    (default_timestamp_field_name (self s)) record = Ok rec ->
  let s1 := set__buffer (fun b => b ++ [rec]) s in
  let '(r, s') := emit backend record s in
  _buffer (self s1) = _buffer (self s) ++ [rec] /\
  if (buffer_size (self s) <=? Z.of_nat (length (_buffer (self s1))))
     && negb (_timed_flush (self s))
  then
    (r, s') = flush backend s1 /\
    bulk_calls (world s') = bulk_calls (world s) ++ attempted backend s1 /\
    (forall e, client_error backend = Some e ->
       bulk_calls (world s') = bulk_calls (world s) /\
       _buffer (self s') = _buffer (self s) ++ [rec]) /\
    (client_error backend = None -> valid_datetime (clock (world s)) ->
     exists acts,
       bulk_calls (world s') = bulk_calls (world s) ++ [acts] /\
       _source <$> acts = _buffer (self s) ++ [rec])
  else
    (r, s') = _schedule_flush s1 /\
    r = Ok tt /\
    bulk_calls (world s') = bulk_calls (world s) /\
    error_stream (world s') = error_stream (world s) /\
    _buffer (self s') = _buffer (self s) ++ [rec] /\
    (forall t, _timer (self s) = Some t -> s' = s1) /\
    (_timer (self s) = None ->
     let t := length (timers (world s)) in
     _timer (self s') = Some t /\
     timers (world s') = timers (world s) ++ [Waiting] /\
     Timer_status (world s') t = Waiting).
Proof.
  intros Hrec s1. rewrite emit_eq, Hrec. fold s1. rewrite try_flush_eq.
  assert (Hbs : buffer_size (self s1) = buffer_size (self s)) by (destruct s as [[] ?]; reflexivity).
  assert (Htf : _timed_flush (self s1) = _timed_flush (self s)) by (destruct s as [[] ?]; reflexivity).
  assert (Hbuf : _buffer (self s1) = _buffer (self s) ++ [rec]) by (destruct s as [[] ?]; reflexivity).
  assert (Hw : world s1 = world s) by (destruct s as [[] ?]; reflexivity).
  assert (Htm : _timer (self s1) = _timer (self s)) by (destruct s as [[] ?]; reflexivity).
  rewrite Hbs, Htf.
  destruct (_ && _).
  - pose proof (flush_cases backend s1) as Hc.
    pose proof (transmit_eq backend s1) as Htr.
    destruct (flush backend s1) as [r s'].
    split; [assumption|]. split; [reflexivity|].
    assert (Hne : _buffer (self s1) <> []).
    { rewrite Hbuf. destruct (_buffer (self s)); discriminate. }
    assert (Hcalls : bulk_calls (world s')
                     = bulk_calls (world s) ++ attempted backend s1 /\
                     ((transmit backend s1).1 <> Ok tt ->
                      _buffer (self s') = _buffer (self s1))).
    { rewrite <- Hw.
      destruct Hc as (_ & _ & [Hc|[Hc|[(e' & Hc)|(e' & Hc)]]]).
      - destruct Hc as (Hb & _). contradiction.
      - destruct Hc as (_ & Hok & _ & _ & _ & _ & Hbc & _).
        split; [exact Hbc|]. intros Hno. contradiction.
      - destruct Hc as (_ & _ & _ & _ & Hb & _ & _ & Hbc & _). auto.
      - destruct Hc as (_ & _ & _ & _ & Hb & _ & _ & Hbc & _). auto. }
    destruct Hcalls as [Hbc Hkeep].
    split; [exact Hbc|]. split.
    + intros e He. rewrite Hbc, (attempted_without_client _ _ _ He), app_nil_r.
      split; [reflexivity|]. rewrite <- Hbuf. apply Hkeep.
      rewrite Htr, He. discriminate.
    + intros Hcl Hv.
      destruct (attempted_valid_clock backend s1 Hcl) as (acts & Ha & Hsrc);
        [now rewrite Hw|].
      exists acts. rewrite Hbc, Ha, Hsrc. auto.
  - destruct (_timer (self s1)) as [t|] eqn:Et.
    + rewrite (schedule_flush_armed s1 t Et).
      split; [assumption|]. split; [reflexivity|]. split; [reflexivity|].
      split; [now rewrite Hw|]. split; [now rewrite Hw|].
      split; [assumption|]. split; [reflexivity|].
      intros Hn. rewrite Hn in Htm. discriminate Htm.
    + rewrite (schedule_flush_unarmed s1 Et).
      assert (Hnone : _timer (self s) = None) by congruence.
      destruct s as [[] [? tms ? ? ? ? ? ?]]. cbn in Hnone. subst. cbn.
      repeat split; try discriminate.
      unfold Timer_status. cbn. now rewrite status_new_timer.
Qed.

End emit_facts.

(** ** Timers *)

Lemma held_cancelled_not_waiting s t :
  timers_held s -> held_cancelled s !! t <> Some Waiting.
Proof.
  intros Hinv Ht. unfold held_cancelled in Ht.
  assert (Hst : forall t', timers (world s) !! t' = Some Waiting ->
                           _timer (self s) = Some t').
  { intros t' Ht'. apply Hinv. unfold Timer_status. now rewrite Ht'. }
  destruct (_timer (self s)) as [t0|] eqn:Etm.
  - unfold Timer_status in Ht.
    destruct (timers (world s) !! t0) as [st|] eqn:E0; cbn in Ht.
    + destruct st;
        try (specialize (Hst t Ht); injection Hst as ->; congruence).
      destruct (decide (t0 = t)) as [->|Hn].
      * rewrite list_lookup_insert_eq in Ht by (eapply lookup_lt_Some, E0).
        discriminate.
      * rewrite list_lookup_insert_ne in Ht by assumption.
        specialize (Hst t Ht). congruence.
    + specialize (Hst t Ht). injection Hst as ->. congruence.
  - specialize (Hst t Ht). discriminate.
Qed.

Lemma timers_held_flush backend s :
  timers_held s -> timers_held (flush backend s).2.
Proof.
  intros Hinv. pose proof (flush_cases backend s) as H.
  destruct (flush backend s) as [r s']. cbn.
  pose proof (held_cancelled_not_waiting s) as Hnw.
  intros t Ht. unfold Timer_status in Ht.
  destruct H as (_ & _ & [H|[H|[(e' & H)|(e' & H)]]]).
  - destruct H as (_ & _ & _ & _ & Hts & _). rewrite Hts in Ht.
    destruct (held_cancelled s !! t) as [st|] eqn:E; cbn in Ht; [|discriminate].
    subst st. exfalso. eapply Hnw; eauto.
  - destruct H as (_ & _ & _ & _ & _ & Hts & _). rewrite Hts in Ht.
    destruct (held_cancelled s !! t) as [st|] eqn:E; cbn in Ht; [|discriminate].
    subst st. exfalso. eapply Hnw; eauto.
  - destruct H as (_ & _ & _ & _ & _ & _ & Hts & _). rewrite Hts in Ht.
    destruct (held_cancelled s !! t) as [st|] eqn:E; cbn in Ht; [|discriminate].
    subst st. exfalso. eapply Hnw; eauto.
  - destruct H as (_ & _ & _ & _ & _ & Htm & Hts & _). rewrite Hts in Ht.
    rewrite Htm. f_equal.
    destruct (decide (t < length (held_cancelled s))%nat) as [Hlt|Hge].
    + rewrite lookup_app_l in Ht by assumption.
      destruct (held_cancelled s !! t) as [st|] eqn:E; cbn in Ht; [|discriminate].
      subst st. exfalso. eapply Hnw; eauto.
    + destruct (decide (t = length (held_cancelled s))) as [->|Hne].
      * symmetry. apply length_held_cancelled.
      * rewrite lookup_ge_None_2 in Ht; [discriminate|].
        rewrite length_app. cbn. lia.
Qed.

Lemma timers_held_schedule s :
  timers_held s -> timers_held (_schedule_flush s).2.
Proof.
  intros Hinv. destruct (_timer (self s)) as [t0|] eqn:Etm.
  - rewrite (schedule_flush_armed s t0 Etm). exact Hinv.
  - rewrite (schedule_flush_unarmed s Etm).
    destruct s as [[] [? tms ? ? ? ? ? ?]]. cbn in *. subst.
    intros t Ht. unfold Timer_status in Ht. cbn in *. f_equal.
    destruct (decide (t < length tms)%nat) as [Hlt|Hge].
    + rewrite lookup_app_l in Ht by assumption.
      specialize (Hinv t). unfold Timer_status in Hinv. cbn in Hinv.
      destruct (tms !! t) as [st|]; cbn in *; [|discriminate].
      subst st. specialize (Hinv eq_refl). discriminate.
    + destruct (decide (t = length tms)) as [->|Hne]; [reflexivity|].
      rewrite lookup_ge_None_2 in Ht; [discriminate|].
      rewrite length_app. cbn. lia.
Qed.

Lemma timers_held_set_buffer f s :
  timers_held s -> timers_held (set__buffer f s).
Proof. destruct s as [[] ?]. exact id. Qed.

Lemma timers_held_Timer_run backend t s :
  timers_held s -> timers_held (Timer_run backend t s).2.
Proof.
  intros Hinv.
  destruct (decide (Timer_status (world s) t = Waiting)) as [Hw|Hw];
    [|rewrite Timer_run_not_waiting by assumption; exact Hinv].
  rewrite (Timer_run_waiting _ _ _ Hw).
  set (s_run := mk_State (self s) _).
  assert (Hlt : (t < length (timers (world s)))%nat).
  { unfold Timer_status in Hw.
    destruct (timers (world s) !! t) eqn:E; [|discriminate].
    eapply lookup_lt_Some, E. }
  assert (Hrun : timers_held s_run).
  { intros t' Ht'. exfalso. unfold s_run, Timer_status in Ht'. cbn in Ht'.
    destruct (decide (t = t')) as [->|Hne].
    - rewrite list_lookup_insert_eq in Ht' by assumption. discriminate.
    - rewrite list_lookup_insert_ne in Ht' by assumption.
      pose proof (Hinv t Hw) as H1.
      assert (H2 : _timer (self s) = Some t')
        by (apply Hinv; unfold Timer_status; exact Ht').
      congruence. }
  pose proof (timers_held_flush backend s_run Hrun) as Hfl.
  pose proof (flush_cases backend s_run) as Hc.
  destruct (flush backend s_run) as [r s1]. cbn in Hfl |- *.
  intros t' Ht'. unfold Timer_status in Ht'. cbn in Ht'.
  assert (Hlen : (t < length (timers (world s1)))%nat).
  { assert (length (timers (world s_run)) <= length (timers (world s1)))%nat.
    { destruct Hc as (_ & _ & [H|[H|[(e' & H)|(e' & H)]]]).
      - destruct H as (_ & _ & _ & _ & -> & _). now rewrite length_held_cancelled.
      - destruct H as (_ & _ & _ & _ & _ & -> & _). now rewrite length_held_cancelled.
      - destruct H as (_ & _ & _ & _ & _ & _ & -> & _). now rewrite length_held_cancelled.
      - destruct H as (_ & _ & _ & _ & _ & _ & -> & _).
        rewrite length_app, length_held_cancelled. lia. }
    unfold s_run in H. cbn in H. rewrite length_insert in H. lia. }
  destruct (decide (t = t')) as [->|Hne].
  - rewrite list_lookup_insert_eq in Ht' by assumption. discriminate.
  - rewrite list_lookup_insert_ne in Ht' by assumption.
    apply Hfl. unfold Timer_status. exact Ht'.
Qed.

Lemma close_eq backend s :
  close backend s
  = match _timer (self s) with
    | Some _ =>
        match flush backend s with
        | (Ok _, s') => (Ok tt, set__timer None s')
        | (Raise e, s') => (Raise e, s')
        end
    | None => (Ok tt, set__timer None s)
    end.
Proof.
  unfold close, mbind, M_bind, gets, modify.
  destruct (_timer (self s)); [|reflexivity].
  destruct (flush backend s) as [[[]|e] s']; reflexivity.
Qed.

(** The timer that [flush] leaves to the handler, if any, is a new one,
    and it is waiting. *)
Lemma flush_new_timer backend s t :
  _timer (self (flush backend s).2) = Some t ->
  t = length (timers (world s)) /\
  Timer_status (world (flush backend s).2) t = Waiting.
Proof.
  pose proof (flush_cases backend s) as H.
  destruct (flush backend s) as [r s']. cbn [snd].
  destruct H as (_ & _ & [H|[H|[(e' & H)|(e' & H)]]]).
  - destruct H as (_ & _ & _ & -> & _). discriminate.
  - destruct H as (_ & _ & _ & _ & -> & _). discriminate.
  - destruct H as (_ & _ & _ & _ & _ & -> & _). discriminate.
  - destruct H as (_ & _ & _ & _ & _ & -> & Hts & _). intros [= <-].
    split; [reflexivity|].
    unfold Timer_status. rewrite Hts, <- (length_held_cancelled s).
    now rewrite status_new_timer.
Qed.

Lemma held_waiting_flush backend s : held_waiting (flush backend s).2.
Proof. intros t Ht. now apply flush_new_timer in Ht as [_ Hw]. Qed.

Lemma held_waiting_schedule s :
  held_waiting s -> held_waiting (_schedule_flush s).2.
Proof.
  intros Hh. destruct (_timer (self s)) as [t0|] eqn:Etm.
  - rewrite (schedule_flush_armed s t0 Etm). exact Hh.
  - rewrite (schedule_flush_unarmed s Etm).
    destruct s as [[] [? tms ? ? ? ? ? ?]]. cbn in *.
    intros t [= <-]. unfold Timer_status. cbn. now rewrite status_new_timer.
Qed.

Lemma held_waiting_set_buffer f s :
  held_waiting s -> held_waiting (set__buffer f s).
Proof. destruct s as [[] ?]. exact id. Qed.

Lemma held_waiting_close backend s : held_waiting (close backend s).2.
Proof.
  rewrite close_eq. destruct (_timer (self s)) as [t0|].
  - pose proof (held_waiting_flush backend s) as Hf.
    destruct (flush backend s) as [[[]|e] s']; cbn [snd] in *; [|exact Hf].
    destruct s' as [[] ?]. intros t Ht. discriminate Ht.
  - destruct s as [[] ?]. intros t Ht. discriminate Ht.
Qed.

Lemma held_waiting_Timer_run backend t s :
  held_waiting s -> held_waiting (Timer_run backend t s).2.
Proof.
  intros Hh.
  destruct (decide (Timer_status (world s) t = Waiting)) as [Hw|Hw];
    [|now rewrite Timer_run_not_waiting by assumption].
  rewrite (Timer_run_waiting _ _ _ Hw).
  set (s_run := mk_State (self s) _).
  assert (Hlt : (t < length (timers (world s_run)))%nat).
  { unfold s_run. cbn. rewrite length_insert. unfold Timer_status in Hw.
    destruct (timers (world s) !! t) eqn:E; [|discriminate].
    eapply lookup_lt_Some, E. }
  pose proof (flush_new_timer backend s_run) as Hnew.
  destruct (flush backend s_run) as [r s1]. cbn [snd] in *.
  intros t1 Ht1. cbn in Ht1. destruct (Hnew t1 Ht1) as [-> Hst].
  assert (Hne : t <> length (timers (world s_run))) by lia.
  unfold Timer_status in *. cbn.
  rewrite list_lookup_insert_ne by exact Hne. exact Hst.
Qed.

(** When the handler holds every timer that will fire, and the one it
    holds will: a timer is armed exactly when the handler holds one. *)
Lemma no_live_timers (w : World) :
  (forall t, Timer_status w t <> Waiting) -> live_timers w = [].
Proof.
  intros Hno. unfold live_timers.
  induction (seq 0 (length (timers w))) as [|t l IH]; [reflexivity|].
  rewrite filter_cons_False by apply Hno. exact IH.
Qed.

Lemma live_timers_waiting (w : World) (t : nat) :
  t ∈ live_timers w <-> Timer_status w t = Waiting.
Proof.
  unfold live_timers. rewrite list_elem_of_filter, elem_of_seq. split.
  - intros [Hw _]. exact Hw.
  - intros Hw. split; [exact Hw|]. split; [lia|]. cbn.
    unfold Timer_status in Hw.
    destruct (timers w !! t) eqn:E; [|discriminate].
    eapply lookup_lt_Some, E.
Qed.

Lemma armed_iff_held (s : State) :
  timers_held s -> held_waiting s ->
  (live_timers (world s) = [] <-> _timer (self s) = None).
Proof.
  intros Hheld Hwait. split.
  - intros Hno. destruct (_timer (self s)) as [t|] eqn:Et; [|reflexivity].
    exfalso. assert (Hin : t ∈ live_timers (world s))
      by (apply live_timers_waiting, Hwait, Et).
    rewrite Hno in Hin. inversion Hin.
  - intros Hnone. apply no_live_timers. intros t Hw.
    apply Hheld in Hw. congruence.
Qed.

Section histories.
Context `{Builtins}.

Lemma timers_held_emit backend record s :
  timers_held s -> timers_held (emit backend record s).2.
Proof.
  intros Hinv. rewrite emit_eq.
  destruct (entry_of _ _ _) as [rec|e]; [|exact Hinv].
  rewrite try_flush_eq.
  destruct (_ && _).
  - apply timers_held_flush, timers_held_set_buffer, Hinv.
  - apply timers_held_schedule, timers_held_set_buffer, Hinv.
Qed.

(** As long as [close] is not called, the handler holds every timer that
    will still fire. *)
Lemma timers_held_without_close (cs : list Call) (s : State) :
  timers_held s ->
  Forall (fun c => is_close c = false) cs ->
  timers_held (run cs s).
Proof.
  intros Hinv Hcs. revert s Hinv.
  induction Hcs as [|c cs Hc _ IH]; intros s Hinv; [exact Hinv|].
  cbn. apply IH.
  destruct c; cbn in Hc |- *; try discriminate.
  - now apply timers_held_emit.
  - now apply timers_held_flush.
  - now apply timers_held_Timer_run.
Qed.

Lemma held_waiting_emit backend record s :
  held_waiting s -> held_waiting (emit backend record s).2.
Proof.
  intros Hh. rewrite emit_eq.
  destruct (entry_of _ _ _) as [rec|e]; [|exact Hh].
  rewrite try_flush_eq.
  destruct (_ && _).
  - apply held_waiting_flush.
  - apply held_waiting_schedule, held_waiting_set_buffer, Hh.
Qed.

(** The timer the handler holds is always one that will still fire. *)
Lemma held_waiting_run (cs : list Call) (s : State) :
  held_waiting s -> held_waiting (run cs s).
Proof.
  revert s. induction cs as [|c cs IH]; intros s Hh; [exact Hh|].
  cbn. apply IH. destruct c; cbn.
  - now apply held_waiting_emit.
  - apply held_waiting_flush.
  - apply held_waiting_close.
  - now apply held_waiting_Timer_run.
Qed.

End histories.

(** C9, amended.  Of two calls of [close] in a row the second never
    raises, and the first raises only in fail-fast mode, with the exception
    of the failed transmission of its [flush].  The second call makes no
    call of [helpers.bulk] when the buffer is empty.  In a state where the
    handler holds the timers that are armed, [close] flushes exactly when a
    timer is armed: without one it does nothing at all; with one it is
    [flush], as to the result, the world and the buffer: the timer is
    cancelled and, if the client can be made, the entries of the buffer
    are handed to [helpers.bulk].  After [close] the handler holds no
    timer. *)
Theorem C9_close_twice_raises_only_in_fail_fast_mode
    (b1 b2 : Backend) (s : State) :
  let '(r1, s1) := close b1 s in
  let '(r2, s2) := close b2 s1 in
  r2 = Ok tt /\
  (raise_on_indexing_exceptions (self s) = false -> r1 = Ok tt) /\
  (forall e, r1 = Raise e ->
     raise_on_indexing_exceptions (self s) = true /\
     _buffer (self s) <> [] /\ (transmit b1 s).1 = Raise e) /\
  (_buffer (self s1) = [] -> bulk_calls (world s2) = bulk_calls (world s1)) /\
  _timer (self s1) = None /\
  (timers_held s -> held_waiting s ->
   (live_timers (world s) = [] -> (r1, s1) = (Ok tt, s)) /\
   (live_timers (world s) <> [] ->
    r1 = (flush b1 s).1 /\
    world s1 = world (flush b1 s).2 /\
    _buffer (self s1) = _buffer (self (flush b1 s).2) /\
    (forall t, t ∈ live_timers (world s) ->
               Timer_status (world s1) t = Cancelled) /\
    (_buffer (self s) <> [] -> client_error b1 = None ->
     valid_datetime (clock (world s)) ->
     exists acts,
       bulk_calls (world s1) = bulk_calls (world s) ++ [acts] /\
       _source <$> acts = _buffer (self s)))).
Proof.
  assert (Hnone : forall b x, _timer (self x) = None -> close b x = (Ok tt, x)).
  { intros b [[] ?] Hx. cbn in Hx. subst. reflexivity. }
  pose proof (close_eq b1 s) as Hclose.
  pose proof (flush_cases b1 s) as Hc.
  pose proof (flush_outcome b1 s) as Ho.
  destruct (close b1 s) as [r1 s1].
  assert (Hfirst :
    (raise_on_indexing_exceptions (self s) = false -> r1 = Ok tt) /\
    (forall e, r1 = Raise e ->
       raise_on_indexing_exceptions (self s) = true /\
       _buffer (self s) <> [] /\ (transmit b1 s).1 = Raise e) /\
    _timer (self s1) = None /\
    (forall t0, _timer (self s) = Some t0 ->
       r1 = (flush b1 s).1 /\ world s1 = world (flush b1 s).2 /\
       _buffer (self s1) = _buffer (self (flush b1 s).2))).
  { destruct (_timer (self s)) as [t0|] eqn:Et.
    - destruct (flush b1 s) as [r s'].
      destruct Ho as (Ho1 & Ho2 & _).
      destruct r as [[]|e]; injection Hclose as -> ->.
      + repeat split; try discriminate; destruct s' as [[] ?]; reflexivity.
      + split; [exact Ho1|]. split; [exact Ho2|]. split; [|auto].
        destruct Hc as (_ & _ & [Hc|[Hc|[(e' & Hc)|(e' & Hc)]]]).
        * destruct Hc as (_ & Hr & _). discriminate Hr.
        * destruct Hc as (_ & _ & Hr & _). discriminate Hr.
        * apply Hc.
        * destruct Hc as (_ & _ & _ & Hr & _). discriminate Hr.
    - injection Hclose as -> ->.
      repeat split; try discriminate; destruct s as [[] ?]; reflexivity. }
  destruct Hfirst as (H1 & H2 & Htm & Hfl).
  rewrite (Hnone b2 s1 Htm).
  split; [reflexivity|]. split; [exact H1|]. split; [exact H2|].
  split; [reflexivity|]. split; [exact Htm|].
  intros Hheld Hwait.
  pose proof (armed_iff_held s Hheld Hwait) as Harmed. split.
  - intros Hno. apply Harmed in Hno. rewrite Hno in Hclose.
    rewrite Hclose. destruct s as [[] ?]. cbn in Hno. now subst.
  - intros Hlive.
    destruct (_timer (self s)) as [t0|] eqn:Et;
      [|exfalso; apply Hlive, Harmed; reflexivity].
    destruct (Hfl t0 eq_refl) as (Hr & Hw & Hb).
    split; [exact Hr|]. split; [exact Hw|]. split; [exact Hb|].
    assert (Hst0 : Timer_status (world s) t0 = Waiting) by now apply Hwait.
    assert (Hcan : held_cancelled s = <[t0 := Cancelled]> (timers (world s))).
    { unfold held_cancelled. now rewrite Et, Hst0. }
    assert (Hlt : (t0 < length (timers (world s)))%nat).
    { unfold Timer_status in Hst0.
      destruct (timers (world s) !! t0) eqn:E; [|discriminate].
      eapply lookup_lt_Some, E. }
    rewrite Hw. clear Hclose Hr Hw Hb.
    destruct (flush b1 s) as [r s']. cbn [snd].
    split.
    + intros t Ht. apply live_timers_waiting, Hheld in Ht.
      assert (t = t0) as -> by congruence.
      unfold Timer_status.
      assert (Hts : timers (world s') = held_cancelled s \/
                    timers (world s') = held_cancelled s ++ [Waiting]).
      { destruct Hc as (_ & _ & [Hc|[Hc|[(e' & Hc)|(e' & Hc)]]]).
        - left. apply Hc.
        - left. apply Hc.
        - left. apply Hc.
        - right. apply Hc. }
      destruct Hts as [-> | ->]; rewrite Hcan.
      * now rewrite list_lookup_insert_eq.
      * rewrite lookup_app_l by now rewrite length_insert.
        now rewrite list_lookup_insert_eq.
    + intros Hne Hcl Hv.
      destruct (attempted_valid_clock b1 s Hcl Hv) as (acts & Ha & Hsrc).
      exists acts. split; [|exact Hsrc]. rewrite <- Ha.
      destruct Hc as (_ & _ & [Hc|[Hc|[(e' & Hc)|(e' & Hc)]]]).
      * destruct Hc as (Hb & _). contradiction.
      * apply Hc.
      * apply Hc.
      * apply Hc.
Qed.


(** When the handler holds every live timer, there is at most one. *)
Lemma timers_held_at_most_one (s : State) :
  timers_held s -> (length (live_timers (world s)) <= 1)%nat.
Proof.
  intros Hinv. unfold live_timers.
  assert (Hall : forall t, t ∈ filter (fun t => Timer_status (world s) t = Waiting)
                             (seq 0 (length (timers (world s)))) ->
                           _timer (self s) = Some t).
  { intros t [Ht _]%list_elem_of_filter. now apply Hinv. }
  assert (Hnd : NoDup (filter (fun t => Timer_status (world s) t = Waiting)
                         (seq 0 (length (timers (world s))))))
    by apply NoDup_filter, NoDup_seq.
  destruct (filter _ _) as [|a [|b l]]; cbn; try lia.
  exfalso.
  assert (Ha : _timer (self s) = Some a) by (apply Hall; left).
  assert (Hb : _timer (self s) = Some b) by (apply Hall; right; left).
  apply NoDup_cons in Hnd as [Hnot _]. apply Hnot.
  assert (a = b) as -> by congruence. left.
Qed.

(** ** Formatting *)

Lemma decimal_small (fuel : nat) (n : Z) :
  n < 10 -> decimal (S fuel) n = String (digit n) "".
Proof. intros Hn. cbn [decimal]. destruct (Z.ltb_spec n 10); [reflexivity|lia]. Qed.

Lemma decimal_large (fuel : nat) (n : Z) :
  10 <= n ->
  decimal (S fuel) n = decimal fuel (n / 10) +:+ String (digit (n mod 10)) "".
Proof. intros Hn. cbn [decimal]. destruct (Z.ltb_spec n 10); [lia|reflexivity]. Qed.

(** Fuel beyond the number of digits changes nothing. *)
Lemma decimal_fuel (f1 f2 : nat) (n : Z) :
  0 <= n < 10 ^ Z.of_nat (S f1) -> 0 <= n < 10 ^ Z.of_nat (S f2) ->
  decimal (S f1) n = decimal (S f2) n.
Proof.
  revert f2 n. induction f1 as [|f1 IH]; intros f2 n H1 H2.
  - change (10 ^ Z.of_nat 1) with 10 in H1. now rewrite !decimal_small by lia.
  - destruct (Z.lt_ge_cases n 10) as [Hs|Hl].
    + now rewrite !decimal_small by lia.
    + destruct f2 as [|f2].
      { change (10 ^ Z.of_nat 1) with 10 in H2. lia. }
      rewrite (decimal_large (S f1) n), (decimal_large (S f2) n) by lia.
      f_equal.
      rewrite (Nat2Z.inj_succ (S f1)), Z.pow_succ_r in H1 by lia.
      rewrite (Nat2Z.inj_succ (S f2)), Z.pow_succ_r in H2 by lia.
      apply IH; (split; [apply Z.div_pos; lia|apply Z.div_lt_upper_bound; lia]).
Qed.

Lemma str_int_decimal (w : nat) (n : Z) :
  0 <= n < 10 ^ Z.of_nat (S w) -> str_int n = decimal (S w) n.
Proof.
  intros Hn. unfold str_int. destruct (Z.ltb_spec n 0); [lia|].
  apply decimal_fuel; [|assumption].
  split; [lia|].
  destruct (Z.eq_dec n 0) as [->|Hnz].
  - apply Z.pow_pos_nonneg; lia.
  - rewrite Nat2Z.inj_succ, Z2Nat.id by apply Z.log2_nonneg.
    apply Z.lt_le_trans with (2 ^ Z.succ (Z.log2 n)).
    + apply Z.log2_spec. lia.
    + apply Z.pow_le_mono_l. pose proof (Z.log2_nonneg n). lia.
Qed.

Lemma digits_zero (w : nat) : digits w 0 = zeros w.
Proof.
  induction w as [|w IH]; [reflexivity|].
  cbn [digits]. change (0 / 10) with 0. rewrite IH. clear IH.
  induction w as [|w IH]; [reflexivity|].
  cbn [zeros]. change (String "0" (zeros w) +:+ String (digit (0 mod 10)) "")
    with (String "0" (zeros w +:+ String (digit (0 mod 10)) "")).
  now rewrite IH.
Qed.

Lemma length_append (s1 s2 : string) :
  String.length (s1 +:+ s2) = (String.length s1 + String.length s2)%nat.
Proof.
  induction s1 as [|c s1 IH]; [reflexivity|].
  change (S (String.length (s1 +:+ s2)) = S (String.length s1 + String.length s2)).
  now rewrite IH.
Qed.

Lemma append_assoc (s1 s2 s3 : string) :
  (s1 +:+ s2) +:+ s3 = s1 +:+ (s2 +:+ s3).
Proof.
  induction s1 as [|c s1 IH]; [reflexivity|].
  change (String c ((s1 +:+ s2) +:+ s3) = String c (s1 +:+ (s2 +:+ s3))).
  now rewrite IH.
Qed.

Lemma length_decimal_le (w : nat) (n : Z) :
  (String.length (decimal w n) <= w)%nat.
Proof.
  revert n. induction w as [|w IH]; intros n; [reflexivity|].
  cbn [decimal]. destruct (n <? 10); [cbn; lia|].
  rewrite length_append. cbn. specialize (IH (n / 10)). lia.
Qed.

(** A number of at most [w] digits, padded with zeros to the width [w], is
    written with exactly its [w] low digits. *)
Lemma pad_decimal_digits (w : nat) (n : Z) :
  0 <= n < 10 ^ Z.of_nat (S w) ->
  zeros (S w - String.length (decimal (S w) n)) +:+ decimal (S w) n
  = digits (S w) n.
Proof.
  revert n. induction w as [|w IH]; intros n Hn.
  - change (10 ^ Z.of_nat 1) with 10 in Hn.
    rewrite decimal_small by lia. cbn [digits String.length Nat.sub zeros].
    rewrite Z.mod_small by lia. reflexivity.
  - destruct (Z.lt_ge_cases n 10) as [Hs|Hl].
    + rewrite decimal_small by lia.
      cbn [digits]. rewrite (Z.div_small n 10), (Z.mod_small n 10) by lia.
      change (0 / 10) with 0. fold (digits (S w) 0). 
      change (digits w 0 +:+ String (digit (0 mod 10)) "") with (digits (S w) 0).
      rewrite digits_zero. reflexivity.
    + rewrite decimal_large by lia.
      rewrite Nat2Z.inj_succ, Z.pow_succ_r in Hn by lia.
      assert (Hq : 0 <= n / 10 < 10 ^ Z.of_nat (S w)).
      { split; [apply Z.div_pos; lia|apply Z.div_lt_upper_bound; lia]. }
      specialize (IH (n / 10) Hq).
      pose proof (length_decimal_le (S w) (n / 10)) as Hlen.
      rewrite length_append.
      change (String.length (String (digit (n mod 10)) "")) with 1%nat.
      replace (S (S w) - (String.length (decimal (S w) (n / 10)) + 1))%nat
        with (S w - String.length (decimal (S w) (n / 10)))%nat by lia.
      rewrite <- append_assoc, IH. reflexivity.
Qed.

(** [format(n, "0<w>d")] of a number of at most [w] digits. *)
Lemma format_0d_digits (w : nat) (n : Z) :
  0 <= n < 10 ^ Z.of_nat (S w) -> format_0d (S w) n = digits (S w) n.
Proof.
  intros Hn. unfold format_0d. destruct (Z.ltb_spec n 0); [lia|].
  cbv zeta. rewrite (str_int_decimal w n Hn). now apply pad_decimal_digits.
Qed.

Lemma format_0d_2 n : 0 <= n < 100 -> format_0d 2 n = digits 2 n.
Proof. apply (format_0d_digits 1). Qed.

Lemma format_0d_3 n : 0 <= n < 1000 -> format_0d 3 n = digits 3 n.
Proof. apply (format_0d_digits 2). Qed.

Lemma format_0d_4 n : 0 <= n < 10000 -> format_0d 4 n = digits 4 n.
Proof. apply (format_0d_digits 3). Qed.

Lemma length_digits (w : nat) (n : Z) : String.length (digits w n) = w.
Proof.
  revert n. induction w as [|w IH]; intros n; [reflexivity|].
  cbn [digits]. rewrite length_append, IH. cbn. lia.
Qed.

(** [utcfromtimestamp] on an instant of the years 1..9999: the date is the
    one of the day the instant falls in, the time of day is what is left. *)
Lemma utcfromtimestamp_spec (us : Z) :
  0 < EPOCH_ORDINAL + us / US_PER_DAY <= _MAXORDINAL ->
  exists dt,
    utcfromtimestamp us = Ok dt /\ valid_datetime dt /\
    toordinal dt = EPOCH_ORDINAL + us / US_PER_DAY /\
    ((hour dt * 60 + minute dt) * 60 + second dt) * US_PER_SECOND
      + microsecond dt = us mod US_PER_DAY.
Proof.
  intros Ho. unfold utcfromtimestamp. cbv zeta.
  destruct (Z.ltb_spec 0 (EPOCH_ORDINAL + us / US_PER_DAY)); [|lia].
  destruct (Z.leb_spec (EPOCH_ORDINAL + us / US_PER_DAY) _MAXORDINAL); [|lia].
  cbn [andb].
  pose proof (ord2ymd_spec (EPOCH_ORDINAL + us / US_PER_DAY) ltac:(lia)) as Hs.
  destruct (_ord2ymd _) as [[y m] d].
  destruct Hs as (Hord & Hy & Hm & Hd & Hy').
  eexists. split; [reflexivity|].
  assert (Hrem : 0 <= us mod US_PER_DAY < US_PER_DAY)
    by (apply Z.mod_pos_bound; reflexivity).
  remember (us mod US_PER_DAY) as rem eqn:X. clear X.
  unfold valid_datetime, toordinal. cbn.
  unfold US_PER_DAY, US_PER_SECOND in *.
  repeat split; try lia; try (Z.div_mod_to_equations; lia).
Qed.

Lemma utcfromtimestamp_after_epoch (us : Z) :
  0 <= us < 253402300800 * US_PER_SECOND ->
  0 < EPOCH_ORDINAL + us / US_PER_DAY <= _MAXORDINAL.
Proof.
  unfold EPOCH_ORDINAL, US_PER_DAY, US_PER_SECOND, _MAXORDINAL.
  intros Hus. Z.div_mod_to_equations. lia.
Qed.

(** ** The microseconds of a timestamp *)

Lemma round_half_even_spec (n : Z) (d : positive) :
  2 * Z.abs (round_half_even n d * Z.pos d - n) <= Z.pos d.
Proof.
  unfold round_half_even. cbv zeta.
  pose proof (Z.div_mod n (Z.pos d) ltac:(discriminate)) as Hdm.
  pose proof (Z.mod_pos_bound n (Z.pos d) ltac:(reflexivity)) as Hr.
  remember (n / Z.pos d) as q eqn:Eq. remember (n mod Z.pos d) as r eqn:Er.
  clear Eq Er.
  destruct (Z.compare_spec (2 * r) (Z.pos d)); [destruct (Z.even q)| |]; nia.
Qed.

(** [2^(exponent num den)] is at most [num/den]. *)
Lemma exponent_spec (num : Z) (den : positive) :
  0 < num ->
  let k := exponent num den in
  (0 <= k -> Z.pos den * 2 ^ k <= num) /\
  (k < 0 -> Z.pos den <= num * 2 ^ (- k)).
Proof.
  intros Hnum. unfold exponent. cbv zeta.
  pose proof (Z.log2_spec num Hnum) as [Ha1 Ha2].
  pose proof (Z.log2_spec (Z.pos den) ltac:(reflexivity)) as [Hb1 Hb2].
  pose proof (Z.log2_nonneg num) as Ha0.
  pose proof (Z.log2_nonneg (Z.pos den)) as Hb0.
  remember (Z.log2 num) as a eqn:Ea. remember (Z.log2 (Z.pos den)) as b eqn:Eb.
  clear Ea Eb.
  rewrite Z.pow_succ_r in Ha2, Hb2 by assumption.
  assert (Hlow : (0 <= a - b - 1 -> Z.pos den * 2 ^ (a - b - 1) <= num) /\
                 (a - b - 1 < 0 -> Z.pos den <= num * 2 ^ (- (a - b - 1)))).
  { split; intros Hk1.
    - assert (Hp : 2 ^ a = 2 * 2 ^ b * 2 ^ (a - b - 1)).
      { rewrite <- (Z.pow_succ_r 2 b), <- Z.pow_add_r by lia. f_equal. lia. }
      assert (0 < 2 ^ (a - b - 1)) by (apply Z.pow_pos_nonneg; lia).
      nia.
    - assert (Hp : 2 * 2 ^ b = 2 ^ a * 2 ^ (- (a - b - 1))).
      { rewrite <- (Z.pow_succ_r 2 b), <- Z.pow_add_r by lia. f_equal. lia. }
      assert (0 < 2 ^ (- (a - b - 1))) by (apply Z.pow_pos_nonneg; lia).
      nia. }
  destruct (Z.leb_spec 0 (a - b)) as [Hk|Hk].
  - destruct (Z.leb_spec (Z.pos den * 2 ^ (a - b)) num) as [Ht|Ht].
    + split; [intros _; exact Ht|lia].
    + exact Hlow.
  - destruct (Z.leb_spec (Z.pos den) (num * 2 ^ (- (a - b)))) as [Ht|Ht].
    + split; [lia|intros _; exact Ht].
    + exact Hlow.
Qed.

Lemma round_half_even_multiple (k : Z) (d : positive) :
  round_half_even (k * Z.pos d) d = k.
Proof.
  unfold round_half_even. cbv zeta.
  rewrite Z.div_mul, Z.mod_mul by discriminate. reflexivity.
Qed.

Lemma round_half_even_scale (n m : Z) (d q : positive) :
  0 < m -> Z.pos q = Z.pos d * m ->
  round_half_even (n * m) q = round_half_even n d.
Proof.
  intros Hm Hq. unfold round_half_even. cbv zeta. rewrite Hq.
  rewrite Z.div_mul_cancel_r, Z.mul_mod_distr_r by lia.
  remember (n mod Z.pos d) as r eqn:Er. clear Er.
  destruct (Z.compare_spec (2 * r) (Z.pos d)),
    (Z.compare_spec (2 * (r * m)) (Z.pos d * m)); try reflexivity; nia.
Qed.

(** The exponent that [round_binary64] takes for a number below [2^20]. *)
Lemma round_binary64_exponent (x : Z) (den : positive) :
  x <> 0 -> Z.abs x < Z.pos den * 2 ^ 20 ->
  Z.max (exponent (Z.abs x) den - 52) (- 1074) <= - 33.
Proof.
  intros Hnz Hx.
  pose proof (exponent_spec (Z.abs x) den ltac:(lia)) as [Hlo _].
  cbv zeta in Hlo.
  remember (exponent (Z.abs x) den) as k eqn:Ek. clear Ek.
  assert (Hk : k < 20); [|lia].
  destruct (Z.lt_ge_cases k 20) as [|Hge]; [assumption|exfalso].
  specialize (Hlo ltac:(lia)).
  assert (2 ^ 20 <= 2 ^ k) by (apply Z.pow_le_mono_r; lia).
  nia.
Qed.

(** The product of a fraction by [1e6] in floating point, rounded to an
    integer, is less than one away from the exact product. *)
Lemma round_binary64_close (x : Z) (den : positive) :
  Z.abs x < Z.pos den * 2 ^ 20 ->
  let '(p, q) := round_binary64 x den in
  Z.abs (round_half_even p q * Z.pos den - x) < Z.pos den.
Proof.
  intros Hx. unfold round_binary64.
  destruct (Z.eqb_spec x 0) as [->|Hnz];
    [change (round_half_even 0 1) with 0; lia|].
  cbv zeta.
  pose proof (round_binary64_exponent x den Hnz Hx) as He.
  remember (Z.max (exponent (Z.abs x) den - 52) (- 1074)) as e eqn:Ee. clear Ee.
  destruct (Z.leb_spec 0 e) as [|_]; [lia|].
  assert (Hq : 2 <= 2 ^ (- e)).
  { change 2 with (2 ^ 1) at 1. apply Z.pow_le_mono_r; lia. }
  assert (Hpos : Z.pos (Z.to_pos (2 ^ (- e))) = 2 ^ (- e))
    by (apply Z2Pos.id; lia).
  pose proof (round_half_even_spec (x * 2 ^ (- e)) den) as H1.
  pose proof (round_half_even_spec
                (round_half_even (x * 2 ^ (- e)) den) (Z.to_pos (2 ^ (- e))))
    as H2.
  rewrite Hpos in H2.
  remember (round_half_even (x * 2 ^ (- e)) den) as p eqn:Ep. clear Ep.
  remember (round_half_even p (Z.to_pos (2 ^ (- e)))) as r eqn:Er. clear Er.
  remember (2 ^ (- e)) as q eqn:Eq. clear Eq Hpos.
  nia.
Qed.

(** When the fraction is a multiple of [2^-33], the product is exact. *)
Lemma round_binary64_exact (x : Z) (den : positive) :
  (Z.pos den | 2 ^ 33) ->
  Z.abs x < Z.pos den * 2 ^ 20 ->
  let '(p, q) := round_binary64 x den in
  round_half_even p q = round_half_even x den.
Proof.
  intros [m Hm] Hx. unfold round_binary64.
  destruct (Z.eqb_spec x 0) as [->|Hnz]; [reflexivity|].
  cbv zeta.
  pose proof (round_binary64_exponent x den Hnz Hx) as He.
  remember (Z.max (exponent (Z.abs x) den - 52) (- 1074)) as e eqn:Ee. clear Ee.
  destruct (Z.leb_spec 0 e) as [|_]; [lia|].
  assert (Hm0 : 0 < m) by (assert (0 < 2 ^ 33) by reflexivity; nia).
  assert (Hsplit : 2 ^ (- e) = Z.pos den * (m * 2 ^ (- e - 33))).
  { replace (- e) with (33 + (- e - 33)) at 1 by lia.
    rewrite Z.pow_add_r by lia. rewrite Hm. ring. }
  assert (Hk : 0 < m * 2 ^ (- e - 33)).
  { assert (0 < 2 ^ (- e - 33)) by (apply Z.pow_pos_nonneg; lia). nia. }
  remember (m * 2 ^ (- e - 33)) as k eqn:Ek. clear Ek.
  assert (Hpos : Z.pos (Z.to_pos (2 ^ (- e))) = Z.pos den * k).
  { rewrite Z2Pos.id; [exact Hsplit|]. rewrite Hsplit. nia. }
  rewrite Hsplit at 1.
  replace (x * (Z.pos den * k)) with (x * k * Z.pos den) by ring.
  rewrite round_half_even_multiple.
  now apply round_half_even_scale.
Qed.

Lemma timestamp_us_spec (v : Value) (us : Z) :
  timestamp_us v = Ok us -> microseconds_of v us.
Proof.
  destruct v as [|b|n|num den|s|its|its|its]; try discriminate; cbn.
  - intros [= <-]. destruct b; reflexivity.
  - intros [= <-]. reflexivity.
  - pose proof (Z.quot_rem' num (Z.pos den)) as Hqr.
    pose proof (Z.rem_bound_abs num (Z.pos den) ltac:(discriminate)) as Hrem.
    pose proof (round_binary64_close (Z.rem num (Z.pos den) * US_PER_SECOND) den)
      as Hclose.
    pose proof (round_binary64_exact (Z.rem num (Z.pos den) * US_PER_SECOND) den)
      as Hexact.
    pose proof (round_half_even_spec
                  (Z.rem num (Z.pos den) * US_PER_SECOND) den) as Hnear.
    destruct (round_binary64 _ den) as [p q]. intros [= <-].
    assert (Hsmall : Z.abs (Z.rem num (Z.pos den) * US_PER_SECOND)
                     < Z.pos den * 2 ^ 20).
    { unfold US_PER_SECOND. change (2 ^ 20) with 1048576. lia. }
    specialize (Hclose Hsmall). unfold US_PER_SECOND in *.
    remember (Z.quot num (Z.pos den)) as ip eqn:E1.
    remember (Z.rem num (Z.pos den)) as fr eqn:E2. clear E1 E2.
    split.
    + remember (round_half_even p q) as r eqn:Er. clear Er Hexact Hnear. nia.
    + intros Hdiv. rewrite (Hexact Hdiv Hsmall).
      remember (round_half_even (fr * 1000000) den) as r eqn:Er.
      clear Er Hexact Hclose. nia.
Qed.

(** ** The entry of a record *)

Section entry_facts.
Context `{Builtins}.

Lemma stored_raises key value e :
  stored key value = Raise e -> key = "args" /\ iter value = Raise e.
Proof.
  unfold stored. destruct (String.eqb_spec key "args") as [->|Hne].
  - destruct (iter value) as [args|e']; cbn; [discriminate|].
    intros [= ->]. auto.
  - cbn. discriminate.
Qed.

Lemma stored_args value items :
  iter value = Ok items ->
  stored "args" value = Ok (VTuple ((fun arg => VStr (str arg)) <$> items)).
Proof. unfold stored. cbn. intros ->. reflexivity. Qed.

Lemma stored_other key value :
  key <> "args" ->
  stored key value = Ok (match value with VNone => VStr "" | _ => value end).
Proof.
  intros Hne. unfold stored.
  destruct (String.eqb_spec key "args"); [contradiction|reflexivity].
Qed.

(** The loop of [emit], attribute by attribute. *)
Lemma emit_loop_spec (fields : Dict) (record : LogRecord) :
  match map_fold emit_item (Ok fields) record with
  | Ok rec =>
      forall k,
        match record !! k with
        | None => rec !! k = fields !! k
        | Some v =>
            if bool_decide (k ∈ __LOGGING_FILTER_FIELDS)
            then rec !! k = fields !! k
            else exists v', stored k v = Ok v' /\ rec !! k = Some v'
        end
  | Raise e =>
      exists v, record !! "args" = Some v /\ iter v = Raise e
  end.
Proof.
  apply (map_fold_weak_ind (fun r (m : LogRecord) =>
    match r with
    | Ok rec =>
        forall k,
          match m !! k with
          | None => rec !! k = fields !! k
          | Some v =>
              if bool_decide (k ∈ __LOGGING_FILTER_FIELDS)
              then rec !! k = fields !! k
              else exists v', stored k v = Ok v' /\ rec !! k = Some v'
          end
    | Raise e => exists v, m !! "args" = Some v /\ iter v = Raise e
    end)).
  - intros k. rewrite lookup_empty. reflexivity.
  - intros i x m r Hi IH. unfold emit_item.
    destruct r as [rec|e]; cbn.
    + case_bool_decide as Hf; cbn.
      * intros k. specialize (IH k).
        destruct (decide (i = k)) as [->|Hne].
        -- rewrite lookup_insert_eq. rewrite Hi in IH.
           now rewrite bool_decide_eq_true_2.
        -- rewrite lookup_insert_ne by assumption. exact IH.
      * destruct (stored i x) as [v'|e] eqn:Es; cbn.
        -- intros k. destruct (decide (i = k)) as [->|Hne].
           ++ rewrite !lookup_insert_eq. rewrite bool_decide_eq_false_2 by assumption.
              eauto.
           ++ rewrite !lookup_insert_ne by assumption. apply IH.
        -- apply stored_raises in Es as [-> Hit].
           exists x. rewrite lookup_insert_eq. auto.
    + destruct IH as (v & Hv & Hit). exists v.
      rewrite lookup_insert_ne by congruence. auto.
Qed.

Lemma args_not_filtered : "args" ∉ __LOGGING_FILTER_FIELDS.
Proof.
  apply (bool_decide_eq_false_1 ("args" ∈ __LOGGING_FILTER_FIELDS)).
  vm_compute. reflexivity.
Qed.

Lemma emit_loop_total (fields : Dict) (record : LogRecord) :
  (forall a, record !! "args" = Some a -> is_Ok (iter a) = true) ->
  exists rec, map_fold emit_item (Ok fields) record = Ok rec.
Proof.
  intros Hargs. pose proof (emit_loop_spec fields record) as Hs.
  destruct (map_fold _ _ _) as [rec|e]; [eauto|].
  destruct Hs as (v & Hv & Hit). specialize (Hargs v Hv).
  rewrite Hit in Hargs. discriminate.
Qed.

Lemma get_es_datetime_str_range (v : Value) (us : Z) :
  timestamp_us v = Ok us ->
  0 < EPOCH_ORDINAL + us / US_PER_DAY <= _MAXORDINAL ->
  exists dt,
    utcfromtimestamp us = Ok dt /\ valid_datetime dt /\
    toordinal dt = EPOCH_ORDINAL + us / US_PER_DAY /\
    ((hour dt * 60 + minute dt) * 60 + second dt) * US_PER_SECOND
      + microsecond dt = us mod US_PER_DAY /\
    _get_es_datetime_str v
    = Ok (digits 4 (year dt) +:+ "-" +:+ digits 2 (month dt) +:+ "-"
          +:+ digits 2 (day dt) +:+ "T" +:+ digits 2 (hour dt) +:+ ":"
          +:+ digits 2 (minute dt) +:+ ":" +:+ digits 2 (second dt) +:+ "."
          +:+ digits 3 (us / 1000 mod 1000) +:+ "Z").
Proof.
  intros Hus Hrange.
  destruct (utcfromtimestamp_spec us Hrange) as (dt & Hdt & Hv & Hord & Htime).
  exists dt. repeat split; try assumption; try apply Hv.
  unfold _get_es_datetime_str.
  rewrite Hus, Result_bind_Ok, Hdt, Result_bind_Ok.
  unfold mret, Result_ret. f_equal.
  destruct Hv as (Hy & Hm & Hd & Hh & Hmi & Hs & Hmu).
  assert (Hd' : 1 <= day dt <= 31).
  { split; [lia|]. unfold _days_in_month in Hd.
    destruct (_ && _); [lia|].
    assert (_DAYS_IN_MONTH (month dt) <= 31); [|lia].
    remember (month dt) as m eqn:X. clear X.
    assert (Hcases : m = 1 \/ m = 2 \/ m = 3 \/ m = 4 \/ m = 5 \/ m = 6 \/
                     m = 7 \/ m = 8 \/ m = 9 \/ m = 10 \/ m = 11 \/ m = 12) by lia.
    repeat (destruct Hcases as [-> | Hcases]); try subst m; cbn; lia. }
  assert (Hms : microsecond dt / 1000 = us / 1000 mod 1000).
  { unfold US_PER_DAY, US_PER_SECOND in *. Z.div_mod_to_equations. lia. }
  rewrite strftime_iso.
  rewrite (format_0d_4 (year dt)) by lia.
  rewrite !format_0d_2 by lia.
  rewrite format_0d_3 by (Z.div_mod_to_equations; lia).
  rewrite Hms.
  rewrite !append_assoc. reflexivity.
Qed.

Lemma get_es_datetime_str_spec (v : Value) (us : Z) :
  timestamp_us v = Ok us ->
  0 <= us < 253402300800 * US_PER_SECOND ->
  exists dt,
    utcfromtimestamp us = Ok dt /\ valid_datetime dt /\
    toordinal dt = EPOCH_ORDINAL + us / US_PER_DAY /\
    ((hour dt * 60 + minute dt) * 60 + second dt) * US_PER_SECOND
      + microsecond dt = us mod US_PER_DAY /\
    _get_es_datetime_str v
    = Ok (digits 4 (year dt) +:+ "-" +:+ digits 2 (month dt) +:+ "-"
          +:+ digits 2 (day dt) +:+ "T" +:+ digits 2 (hour dt) +:+ ":"
          +:+ digits 2 (minute dt) +:+ ":" +:+ digits 2 (second dt) +:+ "."
          +:+ digits 3 (us / 1000 mod 1000) +:+ "Z").
Proof.
  intros Hus Hrange.
  exact (get_es_datetime_str_range v us Hus
           (utcfromtimestamp_after_epoch us Hrange)).
Qed.

(** A timestamp that [_get_es_datetime_str] returns is the one of an
    instant of the years 1 to 9999. *)
Lemma get_es_datetime_str_Ok (v : Value) (stamp : string) :
  _get_es_datetime_str v = Ok stamp ->
  exists us dt,
    timestamp_us v = Ok us /\
    utcfromtimestamp us = Ok dt /\ valid_datetime dt /\
    toordinal dt = EPOCH_ORDINAL + us / US_PER_DAY /\
    ((hour dt * 60 + minute dt) * 60 + second dt) * US_PER_SECOND
      + microsecond dt = us mod US_PER_DAY /\
    stamp = digits 4 (year dt) +:+ "-" +:+ digits 2 (month dt) +:+ "-"
            +:+ digits 2 (day dt) +:+ "T" +:+ digits 2 (hour dt) +:+ ":"
            +:+ digits 2 (minute dt) +:+ ":" +:+ digits 2 (second dt) +:+ "."
            +:+ digits 3 (us / 1000 mod 1000) +:+ "Z".
Proof.
  intros Hstamp.
  destruct (timestamp_us v) as [us|e] eqn:Hus;
    [|unfold _get_es_datetime_str in Hstamp; rewrite Hus in Hstamp;
      discriminate Hstamp].
  assert (Hrange : 0 < EPOCH_ORDINAL + us / US_PER_DAY <= _MAXORDINAL).
  { unfold _get_es_datetime_str in Hstamp.
    rewrite Hus, Result_bind_Ok in Hstamp.
    unfold utcfromtimestamp in Hstamp. cbv zeta in Hstamp.
    destruct (Z.ltb_spec 0 (EPOCH_ORDINAL + us / US_PER_DAY));
      destruct (Z.leb_spec (EPOCH_ORDINAL + us / US_PER_DAY) _MAXORDINAL);
      cbn [andb] in Hstamp; try discriminate Hstamp.
    lia. }
  destruct (get_es_datetime_str_range v us Hus Hrange)
    as (dt & Hdt & Hv & Hord & Htime & Heq).
  exists us, dt. rewrite Heq in Hstamp. apply Ok_inj in Hstamp.
  repeat split; try assumption; try apply Hv. now symmetry.
Qed.


Lemma entry_of_Ok (fields : Dict) (ts : string) (record : LogRecord) (entry : Dict) :
  entry_of fields ts record = Ok entry ->
  exists rec timestamp stamp,
    map_fold emit_item (Ok fields) record = Ok rec /\
    record !! "created" = Some timestamp /\
    _get_es_datetime_str timestamp = Ok stamp /\
    entry = <[ts := VStr stamp]> rec.
Proof.
  unfold entry_of, created.
  destruct (map_fold _ _ _) as [rec|e]; [|discriminate].
  rewrite Result_bind_Ok.
  destruct (record !! "created") as [timestamp|]; [|discriminate].
  rewrite Result_bind_Ok.
  destruct (_get_es_datetime_str timestamp) as [stamp|e] eqn:Es; [|discriminate].
  rewrite Result_bind_Ok. intros [= <-].
  exists rec, timestamp, stamp. repeat split; (reflexivity || assumption).
Qed.

(** C6, amended.  In the entry [emit] builds, the timestamp field holds
    the formatted creation time ([_get_es_datetime_str] of
    [record.created]), whatever the record or the additional fields have
    under that name.  Under every other key: an attribute of
    the record that is not one of [msecs], [relativeCreated], [levelno],
    [created] is stored, [None] as the empty string and [args] as the tuple
    of the [str] of its elements; where the record has no attribute, or a
    filtered one, the entry has what the additional fields have. *)
Theorem C6_entry_holds_fields_and_attributes
    (fields : Dict) (ts : string) (record : LogRecord) (entry : Dict) :
  entry_of fields ts record = Ok entry ->
  (exists timestamp stamp,
     record !! "created" = Some timestamp /\
     _get_es_datetime_str timestamp = Ok stamp /\
     entry !! ts = Some (VStr stamp)) /\
  forall k, k <> ts ->
    (record !! k = None -> entry !! k = fields !! k) /\
    (k ∈ __LOGGING_FILTER_FIELDS -> entry !! k = fields !! k) /\
    (forall v, record !! k = Some v ->
       k ∉ __LOGGING_FILTER_FIELDS -> k <> "args" ->
       entry !! k = Some (match v with VNone => VStr "" | _ => v end)) /\
    (forall v, record !! k = Some v -> k = "args" ->
       exists items,
         iter v = Ok items /\
         entry !! k = Some (VTuple ((fun arg => VStr (str arg)) <$> items))).
Proof.
  intros (rec & timestamp & stamp & Hloop & Hcreated & Hstamp & ->)%entry_of_Ok.
  split.
  { exists timestamp, stamp. split; [exact Hcreated|]. split; [exact Hstamp|].
    apply lookup_insert_eq. }
  intros k Hk. rewrite lookup_insert_ne by congruence.
  pose proof (emit_loop_spec fields record) as Hs. rewrite Hloop in Hs.
  specialize (Hs k). repeat split.
  - intros Hn. now rewrite Hn in Hs.
  - intros Hf. destruct (record !! k); [|assumption].
    now rewrite bool_decide_eq_true_2 in Hs.
  - intros v Hv Hf Hargs.
    rewrite Hv, bool_decide_eq_false_2 in Hs by assumption.
    destruct Hs as (v' & Hst & ->). rewrite stored_other in Hst by assumption.
    congruence.
  - intros v Hv ->.
    rewrite Hv, bool_decide_eq_false_2 in Hs by apply args_not_filtered.
    destruct Hs as (v' & Hst & ->).
    destruct (iter v) as [items|e] eqn:Hit.
    + exists items. split; [reflexivity|].
      rewrite (stored_args v items Hit) in Hst. congruence.
    + unfold stored in Hst. cbn in Hst. rewrite Hit in Hst. discriminate.
Qed.

End entry_facts.

Section entry_theorems.
Context `{Builtins}.

(** C7, amended.  An entry that [emit] builds holds, under the timestamp
    field name, the creation time of the record in UTC: the instant is
    [record.created] in whole microseconds (exactly for an integer, to less
    than one microsecond for a float), and from the year 1000 on the field
    is the string YYYY-MM-DDTHH:MM:SS.mmmZ, 24 characters, of the date and
    the time of day of that instant, where mmm are the milliseconds, cut,
    on three digits.  [emit] builds an entry whenever [args], if any, can
    be iterated over and [created] is a number whose instant is from the
    epoch to the end of the year 9999. *)
Theorem C7_timestamp_field_is_iso_utc_milliseconds
    (fields : Dict) (ts : string) (record : LogRecord) :
  (forall entry, entry_of fields ts record = Ok entry ->
   exists v us dt,
     record !! "created" = Some v /\
     microseconds_of v us /\
     utcfromtimestamp us = Ok dt /\
     valid_datetime dt /\
     toordinal dt = EPOCH_ORDINAL + us / US_PER_DAY /\
     ((hour dt * 60 + minute dt) * 60 + second dt) * US_PER_SECOND
       + microsecond dt = us mod US_PER_DAY /\
     (1000 <= year dt ->
      exists stamp,
        entry !! ts = Some (VStr stamp) /\
        stamp = digits 4 (year dt) +:+ "-" +:+ digits 2 (month dt) +:+ "-"
                +:+ digits 2 (day dt) +:+ "T" +:+ digits 2 (hour dt) +:+ ":"
                +:+ digits 2 (minute dt) +:+ ":" +:+ digits 2 (second dt)
                +:+ "." +:+ digits 3 (us / 1000 mod 1000) +:+ "Z" /\
        String.length stamp = 24%nat)) /\
  (forall v,
     record !! "created" = Some v ->
     (exists us, microseconds_of v us) ->
     (forall us, microseconds_of v us ->
                 0 <= us < 253402300800 * US_PER_SECOND) ->
     (forall a, record !! "args" = Some a -> is_Ok (iter a) = true) ->
     exists entry, entry_of fields ts record = Ok entry).
Proof.
  split.
  - intros entry (rec & v & stamp & _ & Hcreated & Hstamp & ->)%entry_of_Ok.
    destruct (get_es_datetime_str_Ok v stamp Hstamp)
      as (us & dt & Hus & Hdt & Hv & Hord & Htime & ->).
    exists v, us, dt.
    split; [exact Hcreated|]. split; [now apply timestamp_us_spec|].
    split; [exact Hdt|]. split; [exact Hv|]. split; [exact Hord|].
    split; [exact Htime|]. intros _.
    eexists. split; [apply lookup_insert_eq|]. split; [reflexivity|].
    now rewrite !length_append, !length_digits.
  - intros v Hcreated (us0 & Hsome) Hrange Hargs.
    destruct (emit_loop_total fields record Hargs) as (rec & Hloop).
    assert (Hus : exists us, timestamp_us v = Ok us).
    { destruct v; try contradiction; cbn; try (eexists; reflexivity).
      destruct (round_binary64 _ _). eexists; reflexivity. }
    destruct Hus as (us & Hus).
    pose proof (Hrange us (timestamp_us_spec v us Hus)) as Hr.
    destruct (get_es_datetime_str_spec v us Hus Hr) as (dt & _ & _ & _ & _ & Hstamp).
    eexists. unfold entry_of, created.
    rewrite Hloop, Hcreated, !Result_bind_Ok, Hstamp. reflexivity.
Qed.

End entry_theorems.

(** ** Construction *)

Lemma init_spec (args : InitArgs) (w w' : World) (h : ESHandler) :
  __init__ args w = (Ok h, w') ->
  let l := fresh (dom (heap w)) in
  let base := match arg_es_additional_fields args with
              | None => ∅
              | Some d => deref w d
              end in
  exists host_ip,
    heap w' = <[l := <["host" := VStr (hostname w)]>
                       (<["host_ip" := VStr host_ip]> base)]> (heap w) /\
    h = mk_ESHandler (arg_buffer_size args) (arg_es_index_name args)
          (arg_index_name_frequency args) (arg_es_doc_type args) l
          (arg_raise_on_indexing_exceptions args)
          (arg_default_timestamp_field_name args) (arg_timed_flush args)
          [] None /\
    timers w' = timers w /\ error_stream w' = error_stream w /\
    bulk_calls w' = bulk_calls w /\ clock w' = clock w.
Proof.
  destruct w as [hp tms err bc clk hn ps gh].
  unfold __init__. cbv zeta.
  set (l := fresh (dom hp)).
  assert (Hcopy :
    (match arg_es_additional_fields args with
     | None => dict_new ∅
     | Some d => dict_copy d
     end) (mk_World hp tms err bc clk hn ps gh)
    = (Ok l, mk_World (<[l := match arg_es_additional_fields args with
                               | None => ∅
                               | Some d => default ∅ (hp !! d)
                               end]> hp) tms err bc clk hn ps gh)).
  { destruct (arg_es_additional_fields args); reflexivity. }
  rewrite bind_apply, Hcopy. clear Hcopy.
  unfold deref; cbn [heap].
  set (base := match arg_es_additional_fields args with
               | None => ∅ | Some d => default ∅ (hp !! d) end).
  unfold mbind, M_bind, gets, mret, M_ret, try_except, lift_result, raise,
    dict_update, modify, deref, set_heap, errno_of.
  cbv beta iota delta [hostname platform_system gethostbyname heap timers
                       error_stream bulk_calls clock].
  assert (Hupd : forall ip,
    <[l := <["host" := VStr hn]> (<["host_ip" := VStr ip]> ∅)
           ∪ default ∅ (<[l := base]> hp !! l)]> (<[l := base]> hp)
    = <[l := <["host" := VStr hn]> (<["host_ip" := VStr ip]> base)]> hp).
  { intros ip. rewrite lookup_insert_eq. cbn. rewrite insert_insert_eq.
    f_equal. rewrite <- !insert_union_l. now rewrite (left_id ∅ _). }
  destruct (negb _).
  - destruct (gh hn) as [ip|e].
    + intros [= <- <-]. exists ip. rewrite Hupd. repeat split.
    + destruct e as [| | | |n|]; try discriminate.
      destruct (n =? 8); [|discriminate].
      intros [= <- <-]. exists "127.0.0.1". rewrite Hupd. repeat split.
  - intros [= <- <-]. exists "127.0.0.1". rewrite Hupd. repeat split.
Qed.

(** ** What no method writes *)

Lemma same_config_trans h1 h2 h3 :
  same_config h1 h2 -> same_config h2 h3 -> same_config h1 h3.
Proof. unfold same_config. intuition congruence. Qed.

Lemma same_surroundings_trans w1 w2 w3 :
  same_surroundings w1 w2 -> same_surroundings w2 w3 -> same_surroundings w1 w3.
Proof. unfold same_surroundings. intuition congruence. Qed.

Lemma flush_frame backend s :
  same_config (self s) (self (flush backend s).2) /\
  same_surroundings (world s) (world (flush backend s).2).
Proof.
  pose proof (flush_cases backend s) as H.
  destruct (flush backend s) as [r s']. cbn. split; apply H.
Qed.

Lemma schedule_flush_frame s :
  same_config (self s) (self (_schedule_flush s).2) /\
  same_surroundings (world s) (world (_schedule_flush s).2).
Proof.
  destruct (_timer (self s)) as [t|] eqn:Et.
  - rewrite (schedule_flush_armed s t Et). split; [apply same_config_refl|apply same_surroundings_refl].
  - rewrite (schedule_flush_unarmed s Et). destruct s as [[] []].
    split; repeat split.
Qed.

Lemma close_frame backend s :
  same_config (self s) (self (close backend s).2) /\
  same_surroundings (world s) (world (close backend s).2).
Proof.
  rewrite close_eq.
  destruct (_timer (self s)) as [t|].
  - pose proof (flush_frame backend s) as [Hc Hs].
    destruct (flush backend s) as [[[]|e] s']; cbn [snd] in *.
    + destruct s' as [[] []]. split; [exact Hc|exact Hs].
    + split; assumption.
  - destruct s as [[] []]. split; repeat split.
Qed.

Lemma Timer_run_frame backend t s :
  same_config (self s) (self (Timer_run backend t s).2) /\
  same_surroundings (world s) (world (Timer_run backend t s).2).
Proof.
  destruct (decide (Timer_status (world s) t = Waiting)) as [Hw|Hw].
  - rewrite (Timer_run_waiting _ _ _ Hw).
    pose proof (flush_frame backend
                  (mk_State (self s) (set_timers <[t:=Running]> (world s))))
      as [Hc Hs].
    destruct (flush backend _) as [r s1]. cbn in *.
    split; [exact Hc|]. destruct s as [? []], s1 as [? []]. exact Hs.
  - rewrite Timer_run_not_waiting by assumption.
    split; [apply same_config_refl|apply same_surroundings_refl].
Qed.

Section frame.
Context `{Builtins}.

Lemma emit_frame backend record s :
  same_config (self s) (self (emit backend record s).2) /\
  same_surroundings (world s) (world (emit backend record s).2).
Proof.
  rewrite emit_eq.
  destruct (entry_of _ _ _) as [rec|e];
    [|split; [apply same_config_refl|apply same_surroundings_refl]].
  rewrite try_flush_eq.
  set (s1 := set__buffer _ s).
  assert (Hc1 : same_config (self s) (self s1)) by (destruct s as [[] ?]; repeat split).
  assert (Hs1 : same_surroundings (world s) (world s1)) by (destruct s as [[] ?]; repeat split).
  assert (Hb : buffer_size (self s1) = buffer_size (self s)) by (destruct s as [[] ?]; reflexivity).
  destruct (_ && _).
  - destruct (flush_frame backend s1) as [Ha Hb'].
    split; [exact (same_config_trans _ _ _ Hc1 Ha)
           |exact (same_surroundings_trans _ _ _ Hs1 Hb')].
  - destruct (schedule_flush_frame s1) as [Ha Hb'].
    split; [exact (same_config_trans _ _ _ Hc1 Ha)
           |exact (same_surroundings_trans _ _ _ Hs1 Hb')].
Qed.

Lemma run_frame (cs : list Call) (s : State) :
  same_config (self s) (self (run cs s)) /\
  same_surroundings (world s) (world (run cs s)).
Proof.
  revert s. induction cs as [|c cs IH]; intros s.
  - split; [apply same_config_refl|apply same_surroundings_refl].
  - cbn. destruct (IH (call c s).2) as [Hc Hs].
    assert (same_config (self s) (self (call c s).2) /\
            same_surroundings (world s) (world (call c s).2)) as [Hc1 Hs1].
    { destruct c; cbn.
      - apply emit_frame.
      - apply flush_frame.
      - apply close_frame.
      - apply Timer_run_frame. }
    split; [exact (same_config_trans _ _ _ Hc1 Hc)
           |exact (same_surroundings_trans _ _ _ Hs1 Hs)].
Qed.

(** C10.  [__init__] writes to no dictionary that existed before: the
    handler's additional fields are a new object, a copy of the caller's
    dictionary, to which [host] and [host_ip] are added.  After any history
    of calls, the entry [emit] builds for a record has the keys [host] and
    [host_ip]. *)
Theorem C10_construction_copies_the_fields_and_adds_the_host
    (args : InitArgs) (w w' : World) (h : ESHandler) :
  __init__ args w = (Ok h, w') ->
  (forall l, l ∈ dom (heap w) -> heap w' !! l = heap w !! l) /\
  (es_additional_fields h ∉ dom (heap w)) /\
  (forall d fields,
     arg_es_additional_fields args = Some d -> heap w !! d = Some fields ->
     es_additional_fields h <> d /\ heap w' !! d = Some fields /\
     forall k, k <> "host" -> k <> "host_ip" ->
               deref w' (es_additional_fields h) !! k = fields !! k) /\
  (exists host_ip,
     deref w' (es_additional_fields h) !! "host" = Some (VStr (hostname w)) /\
     deref w' (es_additional_fields h) !! "host_ip" = Some (VStr host_ip)) /\
  (forall (cs : list Call) (record : LogRecord) (entry : Dict),
     let s := run cs (mk_State h w') in
     entry_of (deref (world s) (es_additional_fields (self s)))
       (default_timestamp_field_name (self s)) record = Ok entry ->
     is_Some (entry !! "host") /\ is_Some (entry !! "host_ip")).
Proof.
  intros Hinit.
  destruct (init_spec args w w' h Hinit) as (ip & Hheap & Hh & _).
  cbv zeta in Hheap.
  assert (Hl : es_additional_fields h = fresh (dom (heap w))) by (rewrite Hh; reflexivity).
  assert (Hfresh : fresh (dom (heap w)) ∉ dom (heap w)) by apply is_fresh.
  assert (Hown : deref w' (es_additional_fields h)
                 = <["host" := VStr (hostname w)]>
                     (<["host_ip" := VStr ip]>
                        match arg_es_additional_fields args with
                        | None => ∅
                        | Some d => deref w d
                        end)).
  { unfold deref at 1. rewrite Hheap, Hl, lookup_insert_eq. reflexivity. }
  split; [|split; [|split; [|split]]].
  - intros l Hin. rewrite Hheap. apply lookup_insert_ne. congruence.
  - now rewrite Hl.
  - intros d fields Hd Hfields.
    assert (Hne : fresh (dom (heap w)) <> d).
    { intros <-. apply Hfresh, elem_of_dom. eauto. }
    split; [congruence|]. split.
    + rewrite Hheap, lookup_insert_ne by assumption. exact Hfields.
    + intros k Hk1 Hk2. rewrite Hown, Hd.
      rewrite !lookup_insert_ne by congruence.
      unfold deref. now rewrite Hfields.
  - exists ip. rewrite Hown. split.
    + apply lookup_insert_eq.
    + rewrite lookup_insert_ne by discriminate. apply lookup_insert_eq.
  - intros cs record entry s Hentry.
    destruct (run_frame cs (mk_State h w')) as [Hc Hs]. fold s in Hc, Hs.
    destruct Hc as (_ & _ & _ & _ & Hf & _).
    destruct Hs as (Hhp & _).
    cbn in Hf, Hhp.
    assert (Hfields : deref (world s) (es_additional_fields (self s))
                      = deref w' (es_additional_fields h)).
    { unfold deref. now rewrite Hf, Hhp. }
    rewrite Hfields in Hentry.
    assert (Hhost : is_Some (deref w' (es_additional_fields h) !! "host") /\
                    is_Some (deref w' (es_additional_fields h) !! "host_ip")).
    { rewrite Hown. split.
      - rewrite lookup_insert_eq. eauto.
      - rewrite lookup_insert_ne by discriminate. rewrite lookup_insert_eq. eauto. }
    remember (deref w' (es_additional_fields h)) as own eqn:X. clear X.
    apply entry_of_Ok in Hentry as (rec & _ & stamp & Hloop & _ & _ & ->).
    pose proof (emit_loop_spec own record) as Hspec. rewrite Hloop in Hspec.
    assert (Hkeep : forall k, is_Some (own !! k) -> is_Some (rec !! k)).
    { intros k Hk. specialize (Hspec k).
      destruct (record !! k) as [v|]; [|now rewrite Hspec].
      destruct (bool_decide _); [now rewrite Hspec|].
      destruct Hspec as (v' & _ & ->). eauto. }
    assert (Hins : forall k, is_Some (rec !! k) ->
              is_Some (<[default_timestamp_field_name (self s) := VStr stamp]> rec !! k)).
    { intros k Hk. rewrite lookup_insert. case_decide; eauto. }
    split; apply Hins, Hkeep; apply Hhost.
Qed.

End frame.

(** ** The claims at concrete inputs *)

(** The conjuncts of a goal, one by one. *)
Ltac conjuncts := repeat match goal with |- _ /\ _ => split end.

(** Against C1 as stated: a handler with one buffered entry, not in
    fail-fast mode, whose backend is down.  [flush] returns normally and
    the entry is still in the buffer; when the timer that [flush] started
    fires and the backend is up again, the same entry is submitted a second
    time. *)
Lemma C1_counterexample :
  let s := one_buffered false in
  let s' := (flush backend_down s).2 in
  let s2 := (Timer_run backend_up 1 s').2 in
  length (_buffer (self s)) = 1%nat /\
  raise_on_indexing_exceptions (self s) = false /\
  (transmit backend_down s).1 = Raise (Exception "connection refused") /\
  (flush backend_down s).1 = Ok tt /\
  _buffer (self s') = _buffer (self s) /\
  _timer (self s') = Some 1%nat /\
  (Timer_run backend_up 1 s').1 = Ok tt /\
  map (map _source) (bulk_calls (world s2))
  = [_buffer (self s); _buffer (self s)].
Proof. cbv zeta. repeat split; vm_compute; reflexivity. Qed.

(** C1 at that handler. *)
Lemma C1_failed_batch_witness :
  let s := one_buffered false in
  let e := Exception "connection refused" in
  (_buffer (self s) <> [] /\
   (transmit backend_down s).1 = Raise e /\
   raise_on_indexing_exceptions (self s) = false) /\
  _buffer (self (flush backend_down s).2) = _buffer (self s).
Proof.
  intros s e.
  assert (H1 : _buffer (self s) <> [])
    by (intros Hb; apply (f_equal length) in Hb; vm_compute in Hb; discriminate Hb).
  assert (H2 : (transmit backend_down s).1 = Raise e) by (vm_compute; reflexivity).
  assert (H3 : raise_on_indexing_exceptions (self s) = false) by (vm_compute; reflexivity).
  split; [auto|].
  pose proof (C1_failed_batch_stays_in_buffer backend_down s e H1 H2 H3) as H.
  destruct (flush backend_down s) as [r s']. apply H.
Defined.

(** C2 at a new handler ([buffer_size] 1000) and one record: no flush,
    the entry stays in the buffer and timer 0 is started; at a handler
    whose [buffer_size] is 1: the entry is handed to [helpers.bulk] at
    once; and at that handler when its client cannot be made: the flush
    is attempted, [helpers.bulk] is not called and the entry stays in the
    buffer. *)
Lemma C2_emit_witness :
  let out := @emit sample_builtins backend_up sample_record
               (sample_handler false) in
  let out' := @emit sample_builtins backend_up sample_record eager_handler in
  let out'' := @emit sample_builtins backend_without_client sample_record
                 eager_handler in
  (out.1 = Ok tt /\
   length (_buffer (self out.2)) = 1%nat /\
   _timer (self out.2) = Some 0%nat /\
   Timer_status (world out.2) 0 = Waiting /\
   bulk_calls (world out.2) = []) /\
  (exists acts, bulk_calls (world out'.2) = [acts] /\ length acts = 1%nat) /\
  (bulk_calls (world out''.2) = [] /\
   length (_buffer (self out''.2)) = 1%nat).
Proof.
  intros out out' out''. split; [|split].
  - set (s := sample_handler false) in *.
    assert (Hok : is_Ok (@entry_of sample_builtins
                           (deref (world s) (es_additional_fields (self s)))
                           (default_timestamp_field_name (self s))
                           sample_record) = true) by (vm_compute; reflexivity).
    destruct (@entry_of sample_builtins
                (deref (world s) (es_additional_fields (self s)))
                (default_timestamp_field_name (self s)) sample_record)
      as [rec|e] eqn:E; [clear Hok|discriminate Hok].
    pose proof (@C2_synchronous_flush_iff_threshold sample_builtins backend_up
                  sample_record s rec E) as H.
    cbv zeta in H. fold out in H. destruct out as [r s'].
    destruct H as (Hb1 & H).
    assert (Hc : (buffer_size (self s) <=?
                  Z.of_nat (length (_buffer (self (set__buffer
                    (fun b => b ++ [rec]) s)))))
                 && negb (_timed_flush (self s)) = false)
      by (rewrite Hb1, length_app; vm_compute; reflexivity).
    rewrite Hc in H.
    destruct H as (_ & Hr & Hbc & _ & Hb & _ & Hnew).
    assert (Ht : _timer (self s) = None) by (vm_compute; reflexivity).
    assert (Hl : length (timers (world s)) = 0%nat) by (vm_compute; reflexivity).
    destruct (Hnew Ht) as (Htm & _ & Hst). rewrite Hl in Htm, Hst.
    cbn [fst snd]. split; [exact Hr|]. split.
    { rewrite Hb, length_app. vm_compute. reflexivity. }
    split; [exact Htm|]. split; [exact Hst|].
    rewrite Hbc. vm_compute. reflexivity.
  - set (s := eager_handler) in *.
    assert (Hok : is_Ok (@entry_of sample_builtins
                           (deref (world s) (es_additional_fields (self s)))
                           (default_timestamp_field_name (self s))
                           sample_record) = true) by (vm_compute; reflexivity).
    destruct (@entry_of sample_builtins
                (deref (world s) (es_additional_fields (self s)))
                (default_timestamp_field_name (self s)) sample_record)
      as [rec|e] eqn:E; [clear Hok|discriminate Hok].
    pose proof (@C2_synchronous_flush_iff_threshold sample_builtins backend_up
                  sample_record s rec E) as H.
    cbv zeta in H. fold out' in H. destruct out' as [r s'].
    destruct H as (Hb1 & H).
    assert (Hc : (buffer_size (self s) <=?
                  Z.of_nat (length (_buffer (self (set__buffer
                    (fun b => b ++ [rec]) s)))))
                 && negb (_timed_flush (self s)) = true)
      by (rewrite Hb1, length_app; vm_compute; reflexivity).
    rewrite Hc in H.
    destruct H as (_ & _ & _ & Hbulk).
    destruct (Hbulk eq_refl) as (acts & Hbc & Hsrc).
    { repeat split; vm_compute; (reflexivity || discriminate). }
    exists acts. cbn [snd]. split.
    + rewrite Hbc.
      assert (H0 : bulk_calls (world s) = []) by (vm_compute; reflexivity).
      now rewrite H0.
    + apply (f_equal length) in Hsrc.
      rewrite length_fmap, length_app in Hsrc. rewrite Hsrc.
      vm_compute. reflexivity.
  - set (s := eager_handler) in *.
    assert (Hok : is_Ok (@entry_of sample_builtins
                           (deref (world s) (es_additional_fields (self s)))
                           (default_timestamp_field_name (self s))
                           sample_record) = true) by (vm_compute; reflexivity).
    destruct (@entry_of sample_builtins
                (deref (world s) (es_additional_fields (self s)))
                (default_timestamp_field_name (self s)) sample_record)
      as [rec|e] eqn:E; [clear Hok|discriminate Hok].
    pose proof (@C2_synchronous_flush_iff_threshold sample_builtins
                  backend_without_client sample_record s rec E) as H.
    cbv zeta in H. fold out'' in H. destruct out'' as [r s'].
    destruct H as (Hb1 & H).
    assert (Hc : (buffer_size (self s) <=?
                  Z.of_nat (length (_buffer (self (set__buffer
                    (fun b => b ++ [rec]) s)))))
                 && negb (_timed_flush (self s)) = true)
      by (rewrite Hb1, length_app; vm_compute; reflexivity).
    rewrite Hc in H.
    destruct H as (_ & _ & Hnone & _).
    destruct (Hnone _ eq_refl) as (Hbc & Hb).
    cbn [snd]. split.
    + rewrite Hbc. vm_compute. reflexivity.
    + rewrite Hb, length_app. vm_compute. reflexivity.
Defined.

(** C3 at a handler with one buffered entry, not in fail-fast mode, whose
    backend is down. *)
Lemma C3_flush_witness :
  let s := one_buffered false in
  (flush backend_down s).1 = Ok tt /\
  error_stream (world (flush backend_down s).2)
  = error_stream (world s) ++ [Exception "connection refused"].
Proof.
  intros s.
  pose proof (@C3_failure_propagates_iff_fail_fast sample_builtins
                backend_down s) as H.
  destruct (flush backend_down s) as [r s'].
  destruct H as (H1 & _ & H3 & _). split.
  - apply H1. vm_compute. reflexivity.
  - apply (H3 (Exception "connection refused")).
    + intros Hb. apply (f_equal length) in Hb. vm_compute in Hb. discriminate Hb.
    + vm_compute. reflexivity.
    + vm_compute. reflexivity.
Defined.

(** Against C4 as stated: [flush] returns without raising and the buffer
    still has its entry. *)
Lemma C4_counterexample :
  let s := one_buffered false in
  (flush backend_down s).1 = Ok tt /\
  length (_buffer (self (flush backend_down s).2)) = 1%nat.
Proof. cbv zeta. split; vm_compute; reflexivity. Qed.

(** C4 at a handler with one buffered entry whose backend is up. *)
Lemma C4_flush_witness :
  let s := one_buffered false in
  (transmit backend_up s).1 = Ok tt /\
  (flush backend_up s).1 = Ok tt /\
  _buffer (self (flush backend_up s).2) = [].
Proof.
  intros s.
  assert (H1 : (transmit backend_up s).1 = Ok tt) by (vm_compute; reflexivity).
  split; [exact H1|].
  pose proof (C4_flush_empties_buffer_unless_transmission_fails backend_up s) as H.
  destruct (flush backend_up s) as [r s'].
  destruct H as (H & _). apply H. right. exact H1.
Defined.

(** C5, at the input where the code fails it.  A new handler has no live
    timer.  It is given a record (timer 0 is started); [close] is called
    while the backend is down: its [flush] cancels timer 0, fails, starts
    timer 1, and [close] then forgets timer 1 without cancelling it; a
    second record starts timer 2.  Timers 1 and 2 are both live, and the
    handler holds only the second. *)
Theorem C5_close_after_failed_flush_leaks_a_timer :
  let s := @run sample_builtins
             [Emit backend_up sample_record; Close backend_down;
              Emit backend_up sample_record]
             (sample_handler false) in
  live_timers (world (sample_handler false)) = [] /\
  live_timers (world s) = [1%nat; 2%nat] /\
  _timer (self s) = Some 2%nat /\
  ~ timers_held s.
Proof.
  cbv zeta. split; [|split; [|split]].
  - vm_compute. reflexivity.
  - vm_compute. reflexivity.
  - vm_compute. reflexivity.
  - intros Hinv. specialize (Hinv 1%nat).
    assert (Hw : Timer_status
                   (world (@run sample_builtins
                      [Emit backend_up sample_record; Close backend_down;
                       Emit backend_up sample_record] (sample_handler false)))
                   1 = Waiting) by (vm_compute; reflexivity).
    specialize (Hinv Hw).
    assert (Ht : _timer (self (@run sample_builtins
                      [Emit backend_up sample_record; Close backend_down;
                       Emit backend_up sample_record] (sample_handler false)))
                 = Some 2%nat) by (vm_compute; reflexivity).
    rewrite Ht in Hinv. discriminate Hinv.
Qed.

(** Against C6 as stated: the record has an attribute [timestamp] (an
    extra), which is not filtered out, and the entry does not hold it: the
    key holds the creation time. *)
Lemma C6_counterexample :
  let s := sample_handler false in
  record_with_timestamp_extra !! "timestamp" = Some (VInt 123) /\
  bool_decide ("timestamp" ∈ __LOGGING_FILTER_FIELDS) = false /\
  match @entry_of sample_builtins
          (deref (world s) (es_additional_fields (self s)))
          (default_timestamp_field_name (self s)) record_with_timestamp_extra
  with
  | Ok entry => entry !! "timestamp"
  | Raise _ => None
  end = Some (VStr "2023-11-14T22:13:20.123Z").
Proof. cbv zeta. repeat split; vm_compute; reflexivity. Qed.

(** The stamp of the sample record. *)
Lemma sample_stamp :
  _get_es_datetime_str (VFloat 1700000000123456 1000000)
  = Ok "2023-11-14T22:13:20.123Z".
Proof. vm_compute. reflexivity. Qed.

(** C6 at the sample record. *)
Lemma C6_entry_witness :
  let s := sample_handler false in
  let fields := deref (world s) (es_additional_fields (self s)) in
  exists entry,
    @entry_of sample_builtins fields "timestamp" sample_record = Ok entry /\
    entry !! "timestamp" = Some (VStr "2023-11-14T22:13:20.123Z") /\
    entry !! "exc_info" = Some (VStr "") /\
    entry !! "args" = Some (VTuple [VStr "full"]) /\
    entry !! "levelno" = fields !! "levelno" /\
    entry !! "App" = fields !! "App".
Proof.
  intros s fields.
  assert (Hok : is_Ok (@entry_of sample_builtins fields "timestamp" sample_record)
                = true) by (vm_compute; reflexivity).
  destruct (@entry_of sample_builtins fields "timestamp" sample_record)
    as [entry|e] eqn:E; [clear Hok|discriminate Hok].
  exists entry. split; [reflexivity|].
  pose proof (@C6_entry_holds_fields_and_attributes sample_builtins
                fields "timestamp" sample_record entry E) as (Hts & H).
  split.
  { destruct Hts as (timestamp & stamp & Hc & Hs & He).
    assert (H1 : sample_record !! "created"
                 = Some (VFloat 1700000000123456 1000000))
      by (vm_compute; reflexivity).
    rewrite H1 in Hc. apply Some_inj in Hc. subst timestamp.
    rewrite sample_stamp in Hs. apply Ok_inj in Hs. subst stamp. exact He. }
  repeat split.
  - apply (H "exc_info" ltac:(discriminate)) with (v := VNone).
    + vm_compute. reflexivity.
    + apply (bool_decide_eq_false_1 ("exc_info" ∈ __LOGGING_FILTER_FIELDS)).
      vm_compute. reflexivity.
    + discriminate.
  - destruct (H "args" ltac:(discriminate)) as (_ & _ & _ & Ha).
    destruct (Ha (VTuple [VStr "full"]) ltac:(vm_compute; reflexivity) eq_refl)
      as (items & Hit & ->).
    injection Hit as <-. reflexivity.
  - destruct (H "levelno" ltac:(discriminate)) as (_ & Hf & _).
    apply Hf.
    apply (bool_decide_eq_true_1 ("levelno" ∈ __LOGGING_FILTER_FIELDS)).
    vm_compute. reflexivity.
  - destruct (H "App" ltac:(discriminate)) as (Hn & _).
    apply Hn. vm_compute. reflexivity.
Defined.

(** What the amended C6 leaves out: a record whose [args] is [None] has no
    entry, [emit] raises [TypeError] before anything is stored. *)
Lemma emit_raises_on_args_None :
  (@emit sample_builtins backend_up record_args_None (sample_handler false)).1
  = Raise (TypeError "'NoneType' object is not iterable").
Proof. vm_compute. reflexivity. Qed.

(** Against C7 as stated: a record created in the first second of the
    year 10000 has no entry, so no timestamp field: [emit] raises, and the
    buffer stays empty. *)
Lemma C7_counterexample :
  let s := sample_handler false in
  let fields := deref (world s) (es_additional_fields (self s)) in
  record_of_year_10000 !! "created" = Some (VInt 253402300800) /\
  @entry_of sample_builtins fields "timestamp" record_of_year_10000
  = Raise (ValueError "year is out of range") /\
  (@emit sample_builtins backend_up record_of_year_10000 s).1
  = Raise (ValueError "year is out of range") /\
  _buffer (self (@emit sample_builtins backend_up record_of_year_10000 s).2)
  = [].
Proof. cbv zeta. conjuncts; vm_compute; reflexivity. Qed.

(** C7 at the sample record, created 1700000000.123456 s after the
    epoch. *)
Lemma C7_timestamp_witness :
  let s := sample_handler false in
  let fields := deref (world s) (es_additional_fields (self s)) in
  exists entry,
    @entry_of sample_builtins fields "timestamp" sample_record = Ok entry /\
    entry !! "timestamp" = Some (VStr "2023-11-14T22:13:20.123Z").
Proof.
  intros s fields.
  destruct (@C7_timestamp_field_is_iso_utc_milliseconds sample_builtins
              fields "timestamp" sample_record) as [Hshape Htotal].
  assert (H1 : sample_record !! "created"
               = Some (VFloat 1700000000123456 1000000))
    by (vm_compute; reflexivity).
  assert (Hpin : forall us,
            microseconds_of (VFloat 1700000000123456 1000000) us ->
            us = 1700000000123456).
  { intros us Hus. unfold microseconds_of, US_PER_SECOND in Hus. lia. }
  destruct (Htotal _ H1) as (entry & He).
  - exists 1700000000123456. unfold microseconds_of, US_PER_SECOND. lia.
  - intros us Hus. rewrite (Hpin us Hus). unfold US_PER_SECOND. lia.
  - intros a Ha.
    assert (Hargs : sample_record !! "args" = Some (VTuple [VStr "full"]))
      by (vm_compute; reflexivity).
    rewrite Hargs in Ha. apply Some_inj in Ha. subst a. reflexivity.
  - exists entry. split; [exact He|].
    destruct (Hshape entry He)
      as (v & us & dt & Hc & Hus & Hdt & _ & _ & _ & Hfmt).
    rewrite H1 in Hc. apply Some_inj in Hc. subst v.
    apply Hpin in Hus. subst us.
    assert (Hdt' : utcfromtimestamp 1700000000123456
                   = Ok (mk_datetime 2023 11 14 22 13 20 123456))
      by (vm_compute; reflexivity).
    rewrite Hdt' in Hdt. apply Ok_inj in Hdt. subst dt.
    destruct (Hfmt ltac:(cbn; lia)) as (stamp & Hts & -> & _).
    rewrite Hts. do 2 f_equal.
Defined.

(** Against C9 as stated: in fail-fast mode, with one buffered entry and
    the backend down, the first [close] raises. *)
Lemma C9_counterexample :
  let s := one_buffered true in
  _timer (self s) = Some 0%nat /\
  raise_on_indexing_exceptions (self s) = true /\
  (close backend_down s).1 = Raise (Exception "connection refused").
Proof. cbv zeta. repeat split; vm_compute; reflexivity. Qed.

Lemma timers_held_one_buffered (fail_fast : bool) :
  timers_held (one_buffered fail_fast).
Proof.
  intros t Ht. destruct t as [|t].
  - destruct fail_fast; vm_compute; reflexivity.
  - exfalso. destruct fail_fast; vm_compute in Ht; discriminate Ht.
Qed.

Lemma held_waiting_one_buffered (fail_fast : bool) :
  held_waiting (one_buffered fail_fast).
Proof.
  intros t Ht.
  assert (H0 : _timer (self (one_buffered fail_fast)) = Some 0%nat)
    by (destruct fail_fast; vm_compute; reflexivity).
  rewrite H0 in Ht. apply Some_inj in Ht. subst t.
  destruct fail_fast; vm_compute; reflexivity.
Qed.

(** C9 at a handler with one entry and its timer, the backend being up:
    the first [close] cancels the timer and hands the entry over, the
    second does nothing. *)
Lemma C9_close_witness :
  let s := one_buffered false in
  let s1 := (close backend_up s).2 in
  (close backend_up s).1 = Ok tt /\
  (exists acts, bulk_calls (world s1) = [acts]) /\
  Timer_status (world s1) 0 = Cancelled /\
  (close backend_up s1).1 = Ok tt /\
  bulk_calls (world (close backend_up s1).2) = bulk_calls (world s1).
Proof.
  intros s s1.
  pose proof (C9_close_twice_raises_only_in_fail_fast_mode
                backend_up backend_up s) as H.
  unfold s1. destruct (close backend_up s) as [r1 s'].
  cbn [fst snd] in *.
  destruct (close backend_up s') as [r2 s2]. cbn [fst snd].
  destruct H as (-> & H1 & _ & H2 & _ & H3).
  destruct (H3 (timers_held_one_buffered false)
              (held_waiting_one_buffered false)) as [_ Harmed].
  assert (Hlive : live_timers (world s) = [0%nat]) by (vm_compute; reflexivity).
  destruct Harmed as (_ & _ & Hbuf & Hcancel & Hbulk);
    [rewrite Hlive; discriminate|].
  split; [apply H1; vm_compute; reflexivity|].
  destruct Hbulk as (acts & Hbc & _).
  { intros Hb. apply (f_equal length) in Hb. vm_compute in Hb. discriminate Hb. }
  { reflexivity. }
  { repeat split; vm_compute; (reflexivity || discriminate). }
  split.
  { exists acts. rewrite Hbc.
    assert (H0 : bulk_calls (world s) = []) by (vm_compute; reflexivity).
    now rewrite H0. }
  split; [apply Hcancel; rewrite Hlive; left|].
  split; [reflexivity|].
  apply H2. rewrite Hbuf. vm_compute. reflexivity.
Defined.

(** What the amended C9 leaves out: after the failed flush of a [close]
    (see C5) a timer is armed that the handler does not hold; the next
    [close] does not flush, and the entry stays in the buffer. *)
Lemma close_after_a_leak_does_not_flush :
  let s := @run sample_builtins
             [Emit backend_up sample_record; Close backend_down]
             (sample_handler false) in
  live_timers (world s) = [1%nat] /\
  _timer (self s) = None /\
  length (_buffer (self s)) = 1%nat /\
  (close backend_up s).1 = Ok tt /\
  length (_buffer (self (close backend_up s).2)) = 1%nat /\
  length (bulk_calls (world (close backend_up s).2))
  = length (bulk_calls (world s)).
Proof. cbv zeta. conjuncts; vm_compute; reflexivity. Qed.

(** C10 at the sample handler: the caller's dictionary, at reference 1,
    is as it was, and is not the handler's. *)
Lemma C10_construction_witness :
  exists h w',
    __init__ (sample_args false) sample_world = (Ok h, w') /\
    heap w' !! 1%positive = Some caller_fields /\
    es_additional_fields h <> 1%positive.
Proof.
  assert (Hok : is_Ok (__init__ (sample_args false) sample_world).1 = true)
    by (vm_compute; reflexivity).
  destruct (__init__ (sample_args false) sample_world) as [[h|e] w'] eqn:E;
    [clear Hok|discriminate Hok].
  exists h, w'. split; [reflexivity|].
  destruct (@C10_construction_copies_the_fields_and_adds_the_host
              sample_builtins (sample_args false) sample_world w' h E)
    as (_ & _ & H & _).
  destruct (H 1%positive caller_fields eq_refl ltac:(vm_compute; reflexivity))
    as (Hne & Hd & _).
  split; [exact Hd|exact Hne].
Defined.

(* ====================================================================== *)
(** * Further properties *)
(* ====================================================================== *)

Import Records ESFilter Accounts MoreSamples.

(** ** The filter on records of the Elasticsearch client *)

(** A repetition matches a run of characters of the atom, then the rest. *)
Lemma many_spec ic a k (s : list N) :
  many ic a k s = true <->
  exists pre post,
    s = pre ++ post /\
    Forall (fun c => atom_matches ic a c = true) pre /\
    k post = true.
Proof.
  induction s as [|c s IH]; cbn [many].
  - split.
    + intros Hk. exists [], []. repeat split; [constructor|exact Hk].
    + intros (pre & post & Heq & _ & Hk).
      symmetry in Heq. apply app_eq_nil in Heq as [_ ->]. exact Hk.
  - rewrite orb_true_iff, andb_true_iff, IH. split.
    + intros [(Hc & pre & post & -> & Hall & Hk)|Hk].
      * exists (c :: pre), post. repeat split; [|exact Hk].
        constructor; assumption.
      * exists [], (c :: s). repeat split; [constructor|exact Hk].
    + intros (pre & post & Heq & Hall & Hk). destruct pre as [|c' pre].
      * cbn in Heq. subst post. now right.
      * cbn in Heq. injection Heq as <- ->. left.
        apply Forall_cons in Hall as [Hc Hall]. split; [exact Hc|].
        exists pre, post. auto.
Qed.

Lemma dot_run (s : list N) :
  Forall (fun c => atom_matches true Dot c = true) s <-> newline ∉ s.
Proof.
  induction s as [|c s IH].
  - split; [intros _ Hin; inversion Hin|constructor].
  - rewrite Forall_cons, not_elem_of_cons, IH. cbn [atom_matches].
    rewrite negb_true_iff, N.eqb_neq. split; intros [? ?]; split; congruence.
Qed.

(** A run of literals matches the same letters, whatever their case. *)
Lemma lits_spec (cs : list N) (p : list Item) (s : list N) :
  match_here true (((fun c => One (Lit c)) <$> cs) ++ p) s = true <->
  exists e post,
    s = e ++ post /\ ESFilter.fold <$> e = ESFilter.fold <$> cs /\
    match_here true p post = true.
Proof.
  revert s. induction cs as [|c cs IH]; intros s.
  - cbn [fmap list_fmap app]. split.
    + intros Hm. exists [], s. repeat split. exact Hm.
    + intros (e & post & -> & He & Hm). destruct e; [|discriminate].
      exact Hm.
  - cbn [fmap list_fmap app match_here]. destruct s as [|c' s].
    + split; [discriminate|].
      intros (e & post & Heq & He & _). destruct e; discriminate.
    + rewrite andb_true_iff. fold (list_fmap _ _ (fun c => One (Lit c)) cs).
      rewrite (IH s). cbn [atom_matches]. unfold same_char.
      rewrite N.eqb_eq. split.
      * intros (Hc & e & post & -> & He & Hm).
        exists (c' :: e), post. cbn. rewrite Hc.
        split; [reflexivity|]. split; [|exact Hm]. f_equal. exact He.
      * intros (e & post & Heq & He & Hm). destruct e as [|c'' e]; [discriminate|].
        cbn in Heq, He. injection Heq as <- ->. injection He as Hc He.
        split; [exact Hc|]. exists e, post. auto.
Qed.

(** Only a slash folds to a slash, and only a backslash to a backslash. *)
Lemma class_sep (c : N) :
  atom_matches true (OneOf (codes "\/")) c = true <-> c ∈ codes "\/".
Proof.
  change (codes "\/") with [92%N; 47%N].
  cbn [atom_matches existsb]. unfold same_char.
  change (ESFilter.fold 92) with 92%N. change (ESFilter.fold 47) with 47%N.
  rewrite orb_false_r, orb_true_iff, !N.eqb_eq, !elem_of_cons, elem_of_nil.
  assert (Hfold : forall p : N,
            (p = 92 \/ p = 47)%N -> ESFilter.fold c = p <-> c = p).
  { intros p Hp. unfold ESFilter.fold, lower.
    destruct (N.leb_spec 65 c), (N.leb_spec c 90),
      (N.eqb_spec c 304), (N.eqb_spec c 8490); cbn [andb];
      repeat match goal with
             | |- context [N.eqb ?a ?b] => destruct (N.eqb_spec a b)
             end; lia. }
  rewrite (Hfold 92%N), (Hfold 47%N) by auto. tauto.
Qed.

Lemma at_end_spec (s : list N) :
  at_end s = true <-> s = [] \/ s = [newline].
Proof.
  destruct s as [|c [|c' s]]; cbn.
  - split; auto.
  - rewrite N.eqb_eq. split; [intros ->; auto|].
    intros [|[= ->]]; [discriminate|reflexivity].
  - split; [discriminate|]. intros [|]; discriminate.
Qed.

(** What the pattern of the filter matches. *)
Lemma filter_re_spec (s : list N) :
  match_here true (items BASE_ES_MODULE_FILTER_RE) s = true <->
  exists dir e s1 c s2 b x py rest tail,
    s = dir ++ e ++ (s1 :: c ++ (s2 :: b ++ (x :: py ++ rest ++ tail))) /\
    dir <> [] /\ (newline ∉ dir) /\
    ESFilter.fold <$> e = codes "elasticsearch" /\
    s1 ∈ codes "\/" /\
    ESFilter.fold <$> c = codes "connection" /\
    s2 ∈ codes "\/" /\
    ESFilter.fold <$> b = codes "base" /\
    x <> newline /\
    ESFilter.fold <$> py = codes "py" /\
    (newline ∉ rest) /\
    (tail = [] \/ tail = [newline]).
Proof.
  unfold BASE_ES_MODULE_FILTER_RE, lits. cbn [items].
  change (codes "elasticsearch")
    with (ESFilter.fold <$> codes "elasticsearch") at 2.
  change (codes "connection") with (ESFilter.fold <$> codes "connection") at 2.
  change (codes "base") with (ESFilter.fold <$> codes "base") at 2.
  change (codes "py") with (ESFilter.fold <$> codes "py") at 2.
  set (p1 := ((fun c => One (Lit c)) <$> codes "elasticsearch") ++ _).
  cbn [app match_here].
  split.
  - destruct s as [|c0 s]; [discriminate|].
    rewrite andb_true_iff. intros [Hc0 Hm].
    apply many_spec in Hm as (pre & post & -> & Hpre & Hm).
    unfold p1 in Hm.
    apply lits_spec in Hm as (e & post1 & -> & He & Hm).
    cbn [app match_here] in Hm.
    destruct post1 as [|s1 post1]; [discriminate|].
    apply andb_true_iff in Hm as [Hs1 Hm]. apply class_sep in Hs1.
    apply lits_spec in Hm as (c & post2 & -> & Hc & Hm).
    cbn [app match_here] in Hm.
    destruct post2 as [|s2 post2]; [discriminate|].
    apply andb_true_iff in Hm as [Hs2 Hm]. apply class_sep in Hs2.
    apply lits_spec in Hm as (b & post3 & -> & Hb & Hm).
    cbn [app match_here] in Hm.
    destruct post3 as [|x post3]; [discriminate|].
    apply andb_true_iff in Hm as [Hx Hm].
    apply lits_spec in Hm as (py & post4 & -> & Hpy & Hm).
    cbn [match_here] in Hm.
    apply many_spec in Hm as (rest & tail & -> & Hrest & Hm).
    rewrite andb_true_r in Hm. apply at_end_spec in Hm.
    exists (c0 :: pre), e, s1, c, s2, b, x, py, rest, tail.
    repeat split; try assumption.
    + discriminate.
    + apply dot_run. constructor; assumption.
    + cbn in Hx. intros ->. discriminate.
    + now apply dot_run.
  - intros (dir & e & s1 & c & s2 & b & x & py & rest & tail & -> & Hdir & Hnl
            & He & Hs1 & Hc & Hs2 & Hb & Hx & Hpy & Hrest & Htail).
    destruct dir as [|c0 dir]; [contradiction|].
    apply dot_run in Hnl. apply Forall_cons in Hnl as [Hc0 Hnl].
    cbn [app]. rewrite andb_true_iff. split; [exact Hc0|].
    apply many_spec. eexists dir, _.
    split; [reflexivity|]. split; [exact Hnl|].
    unfold p1. apply lits_spec. eexists e, _. split; [reflexivity|].
    split; [exact He|]. cbn [app match_here].
    rewrite andb_true_iff. split; [now apply class_sep|].
    apply lits_spec. eexists c, _. split; [reflexivity|].
    split; [exact Hc|]. cbn [app match_here].
    rewrite andb_true_iff. split; [now apply class_sep|].
    apply lits_spec. eexists b, _. split; [reflexivity|].
    split; [exact Hb|]. cbn [app match_here].
    rewrite andb_true_iff. split.
    { cbn. now apply negb_true_iff, N.eqb_neq. }
    apply lits_spec. eexists py, _. split; [reflexivity|].
    split; [exact Hpy|]. cbn [match_here].
    apply many_spec. exists rest, tail. split; [reflexivity|].
    split; [now apply dot_run|].
    rewrite andb_true_r. now apply at_end_spec.
Qed.

(** The filter on a few paths: the module of the client under either
    separator and in any case; a path with nothing before the package; a
    file beside the module; the unescaped dot of the pattern, which any one
    character matches, also one outside the basic plane; the long s, which
    [re.I] takes for an [s], and the two other letters i; a newline at the
    end, and one elsewhere. *)
Lemma es_filter_examples :
  let at_path p := es_filter (<["pathname" := VStr p]> ∅) in
  at_path "/usr/lib/python3/site-packages/elasticsearch/connection/base.py"
  = Ok false /\
  at_path "C:\Python\Lib\site-packages\Elasticsearch\Connection\BASE.PY"
  = Ok false /\
  at_path "elasticsearch/connection/base.py" = Ok true /\
  at_path "/usr/lib/python3/site-packages/elasticsearch/connection/http_urllib3.py"
  = Ok true /\
  at_path "/srv/elasticsearch/connection/base_py.txt" = Ok false /\
  at_path "/x/elasticsearch/connection/base€py" = Ok false /\
  at_path "/x/elasticsearch/connection/base😀py" = Ok false /\
  at_path "/x/elaſticsearch/connection/base.py" = Ok false /\
  at_path "/x/elastİcsearch/connectıon/base.py" = Ok false /\
  at_path "/x/elàsticsearch/connection/base.py" = Ok true /\
  at_path ("/x/elasticsearch/connection/base.py" +:+ String (ascii_of_nat 10) "")
  = Ok false /\
  at_path ("/x" +:+ String (ascii_of_nat 10) "/elasticsearch/connection/base.py")
  = Ok true.
Proof. cbv zeta. repeat split; vm_compute; reflexivity. Qed.

Section filter_facts.
Context `{Builtins}.

(** X1.  [es_filter] rejects a record exactly when its [pathname] is, as
    a sequence of code points: at least one character, then
    [elasticsearch], a slash or a backslash, [connection], a slash or a
    backslash, [base], any character, [py], then anything; no newline
    anywhere but, possibly, at the very end.  The letters are taken in
    either case, and with them what [re.I] takes for an [i] or an [s]:
    U+0130, U+0131 and U+017F.  Every other string is let through; a record
    without [pathname] raises [AttributeError], and a [pathname] that is
    not a string raises [TypeError].  A record that the filter rejects is
    not emitted by [handle]: the handler stays as it was. *)
Theorem X1_es_filter_rejects_the_client_module (record : LogRecord) :
  (es_filter record = Ok false <->
   exists p dir e s1 c s2 b x py rest tail,
     record !! "pathname" = Some (VStr p) /\
     code_points p = dir ++ e ++ (s1 :: c ++ (s2 :: b ++ (x :: py ++ rest ++ tail))) /\
     dir <> [] /\ (newline ∉ dir) /\
     ESFilter.fold <$> e = codes "elasticsearch" /\
     s1 ∈ codes "\/" /\
     ESFilter.fold <$> c = codes "connection" /\
     s2 ∈ codes "\/" /\
     ESFilter.fold <$> b = codes "base" /\
     x <> newline /\
     ESFilter.fold <$> py = codes "py" /\
     (newline ∉ rest) /\
     (tail = [] \/ tail = [newline])) /\
  (forall c : N,
     ESFilter.fold c = 105%N <-> c ∈ [73; 105; 304; 305]%N) /\
  (forall c : N, ESFilter.fold c = 115%N <-> c ∈ [83; 115; 383]%N) /\
  (forall c l : N,
     l ∈ codes "elatcrhonbpy" ->
     ESFilter.fold c = l <-> c = l \/ c = (l - 32)%N) /\
  (forall p, record !! "pathname" = Some (VStr p) ->
     exists rv, es_filter record = Ok rv) /\
  (record !! "pathname" = None ->
   exists m, es_filter record = Raise (AttributeError m)) /\
  (forall v, record !! "pathname" = Some v -> (forall p, v <> VStr p) ->
     exists m, es_filter record = Raise (TypeError m)) /\
  (forall backend s,
     es_filter record = Ok false -> handle backend record s = (Ok false, s)).
Proof.
  split; [|split; [|split; [|split; [|split; [|split; [|split]]]]]].
  - unfold es_filter, attribute.
    destruct (record !! "pathname") as [v|] eqn:Ep;
      [rewrite Result_bind_Ok|cbn].
    + destruct v as [|bb|n|num den|p|its|its|its]; cbv beta iota;
        try (split; [discriminate|];
             intros (p & dir & e & s1 & c & s2 & b & x & py & rest & tail
                     & Hp & _);
             discriminate Hp).
      unfold re_match. change (ignorecase BASE_ES_MODULE_FILTER_RE) with true.
      split.
      * intros Hf.
        assert (Hm : match_here true (items BASE_ES_MODULE_FILTER_RE)
                       (code_points p) = true).
        { destruct (match_here _ _ _); [reflexivity|discriminate Hf]. }
        apply filter_re_spec in Hm
          as (dir & e & s1 & c & s2 & b & x & py & rest & tail & Hcp & Hrest).
        exists p, dir, e, s1, c, s2, b, x, py, rest, tail.
        split; [reflexivity|]. split; [exact Hcp|exact Hrest].
      * intros (p' & dir & e & s1 & c & s2 & b & x & py & rest & tail
                & Hp & Hcp & Hrest).
        apply Some_inj in Hp. injection Hp as <-.
        assert (Hm : match_here true (items BASE_ES_MODULE_FILTER_RE)
                       (code_points p) = true).
        { apply filter_re_spec.
          exists dir, e, s1, c, s2, b, x, py, rest, tail.
          split; [exact Hcp|exact Hrest]. }
        now rewrite Hm.
    + split; [discriminate|].
      intros (p & dir & e & s1 & c & s2 & b & x & py & rest & tail & Hp & _).
      discriminate Hp.
  - intros c. rewrite !elem_of_cons, elem_of_nil.
    unfold ESFilter.fold, lower.
    destruct (N.leb_spec 65 c), (N.leb_spec c 90),
      (N.eqb_spec c 304), (N.eqb_spec c 8490); cbn [andb];
      repeat match goal with
             | |- context [N.eqb ?a ?b] => destruct (N.eqb_spec a b)
             end; lia.
  - intros c. rewrite !elem_of_cons, elem_of_nil.
    unfold ESFilter.fold, lower.
    destruct (N.leb_spec 65 c), (N.leb_spec c 90),
      (N.eqb_spec c 304), (N.eqb_spec c 8490); cbn [andb];
      repeat match goal with
             | |- context [N.eqb ?a ?b] => destruct (N.eqb_spec a b)
             end; lia.
  - intros c l Hl.
    change (codes "elatcrhonbpy")
      with [101; 108; 97; 116; 99; 114; 104; 111; 110; 98; 112; 121]%N in Hl.
    rewrite !elem_of_cons, elem_of_nil in Hl.
    unfold ESFilter.fold, lower.
    destruct (N.leb_spec 65 c), (N.leb_spec c 90),
      (N.eqb_spec c 304), (N.eqb_spec c 8490); cbn [andb];
      repeat match goal with
             | |- context [N.eqb ?a ?b] => destruct (N.eqb_spec a b)
             end; lia.
  - intros p Hp. unfold es_filter, attribute. rewrite Hp, Result_bind_Ok. eauto.
  - intros Hp. unfold es_filter, attribute. rewrite Hp. cbn. eauto.
  - intros v Hp Hv. unfold es_filter, attribute. rewrite Hp, Result_bind_Ok.
    destruct v; eauto. exfalso. eapply Hv. reflexivity.
  - intros backend s Hf. unfold handle, mbind, M_bind, lift_result, mret, M_ret.
    rewrite Hf. reflexivity.
Qed.

End filter_facts.

(** X1 at a record made in the connection module of the client, and at
    one whose path has a long s. *)
Lemma X1_es_filter_witness :
  es_filter client_module_record = Ok false /\
  es_filter (<["pathname" := VStr "/x/elaſticsearch/connection/base.py"]> ∅)
  = Ok false.
Proof.
  split.
  - apply (proj1 (@X1_es_filter_rejects_the_client_module sample_builtins
                    client_module_record)).
    exists "/usr/lib/python3/site-packages/elasticsearch/connection/base.py",
      (codes "/usr/lib/python3/site-packages/"), (codes "elasticsearch"),
      47%N, (codes "connection"), 47%N, (codes "base"), 46%N, (codes "py"),
      [], [].
    split; [vm_compute; reflexivity|]. split; [vm_compute; reflexivity|].
    split; [discriminate|].
    split; [apply (bool_decide_eq_true_1 _); vm_compute; reflexivity|].
    split; [reflexivity|].
    split; [apply (bool_decide_eq_true_1 _); vm_compute; reflexivity|].
    split; [reflexivity|].
    split; [apply (bool_decide_eq_true_1 _); vm_compute; reflexivity|].
    split; [reflexivity|]. split; [discriminate|]. split; [reflexivity|].
    split; [apply not_elem_of_nil|]. now left.
  - apply (proj1 (@X1_es_filter_rejects_the_client_module sample_builtins
                    (<["pathname" := VStr "/x/elaſticsearch/connection/base.py"]> ∅))).
    exists "/x/elaſticsearch/connection/base.py",
      (codes "/x/"), ([101; 108; 97; 383; 116; 105; 99; 115; 101; 97; 114; 99; 104]%N),
      47%N, (codes "connection"), 47%N, (codes "base"), 46%N, (codes "py"),
      [], [].
    split; [vm_compute; reflexivity|]. split; [vm_compute; reflexivity|].
    split; [discriminate|].
    split; [apply (bool_decide_eq_true_1 _); vm_compute; reflexivity|].
    split; [reflexivity|].
    split; [apply (bool_decide_eq_true_1 _); vm_compute; reflexivity|].
    split; [reflexivity|].
    split; [apply (bool_decide_eq_true_1 _); vm_compute; reflexivity|].
    split; [reflexivity|]. split; [discriminate|]. split; [reflexivity|].
    split; [apply not_elem_of_nil|]. now left.
Defined.


(** ** The Elasticsearch client *)

Lemma keywords_clash explicit kwargs k :
  k ∈ explicit.*1 -> is_Some (kwargs !! k) ->
  exists m, Client.keywords explicit kwargs = Client.Failed (Client.Raised (TypeError m)).
Proof.
  intros Hin Hk. unfold Client.keywords.
  destruct (List.find _ explicit) as [kv|] eqn:E; [eauto|].
  exfalso. apply list_elem_of_fmap in Hin as ([k' a] & -> & Hin).
  apply list_elem_of_In in Hin.
  pose proof (List.find_none _ _ E _ Hin) as Hf. cbn in Hf.
  apply bool_decide_eq_false in Hf. contradiction.
Qed.

Lemma keywords_distinct explicit kwargs :
  (forall k, k ∈ explicit.*1 -> kwargs !! k = None) ->
  Client.keywords explicit kwargs
  = Client.Done (list_to_map explicit ∪ (Client.Given <$> kwargs)).
Proof.
  intros Hno. unfold Client.keywords.
  destruct (List.find _ explicit) as [kv|] eqn:E; [|reflexivity].
  exfalso. apply List.find_some in E as [Hin Hk].
  apply bool_decide_eq_true in Hk.
  rewrite Hno in Hk; [destruct Hk; discriminate|].
  apply list_elem_of_fmap. exists kv. split; [reflexivity|].
  now apply list_elem_of_In.
Qed.

Lemma C_bind_apply {A B} (m : Client.C A) (f : A -> Client.C B) st :
  (m ≫= f) st
  = match m st with
    | (Client.Done a, st') => f a st'
    | (Client.Failed e, st') => (Client.Failed e, st')
    end.
Proof. reflexivity. Qed.

(** With a client at hand, [_get_es_client] returns it and does nothing. *)
Lemma get_es_client_held lib self st client :
  Client._client st = Some client ->
  Client._get_es_client lib self st = (Client.Done client, st).
Proof. unfold Client._get_es_client. intros ->. reflexivity. Qed.

(** Without one, it makes one, and keeps it only if that succeeds. *)
Lemma get_es_client_new lib self st :
  Client._client st = None ->
  (exists e, Client._get_es_client lib self st = (Client.Failed e, st)) \/
  (exists kw,
     Client._get_es_client lib self st
     = (Client.Done (length (Client.clients st)),
        Client.mk_State (Some (length (Client.clients st)))
          (Client.clients st ++ [kw]) (Client.requests st))).
Proof.
  intros Hc. unfold Client._get_es_client. rewrite Hc.
  rewrite C_bind_apply.
  assert (HE : forall explicit,
    (exists e, Client.Elasticsearch lib explicit (Client.kwargs self) st
               = (Client.Failed e, st)) \/
    (exists kw, Client.Elasticsearch lib explicit (Client.kwargs self) st
                = (Client.Done (length (Client.clients st)),
                   Client.mk_State (Client._client st) (Client.clients st ++ [kw])
                     (Client.requests st)))).
  { intros explicit. unfold Client.Elasticsearch.
    destruct (Client.keywords _ _) as [kw|e]; [|eauto].
    destruct (Client.Elasticsearch_init lib kw); eauto. }
  assert (Hfin : forall m : Client.C nat,
    ((exists e, m st = (Client.Failed e, st)) \/
     (exists kw, m st = (Client.Done (length (Client.clients st)),
                   Client.mk_State (Client._client st) (Client.clients st ++ [kw])
                     (Client.requests st)))) ->
    (exists e, match m st with
               | (Client.Done a, st') =>
                   (Client.set__client a;; mret a) st'
               | (Client.Failed e, st') => (Client.Failed e, st')
               end = (Client.Failed e, st)) \/
    (exists kw, match m st with
               | (Client.Done a, st') =>
                   (Client.set__client a;; mret a) st'
               | (Client.Failed e, st') => (Client.Failed e, st')
               end
     = (Client.Done (length (Client.clients st)),
        Client.mk_State (Some (length (Client.clients st)))
          (Client.clients st ++ [kw]) (Client.requests st)))).
  { intros m [(e & ->)|(kw & ->)]; [eauto|]. right. exists kw. reflexivity. }
  destruct (Client.auth_type self) as [[]|v].
  - apply Hfin, HE.
  - apply Hfin, HE.
  - destruct (negb _); [left; eauto|]. apply Hfin, HE.
  - destruct (negb _); [left; eauto|].
    destruct (Client.AWS4Auth_init _ _ _ _ _); [left; eauto|]. apply Hfin, HE.
  - left. eauto.
Qed.

(** X2.  Once [_get_es_client] has returned a client, every later call
    returns that client and makes no other, whatever the authentication
    type (Kerberos as well) and whatever the libraries would answer;
    [test_es_source] and [create_index_with_mapping] then send their
    request on that client. *)
Theorem X2_client_is_made_once
    (lib lib' : Client.Library) (self : Client.Settings)
    (st st1 : Client.State) (client : nat) (mapping : Value) :
  Client._get_es_client lib self st = (Client.Done client, st1) ->
  Client._client st1 = Some client /\
  (length (Client.clients st1) <= S (length (Client.clients st)))%nat /\
  Client._get_es_client lib' self st1 = (Client.Done client, st1) /\
  (let st2 := (Client.test_es_source lib' self st1).2 in
   Client._client st2 = Some client /\
   Client.clients st2 = Client.clients st1 /\
   Client.requests st2 = Client.requests st1 ++ [Client.Ping client]) /\
  (let st2 := (Client.create_index_with_mapping lib' self mapping st1).2 in
   Client._client st2 = Some client /\
   Client.clients st2 = Client.clients st1 /\
   Client.requests st2
   = Client.requests st1
     ++ [Client.IndicesCreate client (Client.index_name self) mapping 400]).
Proof.
  intros Hget.
  assert (Hheld : Client._client st1 = Some client /\
                  (length (Client.clients st1) <= S (length (Client.clients st)))%nat).
  { destruct (Client._client st) as [c|] eqn:Ec.
    - rewrite (get_es_client_held _ _ _ c Ec) in Hget.
      injection Hget as <- <-. split; [exact Ec|lia].
    - destruct (get_es_client_new lib self st Ec) as [(e & He)|(kw & Hkw)].
      + rewrite He in Hget. discriminate.
      + rewrite Hkw in Hget. injection Hget as <- <-. cbn.
        split; [reflexivity|]. rewrite length_app. cbn. lia. }
  destruct Hheld as [Hc Hlen].
  pose proof (get_es_client_held lib' self st1 client Hc) as Hagain.
  split; [exact Hc|]. split; [exact Hlen|]. split; [exact Hagain|].
  unfold Client.test_es_source, Client.create_index_with_mapping.
  rewrite !C_bind_apply, Hagain. unfold Client.request. cbn.
  auto.
Qed.

(** X2 at a handler without authentication: the second call returns the
    client that the first has made. *)
Lemma X2_client_witness :
  let self := sample_settings (Client.Member Client.NO_AUTH) sample_kwargs in
  let st1 := (Client._get_es_client sample_library self no_client).2 in
  Client._get_es_client sample_library self no_client
  = (Client.Done 0%nat, st1) /\
  Client._get_es_client sample_library self st1 = (Client.Done 0%nat, st1).
Proof.
  intros self st1.
  assert (H1 : Client._get_es_client sample_library self no_client
               = (Client.Done 0%nat, st1)) by (vm_compute; reflexivity).
  split; [exact H1|].
  apply (X2_client_is_made_once sample_library sample_library self no_client
           st1 0%nat VNone H1).
Defined.

(** X3.  A handler whose authentication type is not a member of
    [AuthType], or needs a module that could not be imported, never gets a
    client: [_get_es_client], [test_es_source] and
    [create_index_with_mapping] raise ([ValueError], [EnvironmentError])
    and leave everything as it was, so the next call fails in the same
    way. *)
Theorem X3_no_client_without_support
    (lib : Client.Library) (self : Client.Settings) (st : Client.State)
    (mapping : Value) :
  Client._client st = None ->
  match Client.auth_type self with
  | Client.Member a => Client.supported lib a = false
  | Client.NotMember _ => True
  end ->
  exists e,
    Client._get_es_client lib self st = (Client.Failed e, st) /\
    Client.test_es_source lib self st = (Client.Failed e, st) /\
    Client.create_index_with_mapping lib self mapping st = (Client.Failed e, st) /\
    match Client.auth_type self with
    | Client.Member _ => exists msg, e = Client.EnvironmentError msg
    | Client.NotMember _ =>
        e = Client.Raised (ValueError "Authentication method not supported")
    end.
Proof.
  intros Hc Hs.
  assert (Hget : exists e,
    Client._get_es_client lib self st = (Client.Failed e, st) /\
    match Client.auth_type self with
    | Client.Member _ => exists msg, e = Client.EnvironmentError msg
    | Client.NotMember _ =>
        e = Client.Raised (ValueError "Authentication method not supported")
    end).
  { unfold Client._get_es_client. rewrite Hc, C_bind_apply.
    destruct (Client.auth_type self) as [[]|v]; cbn in Hs; try discriminate.
    - rewrite Hs. cbn. eauto.
    - rewrite Hs. cbn. eauto.
    - cbn. eauto. }
  destruct Hget as (e & Hget & He). exists e.
  unfold Client.test_es_source, Client.create_index_with_mapping.
  rewrite !C_bind_apply, Hget. auto.
Qed.

(** X3 at a handler of Kerberos type where [requests_kerberos] could not
    be imported. *)
Lemma X3_no_client_witness :
  exists e,
    Client._get_es_client sample_library
      (sample_settings (Client.Member Client.KERBEROS_AUTH) ∅) no_client
    = (Client.Failed e, no_client).
Proof.
  destruct (X3_no_client_without_support sample_library
              (sample_settings (Client.Member Client.KERBEROS_AUTH) ∅)
              no_client VNone)
    as (e & He & _); [reflexivity|reflexivity|].
  exists e. exact He.
Defined.

(** [_get_es_client] without a client, for an authentication type that can
    be used: it is the call of [Elasticsearch] with the keywords of the
    type. *)
Lemma get_es_client_call lib self st a :
  Client._client st = None ->
  Client.auth_type self = Client.Member a ->
  Client.supported lib a = true ->
  (a = Client.AWS_SIGNED_AUTH ->
   Client.AWS4Auth_init lib (Client.aws_access_key self)
     (Client.aws_secret_key self) (Client.aws_region self) "es" = None) ->
  exists explicit,
    explicit.*1 = Client.spelled_out a /\
    (list_to_map explicit : gmap string Client.Arg) !! "hosts" = Some (Client.Given (Client.hosts self)) /\
    (list_to_map explicit : gmap string Client.Arg) !! "serializer" = Some Client.Serializer /\
    (list_to_map explicit : gmap string Client.Arg) !! "http_auth"
    = match a with
      | Client.NO_AUTH => None
      | Client.BASIC_AUTH => Some (Client.Given (Client.auth_details self))
      | Client.KERBEROS_AUTH => Some Client.HTTPKerberosAuth_DISABLED
      | Client.AWS_SIGNED_AUTH =>
          Some (Client.AWS4Auth (Client.aws_access_key self)
                  (Client.aws_secret_key self) (Client.aws_region self) "es")
      end /\
    (list_to_map explicit : gmap string Client.Arg) !! "verify_certs"
    = match a with
      | Client.AWS_SIGNED_AUTH => Some (Client.Given (VBool true))
      | _ => None
      end /\
    (list_to_map explicit : gmap string Client.Arg) !! "connection_class"
    = match a with
      | Client.KERBEROS_AUTH | Client.AWS_SIGNED_AUTH =>
          Some Client.RequestsHttpConnection
      | _ => None
      end /\
    Client._get_es_client lib self st
    = (client ← Client.Elasticsearch lib explicit (Client.kwargs self);
       Client.set__client client;; mret client) st.
Proof.
  intros Hc Ha Hs Haws. unfold Client._get_es_client. rewrite Hc, Ha.
  destruct a; cbn in Hs; rewrite ?Hs; cbn [negb];
    try rewrite (Haws eq_refl);
    eexists; (split; [|repeat split]); reflexivity.
Qed.

(** X4.  A keyword argument of the handler that the call of
    [Elasticsearch] spells out itself for the authentication type
    ([serializer] always, [http_auth] with every type but [NO_AUTH], ...)
    makes [_get_es_client] raise [TypeError]; no client is made. *)
Theorem X4_keyword_given_twice_is_a_TypeError
    (lib : Client.Library) (self : Client.Settings) (st : Client.State)
    (a : Client.AuthType) (k : string) :
  Client._client st = None ->
  Client.auth_type self = Client.Member a ->
  Client.supported lib a = true ->
  (a = Client.AWS_SIGNED_AUTH ->
   Client.AWS4Auth_init lib (Client.aws_access_key self)
     (Client.aws_secret_key self) (Client.aws_region self) "es" = None) ->
  k ∈ Client.spelled_out a ->
  is_Some (Client.kwargs self !! k) ->
  exists msg,
    Client._get_es_client lib self st
    = (Client.Failed (Client.Raised (TypeError msg)), st).
Proof.
  intros Hc Ha Hs Haws Hk Hin.
  destruct (get_es_client_call lib self st a Hc Ha Hs Haws)
    as (explicit & Hkeys & _ & _ & _ & _ & _ & ->).
  rewrite <- Hkeys in Hk.
  destruct (keywords_clash explicit (Client.kwargs self) k Hk Hin) as (msg & Hm).
  exists msg. rewrite C_bind_apply. unfold Client.Elasticsearch. rewrite Hm.
  reflexivity.
Qed.

(** X4 at [ESHandler(auth_type=BASIC_AUTH, http_auth=...)]. *)
Lemma X4_keyword_witness :
  let self := sample_settings (Client.Member Client.BASIC_AUTH)
                (<["http_auth" := VStr "user:secret"]> ∅) in
  exists msg,
    Client._get_es_client sample_library self no_client
    = (Client.Failed (Client.Raised (TypeError msg)), no_client).
Proof.
  intros self.
  apply (X4_keyword_given_twice_is_a_TypeError sample_library self no_client
           Client.BASIC_AUTH "http_auth").
  - reflexivity.
  - reflexivity.
  - reflexivity.
  - discriminate.
  - vm_compute. right. left.
  - exists (VStr "user:secret"). vm_compute. reflexivity.
Defined.

(** X5.  When no keyword is given twice and the constructor does not
    raise, [_get_es_client] makes one client and keeps it.  The client gets
    every keyword argument of the handler as it was given, the hosts and
    the serializer; [http_auth] is the handler's [auth_details] with
    [BASIC_AUTH] only, and [NO_AUTH] passes no credentials of its own. *)
Theorem X5_client_gets_the_keyword_arguments
    (lib : Client.Library) (self : Client.Settings) (st : Client.State)
    (a : Client.AuthType) :
  Client._client st = None ->
  Client.auth_type self = Client.Member a ->
  Client.supported lib a = true ->
  (a = Client.AWS_SIGNED_AUTH ->
   Client.AWS4Auth_init lib (Client.aws_access_key self)
     (Client.aws_secret_key self) (Client.aws_region self) "es" = None) ->
  (forall k, k ∈ Client.spelled_out a -> Client.kwargs self !! k = None) ->
  (forall kw, Client.Elasticsearch_init lib kw = None) ->
  exists kw,
    Client._get_es_client lib self st
    = (Client.Done (length (Client.clients st)),
       Client.mk_State (Some (length (Client.clients st)))
         (Client.clients st ++ [kw]) (Client.requests st)) /\
    (forall k, k ∉ Client.spelled_out a ->
       kw !! k = Client.Given <$> Client.kwargs self !! k) /\
    kw !! "hosts" = Some (Client.Given (Client.hosts self)) /\
    kw !! "serializer" = Some Client.Serializer /\
    kw !! "http_auth"
    = match a with
      | Client.NO_AUTH => Client.Given <$> Client.kwargs self !! "http_auth"
      | Client.BASIC_AUTH => Some (Client.Given (Client.auth_details self))
      | Client.KERBEROS_AUTH => Some Client.HTTPKerberosAuth_DISABLED
      | Client.AWS_SIGNED_AUTH =>
          Some (Client.AWS4Auth (Client.aws_access_key self)
                  (Client.aws_secret_key self) (Client.aws_region self) "es")
      end /\
    (a = Client.AWS_SIGNED_AUTH ->
     kw !! "verify_certs" = Some (Client.Given (VBool true))).
Proof.
  intros Hc Ha Hs Haws Hno Hinit.
  destruct (get_es_client_call lib self st a Hc Ha Hs Haws)
    as (explicit & Hkeys & Hhosts & Hser & Hauth & Hver & _ & ->).
  rewrite <- Hkeys in Hno.
  exists (list_to_map explicit ∪ (Client.Given <$> Client.kwargs self)).
  split.
  { rewrite C_bind_apply. unfold Client.Elasticsearch.
    rewrite (keywords_distinct _ _ Hno), Hinit. reflexivity. }
  split.
  { intros k Hk. rewrite lookup_union_r; [apply lookup_fmap|].
    apply not_elem_of_list_to_map_1. now rewrite Hkeys. }
  split; [now apply lookup_union_Some_l|].
  split; [now apply lookup_union_Some_l|].
  split.
  - destruct a; try (now apply lookup_union_Some_l).
    rewrite lookup_union_r by exact Hauth. apply lookup_fmap.
  - intros ->. now apply lookup_union_Some_l.
Qed.

(** X5 at [ESHandler(ssl_context=..., unknown_arg="unknown-value")], the
    handler of [test_get_es_client_with_kwargs]. *)
Lemma X5_keyword_arguments_witness :
  let self := sample_settings (Client.Member Client.NO_AUTH) sample_kwargs in
  exists kw,
    (Client._get_es_client sample_library self no_client).1 = Client.Done 0%nat /\
    Client.clients (Client._get_es_client sample_library self no_client).2 = [kw] /\
    kw !! "unknown_arg" = Some (Client.Given (VStr "unknown-value")) /\
    kw !! "ssl_context" = Some (Client.Given (VStr "ssl-context")) /\
    kw !! "http_auth" = None.
Proof.
  intros self.
  destruct (X5_client_gets_the_keyword_arguments sample_library self no_client
              Client.NO_AUTH)
    as (kw & Hget & Hkw & _ & _ & Hauth & _).
  - reflexivity.
  - reflexivity.
  - reflexivity.
  - discriminate.
  - intros k Hk. cbn in Hk.
    apply elem_of_cons in Hk as [->|Hk]; [vm_compute; reflexivity|].
    apply elem_of_cons in Hk as [->|Hk]; [vm_compute; reflexivity|].
    apply elem_of_nil in Hk. contradiction.
  - reflexivity.
  - exists kw. rewrite Hget. cbn [fst snd Client.clients app length no_client].
    split; [reflexivity|]. split; [reflexivity|].
    assert (Hn1 : "unknown_arg" ∉ Client.spelled_out Client.NO_AUTH).
    { apply (bool_decide_eq_false_1
               ("unknown_arg" ∈ Client.spelled_out Client.NO_AUTH)).
      vm_compute. reflexivity. }
    assert (Hn2 : "ssl_context" ∉ Client.spelled_out Client.NO_AUTH).
    { apply (bool_decide_eq_false_1
               ("ssl_context" ∈ Client.spelled_out Client.NO_AUTH)).
      vm_compute. reflexivity. }
    rewrite (Hkw _ Hn1), (Hkw _ Hn2), Hauth.
    repeat split; vm_compute; reflexivity.
Defined.

(** The index name of every policy but [NO_FREQ] is the base name, a dash
    and a date. *)
Lemma index_name_dated f name w index :
  f <> NO_FREQ ->
  (_INDEX_FREQUENCY_FUNCION_DICT f name w).1 = Ok index ->
  exists date, index = name +:+ "-" +:+ date.
Proof.
  intros Hf.
  destruct f; [contradiction| | | |];
    unfold _INDEX_FREQUENCY_FUNCION_DICT, _get_daily_index_name,
      _get_weekly_index_name, _get_monthly_index_name, _get_yearly_index_name,
      datetime_now, mbind, mret, M_bind, M_ret, gets, lift_result; cbn;
    try (intros [= <-]; eauto).
  destruct (sub_days _ _); cbn; [|discriminate]. intros [= <-]. eauto.
Qed.

Lemma append_not_self (name rest : string) :
  name +:+ "-" +:+ rest <> name.
Proof.
  intros Heq. apply (f_equal String.length) in Heq.
  rewrite !length_append in Heq. cbn in Heq. lia.
Qed.

Lemma actions_of_index h buf w acts :
  (actions_of h buf w).1 = Ok acts ->
  Forall (fun act =>
            (_index_name_func h (es_index_name h) w).1 = Ok (_index act)) acts.
Proof.
  unfold actions_of. rewrite for_each_reader by (intros x; apply action_pure).
  cbn. revert acts. induction buf as [|x buf IH]; intros acts.
  - cbn. intros [= <-]. constructor.
  - cbn [mapM]. rewrite bind_apply.
    destruct (_index_name_func h (es_index_name h) w) as [[idx|e] w1]; cbn;
      [|discriminate].
    destruct (mapM _ buf) as [bs|e]; cbn; [|discriminate].
    intros [= <-]. constructor; [reflexivity|]. apply IH. reflexivity.
Qed.

Lemma get_es_client_requests lib self st :
  Client.requests (Client._get_es_client lib self st).2 = Client.requests st.
Proof.
  destruct (Client._client st) as [c|] eqn:Ec.
  - now rewrite (get_es_client_held _ _ _ c Ec).
  - destruct (get_es_client_new lib self st Ec) as [(e & ->)|(kw & ->)];
      reflexivity.
Qed.

(** X6.  [create_index_with_mapping] asks for the index named
    [es_index_name] as it is.  Unless the index names are [NO_FREQ], this
    is not an index that [flush] writes to: the index of every action is
    the name followed by a dash and a date. *)
Theorem X6_mapping_goes_to_the_undated_index
    (lib : Client.Library) (self : Client.Settings) (st : Client.State)
    (mapping : Value) (h : ESHandler) (buf : list Dict) (w : World)
    (acts : list Action) :
  Client.index_name self = es_index_name h ->
  index_name_frequency h <> NO_FREQ ->
  (actions_of h buf w).1 = Ok acts ->
  (exists sent,
     Client.requests (Client.create_index_with_mapping lib self mapping st).2
     = Client.requests st ++ sent /\
     Forall (fun r => exists client,
               r = Client.IndicesCreate client (es_index_name h) mapping 400)
       sent) /\
  Forall (fun act =>
            _index act <> es_index_name h /\
            exists date, _index act = es_index_name h +:+ "-" +:+ date) acts.
Proof.
  intros Hname Hf Hacts. split.
  - unfold Client.create_index_with_mapping. rewrite C_bind_apply.
    pose proof (get_es_client_requests lib self st) as Hr.
    destruct (Client._get_es_client lib self st) as [[client|e] st1];
      cbn [snd] in Hr |- *.
    + exists [Client.IndicesCreate client (es_index_name h) mapping 400].
      unfold Client.request. cbn. rewrite Hr, Hname. split; [reflexivity|].
      constructor; [eauto|constructor].
    + exists []. rewrite app_nil_r. split; [exact Hr|constructor].
  - eapply Forall_impl; [apply (actions_of_index _ _ _ _ Hacts)|].
    intros act Hact. cbn in Hact. unfold _index_name_func in Hact.
    destruct (index_name_dated _ _ _ _ Hf Hact) as (date & Hd).
    split; [|eauto]. rewrite Hd. apply append_not_self.
Qed.

(** X6 at the sample handler, whose index names are daily, with one entry
    to send. *)
Lemma X6_mapping_witness :
  let h := self (sample_handler false) in
  let entry : Dict := <["msg" := VStr "disk full"]> ∅ in
  let acts := [mk_Action "python_logger-2026.11.04" "python_log" entry] in
  (actions_of h [entry] sample_world).1 = Ok acts /\
  Forall (fun act => _index act <> "python_logger") acts.
Proof.
  intros h entry acts.
  assert (H1 : (actions_of h [entry] sample_world).1 = Ok acts)
    by (vm_compute; reflexivity).
  split; [exact H1|].
  destruct (X6_mapping_goes_to_the_undated_index sample_library
              (sample_settings (Client.Member Client.NO_AUTH) ∅) no_client
              VNone h [entry] sample_world acts) as (_ & Hacts).
  - vm_compute. reflexivity.
  - vm_compute. discriminate.
  - exact H1.
  - eapply Forall_impl; [exact Hacts|].
    intros act [Hne _]. exact Hne.
Defined.

(** ** [ESHandlerIgnoreESLogs] *)


Section ignore_facts.
Context `{Builtins} `{Text}.

Lemma copy_key_lookup (record : LogRecord) (rec : Dict) (key k : string) :
  IgnoreESLogs.copy_key record rec key !! k
  = if decide (k = key) then
      match default VNone (record !! k) with
      | VNone => rec !! k
      | v => Some (VStr (str v))
      end
    else rec !! k.
Proof.
  unfold IgnoreESLogs.copy_key. destruct (decide (k = key)) as [->|Hne].
  - destruct (default VNone (record !! key)); rewrite ?lookup_insert_eq; reflexivity.
  - destruct (default VNone (record !! key));
      rewrite ?lookup_insert_ne by congruence; reflexivity.
Qed.

Lemma log_keys_loop (record : LogRecord) (keys : list string) (rec : Dict) (k : string) :
  foldl (IgnoreESLogs.copy_key record) rec keys !! k
  = if bool_decide (k ∈ keys) then
      match default VNone (record !! k) with
      | VNone => rec !! k
      | v => Some (VStr (str v))
      end
    else rec !! k.
Proof.
  revert rec. induction keys as [|key keys IH]; intros rec; [reflexivity|].
  cbn [foldl]. rewrite IH, copy_key_lookup.
  destruct (decide (k = key)) as [->|Hne].
  - rewrite (bool_decide_eq_true_2 (key ∈ key :: keys)) by left.
    destruct (default VNone (record !! key)) eqn:E;
      destruct (bool_decide _); reflexivity.
  - assert (Hiff : bool_decide (k ∈ key :: keys) = bool_decide (k ∈ keys)).
    { apply bool_decide_ext. rewrite elem_of_cons. tauto. }
    rewrite Hiff. reflexivity.
Qed.

Lemma ignore_entry_of_Ok fields ts record entry :
  IgnoreESLogs.entry_of fields ts record = Ok entry ->
  exists message timestamp stamp,
    getMessage record = Ok message /\
    record !! "created" = Some timestamp /\
    _get_es_datetime_str timestamp = Ok stamp /\
    entry = <[ts := VStr stamp]>
              (foldl (IgnoreESLogs.copy_key record)
                 (<["msg" := VStr message]> fields) IgnoreESLogs.log_keys).
Proof.
  unfold IgnoreESLogs.entry_of, created.
  destruct (getMessage record) as [message|e]; [|discriminate].
  rewrite Result_bind_Ok.
  destruct (record !! "created") as [timestamp|]; [|discriminate].
  rewrite Result_bind_Ok.
  destruct (_get_es_datetime_str timestamp) as [stamp|e] eqn:Es; [|discriminate].
  rewrite Result_bind_Ok. intros Heq. apply Ok_inj in Heq. subst entry.
  exists message, timestamp, stamp.
  split; [reflexivity|]. split; [reflexivity|]. split; [exact Es|reflexivity].
Qed.

Lemma msg_not_log_key : "msg" ∉ IgnoreESLogs.log_keys.
Proof.
  apply (bool_decide_eq_false_1 ("msg" ∈ IgnoreESLogs.log_keys)).
  vm_compute. reflexivity.
Qed.

(** X7.  The entry [ESHandlerIgnoreESLogs._emit] builds holds the
    formatted creation time ([_get_es_datetime_str] of [record.created])
    under the timestamp field name, whatever the additional fields have
    there.  Under every
    other key: [msg] is the message of the record; each of the seven
    attributes [levelname], [pathname], [lineno], [funcName], [threadName],
    [processName], [process] that the record has and that is not [None] is
    stored as its [str]; everything else is what the additional fields
    have: no other attribute of the record reaches the entry. *)
Theorem X7_ignore_entry_holds_the_message_and_seven_attributes
    (fields : Dict) (ts : string) (record : LogRecord) (entry : Dict) :
  IgnoreESLogs.entry_of fields ts record = Ok entry ->
  (exists timestamp stamp,
     record !! "created" = Some timestamp /\
     _get_es_datetime_str timestamp = Ok stamp /\
     entry !! ts = Some (VStr stamp)) /\
  forall k, k <> ts ->
    (k = "msg" ->
     exists message,
       getMessage record = Ok message /\ entry !! k = Some (VStr message)) /\
    (k ∈ IgnoreESLogs.log_keys ->
     (forall v, record !! k = Some v -> v <> VNone ->
                entry !! k = Some (VStr (str v))) /\
     (record !! k = None \/ record !! k = Some VNone ->
      entry !! k = fields !! k)) /\
    (k <> "msg" -> k ∉ IgnoreESLogs.log_keys -> entry !! k = fields !! k).
Proof.
  intros (message & timestamp & stamp & Hmsg & Hcreated & Hstamp & ->)
         %ignore_entry_of_Ok.
  split.
  { exists timestamp, stamp. split; [exact Hcreated|]. split; [exact Hstamp|].
    apply lookup_insert_eq. }
  intros k Hk. rewrite lookup_insert_ne by congruence.
  rewrite log_keys_loop. repeat split.
  - intros ->. exists message. split; [exact Hmsg|].
    rewrite bool_decide_eq_false_2 by apply msg_not_log_key.
    apply lookup_insert_eq.
  - intros v Hv Hnone. rewrite bool_decide_eq_true_2 by assumption.
    rewrite Hv. cbn. destruct v; (reflexivity || contradiction).
  - intros Hv. rewrite bool_decide_eq_true_2 by assumption.
    assert (Hne : k <> "msg") by (intros ->; now apply msg_not_log_key).
    destruct Hv as [-> | ->]; cbn; now rewrite lookup_insert_ne by congruence.
  - intros Hne Hnk. rewrite bool_decide_eq_false_2 by assumption.
    now rewrite lookup_insert_ne by congruence.
Qed.

End ignore_facts.

(** X7 at a record of line 42 of [/srv/app/main.py]: the line number is
    stored as a string, and the logger name is not stored. *)
Lemma X7_ignore_entry_witness :
  let s := sample_handler false in
  let fields := deref (world s) (es_additional_fields (self s)) in
  exists entry,
    @IgnoreESLogs.entry_of sample_builtins sample_text fields "timestamp"
      record_with_dict_msg = Ok entry /\
    entry !! "timestamp" = Some (VStr "2023-11-14T22:13:20.123Z") /\
    entry !! "lineno" = Some (VStr "42") /\
    entry !! "name" = fields !! "name".
Proof.
  intros s fields.
  assert (Hok : is_Ok (@IgnoreESLogs.entry_of sample_builtins sample_text
                         fields "timestamp" record_with_dict_msg) = true)
    by (vm_compute; reflexivity).
  destruct (@IgnoreESLogs.entry_of sample_builtins sample_text fields
              "timestamp" record_with_dict_msg) as [entry|e] eqn:E;
    [clear Hok|discriminate Hok].
  exists entry. split; [reflexivity|].
  pose proof (@X7_ignore_entry_holds_the_message_and_seven_attributes
                sample_builtins sample_text fields "timestamp"
                record_with_dict_msg entry E) as (Hts & H).
  split.
  { destruct Hts as (timestamp & stamp & Hc & Hs & He).
    assert (H1 : record_with_dict_msg !! "created"
                 = Some (VFloat 1700000000123456 1000000))
      by (vm_compute; reflexivity).
    rewrite H1 in Hc. apply Some_inj in Hc. subst timestamp.
    rewrite sample_stamp in Hs. apply Ok_inj in Hs. subst stamp. exact He. }
  split.
  - destruct (H "lineno" ltac:(discriminate)) as (_ & Hk & _).
    assert (Hin : "lineno" ∈ IgnoreESLogs.log_keys).
    { apply (bool_decide_eq_true_1 ("lineno" ∈ IgnoreESLogs.log_keys)).
      vm_compute. reflexivity. }
    destruct (Hk Hin) as (Hv & _).
    apply (Hv (VInt 42)); [vm_compute; reflexivity|discriminate].
  - destruct (H "name" ltac:(discriminate)) as (_ & _ & Hk).
    apply Hk; [discriminate|].
    apply (bool_decide_eq_false_1 ("name" ∈ IgnoreESLogs.log_keys)).
    vm_compute. reflexivity.
Defined.

Section ignore_emit_facts.
Context `{Builtins} `{Text}.

(** X8.  [ESHandlerIgnoreESLogs.emit] writes to the record it is given:
    afterwards [record.msg] is a string ([json.dumps] of a dict, list or
    tuple, [str] of anything else that is not a string), also when the
    rest of [emit] raises.  No other attribute is written, and a record
    whose [msg] is a string is left as it is.  Without [msg], or when
    [json.dumps] raises, [emit] raises and changes nothing. *)
Theorem X8_ignore_emit_rewrites_msg
    (backend : Backend) (record : LogRecord) (s : State) :
  let '(r, s', record') := IgnoreESLogs.emit backend record s in
  (forall k, k <> "msg" -> record' !! k = record !! k) /\
  (is_Ok r = true -> exists text, record' !! "msg" = Some (VStr text)) /\
  match record !! "msg" with
  | None =>
      (exists m, r = Raise (AttributeError m)) /\ s' = s /\ record' = record
  | Some (VStr text) =>
      record' = record /\ (r, s') = IgnoreESLogs._emit backend record s
  | Some ((VDict _ | VList _ | VTuple _) as v) =>
      match json_dumps v with
      | Ok text =>
          record' = <["msg" := VStr text]> record /\
          (r, s') = IgnoreESLogs._emit backend record' s
      | Raise e => r = Raise e /\ s' = s /\ record' = record
      end
  | Some v =>
      record' = <["msg" := VStr (str v)]> record /\
      (r, s') = IgnoreESLogs._emit backend record' s
  end.
Proof.
  unfold IgnoreESLogs.emit, IgnoreESLogs.stringified, attribute.
  destruct (record !! "msg") as [v|] eqn:Emsg; cbn.
  - assert (Hins : forall text k, k <> "msg" ->
              <["msg" := VStr text]> record !! k = record !! k)
      by (intros; now rewrite lookup_insert_ne by congruence).
    destruct v; cbn;
      try (destruct (IgnoreESLogs._emit backend _ s) as [r s'] eqn:E;
           split; [now apply Hins|];
           split; [intros _; eexists; apply lookup_insert_eq|];
           split; reflexivity).
    + destruct (IgnoreESLogs._emit backend record s) as [r s'] eqn:E.
      split; [reflexivity|]. split; [eauto|]. split; reflexivity.
    + destruct (json_dumps _) as [text|e]; cbn.
      * destruct (IgnoreESLogs._emit backend _ s) as [r s'] eqn:E.
        split; [now apply Hins|].
        split; [intros _; eexists; apply lookup_insert_eq|]. split; reflexivity.
      * split; [reflexivity|]. split; [discriminate|]. repeat split.
    + destruct (json_dumps _) as [text|e]; cbn.
      * destruct (IgnoreESLogs._emit backend _ s) as [r s'] eqn:E.
        split; [now apply Hins|].
        split; [intros _; eexists; apply lookup_insert_eq|]. split; reflexivity.
      * split; [reflexivity|]. split; [discriminate|]. repeat split.
    + destruct (json_dumps _) as [text|e]; cbn.
      * destruct (IgnoreESLogs._emit backend _ s) as [r s'] eqn:E.
        split; [now apply Hins|].
        split; [intros _; eexists; apply lookup_insert_eq|]. split; reflexivity.
      * split; [reflexivity|]. split; [discriminate|]. repeat split.
  - split; [reflexivity|]. split; [discriminate|]. split; [eauto|]. split; reflexivity.
Qed.

End ignore_emit_facts.

(** X8 at a record whose [msg] is an empty dict: afterwards it is the
    string of two braces, and [args] is what it was. *)
Lemma X8_ignore_emit_witness :
  let out := @IgnoreESLogs.emit sample_builtins sample_text backend_up
               record_with_dict_msg (sample_handler false) in
  out.2 !! "msg" = Some (VStr "{}") /\
  out.2 !! "args" = record_with_dict_msg !! "args".
Proof.
  intros out.
  pose proof (@X8_ignore_emit_rewrites_msg sample_builtins sample_text
                backend_up record_with_dict_msg (sample_handler false)) as H.
  fold out in H. destruct out as [[r s'] record']. cbn [snd].
  destruct H as (Hother & _ & Hmsg).
  split.
  - assert (Hm : record_with_dict_msg !! "msg" = Some (VDict []))
      by (vm_compute; reflexivity).
    rewrite Hm in Hmsg. cbn in Hmsg. destruct Hmsg as [-> _].
    apply lookup_insert_eq.
  - apply Hother. discriminate.
Defined.

Section ignore_message_facts.
Context `{Builtins} `{Text}.

(** X9.  Where [str] of a string is the string, the message that
    [ESHandlerIgnoreESLogs] stores for a record is the string that [emit]
    has put in [record.msg], formatted with [record.args] by [%] when
    [args] is not empty, and as it is when [args] is empty or [None]; a
    record without [args] makes [emit] raise [AttributeError]. *)
Theorem X9_ignore_message_is_the_rewritten_msg
    (record record' : LogRecord) :
  (forall s, str (VStr s) = s) ->
  IgnoreESLogs.stringified record = Ok record' ->
  exists text,
    record' !! "msg" = Some (VStr text) /\
    (forall a, record !! "args" = Some a ->
       getMessage record' = if truthy a then percent text a else Ok text) /\
    (record !! "args" = None ->
     forall backend s,
       exists m, IgnoreESLogs.emit backend record s
                 = (Raise (AttributeError m), s, record')) /\
    (forall fields ts entry a,
       IgnoreESLogs.entry_of fields ts record' = Ok entry ->
       ts <> "msg" -> record !! "args" = Some a -> truthy a = false ->
       entry !! "msg" = Some (VStr text)).
Proof.
  intros Hstr Hs.
  assert (Hrec : exists text,
            record' !! "msg" = Some (VStr text) /\
            forall k, k <> "msg" -> record' !! k = record !! k).
  { unfold IgnoreESLogs.stringified, attribute in Hs.
    destruct (record !! "msg") as [v|] eqn:Emsg; [|discriminate]. cbn in Hs.
    destruct v; cbn in Hs;
      try (injection Hs as <-; eexists; split; [apply lookup_insert_eq|];
           intros; now rewrite lookup_insert_ne by congruence);
      try (destruct (json_dumps _) as [text|e]; [|discriminate]; cbn in Hs;
           injection Hs as <-; eexists; split; [apply lookup_insert_eq|];
           intros; now rewrite lookup_insert_ne by congruence).
    injection Hs as <-. eauto. }
  destruct Hrec as (text & Hmsg & Hother). exists text.
  assert (Hget : forall a, record !! "args" = Some a ->
            getMessage record' = if truthy a then percent text a else Ok text).
  { intros a Ha. unfold getMessage, attribute.
    rewrite Hmsg, Hother, Ha by discriminate. cbn. now rewrite Hstr. }
  split; [exact Hmsg|]. split; [exact Hget|]. split.
  - intros Ha backend s. unfold IgnoreESLogs.emit. rewrite Hs.
    unfold IgnoreESLogs._emit, IgnoreESLogs.entry_of, getMessage, attribute.
    rewrite Hmsg, Hother, Ha by discriminate.
    unfold mbind, M_bind, gets, lift_result. cbn. eauto.
  - intros fields ts entry a He Hts Ha Hfalse.
    apply ignore_entry_of_Ok in He as (message & _ & stamp & Hm & _ & _ & ->).
    rewrite (Hget a Ha), Hfalse in Hm. injection Hm as <-.
    rewrite lookup_insert_ne by congruence.
    rewrite log_keys_loop, bool_decide_eq_false_2 by apply msg_not_log_key.
    apply lookup_insert_eq.
Qed.

End ignore_message_facts.

(** X9 at that record: its [args] are empty, and the message stored is
    the two braces. *)
Lemma X9_ignore_message_witness :
  let s := sample_handler false in
  let fields := deref (world s) (es_additional_fields (self s)) in
  exists record' entry,
    @IgnoreESLogs.stringified sample_builtins sample_text record_with_dict_msg
    = Ok record' /\
    @IgnoreESLogs.entry_of sample_builtins sample_text fields "timestamp"
      record' = Ok entry /\
    entry !! "msg" = Some (VStr "{}").
Proof.
  intros s fields.
  set (record' := <["msg" := VStr "{}"]> record_with_dict_msg).
  assert (Hs : @IgnoreESLogs.stringified sample_builtins sample_text
                 record_with_dict_msg = Ok record').
  { unfold IgnoreESLogs.stringified, attribute.
    assert (Hm : record_with_dict_msg !! "msg" = Some (VDict []))
      by (vm_compute; reflexivity).
    rewrite Hm. reflexivity. }
  assert (Hok : is_Ok (@IgnoreESLogs.entry_of sample_builtins sample_text
                         fields "timestamp" record') = true)
    by (vm_compute; reflexivity).
  destruct (@IgnoreESLogs.entry_of sample_builtins sample_text fields
              "timestamp" record') as [entry|e] eqn:E;
    [clear Hok|discriminate Hok].
  exists record', entry. split; [exact Hs|]. split; [exact E|].
  destruct (@X9_ignore_message_is_the_rewritten_msg sample_builtins sample_text
              record_with_dict_msg record' ltac:(reflexivity) Hs)
    as (text & Hmsg & _ & _ & Hentry).
  assert (Ht : text = "{}").
  { unfold record' in Hmsg. rewrite lookup_insert_eq in Hmsg.
    injection Hmsg as <-. reflexivity. }
  subst text.
  apply (Hentry fields "timestamp" entry (VTuple []) E).
  - discriminate.
  - vm_compute. reflexivity.
  - reflexivity.
Defined.

(** ** Histories: what is delivered, what is retried *)

Lemma delivered_app backend calls calls' :
  delivered backend (calls ++ calls')
  = delivered backend calls ++ delivered backend calls'.
Proof.
  unfold delivered. now rewrite List.filter_app, fmap_app, concat_app.
Qed.

(** What a transmission hands over to the backend. *)
Lemma transmit_delivered backend s :
  match (transmit backend s).1 with
  | Ok _ => delivered backend (attempted backend s) = _buffer (self s)
  | Raise _ => delivered backend (attempted backend s) = []
  end.
Proof.
  rewrite transmit_eq. unfold attempted.
  destruct (client_error backend); [reflexivity|].
  destruct (actions_of _ _ _).1 as [acts|e] eqn:E; [|reflexivity].
  cbv zeta. unfold delivered. cbn.
  destruct (helpers_bulk backend acts) as [e|] eqn:Eb; cbn.
  - reflexivity.
  - rewrite app_nil_r. eapply actions_of_sources, E.
Qed.

(** [flush] moves entries from the buffer to the backend, or leaves them. *)
Lemma flush_account backend s :
  exists new,
    bulk_calls (world (flush backend s).2) = bulk_calls (world s) ++ new /\
    delivered backend new ++ _buffer (self (flush backend s).2)
    = _buffer (self s).
Proof.
  pose proof (flush_cases backend s) as H.
  pose proof (transmit_delivered backend s) as Ht.
  destruct (flush backend s) as [r s']. cbn [snd].
  destruct H as (_ & _ & [H|[H|[(e' & H)|(e' & H)]]]).
  - destruct H as (Hb & _ & Hb' & _ & _ & Hbc & _). exists [].
    now rewrite Hb, Hb', Hbc, app_nil_r.
  - destruct H as (_ & Hok & _ & Hb' & _ & _ & Hbc & _).
    exists (attempted backend s). rewrite Hok in Ht.
    now rewrite Hb', Hbc, Ht, app_nil_r.
  - destruct H as (_ & Hno & _ & _ & Hb' & _ & _ & Hbc & _).
    exists (attempted backend s). rewrite Hno in Ht. now rewrite Hb', Hbc, Ht.
  - destruct H as (_ & Hno & _ & _ & Hb' & _ & _ & Hbc & _).
    exists (attempted backend s). rewrite Hno in Ht. now rewrite Hb', Hbc, Ht.
Qed.

Lemma delivered_ext backend backend' calls :
  (forall acts, helpers_bulk backend' acts = helpers_bulk backend acts) ->
  delivered backend' calls = delivered backend calls.
Proof.
  intros Hext. unfold delivered. do 2 f_equal.
  induction calls as [|acts calls IH]; [reflexivity|].
  cbn. rewrite Hext, IH. reflexivity.
Qed.

Lemma delivered_never (b : Backend) (calls : list (list Action)) :
  (forall acts, helpers_bulk b acts <> None) -> delivered b calls = [].
Proof.
  intros Hb. unfold delivered.
  induction calls as [|acts calls IH]; [reflexivity|].
  cbn. rewrite bool_decide_eq_false_2 by apply Hb. exact IH.
Qed.

Section accounts.
Context `{Builtins}.

Lemma appended_emit fields ts backend record :
  appended fields ts [Emit backend record]
  = match entry_of fields ts record with
    | Ok rec => [rec]
    | Raise _ => []
    end.
Proof. unfold appended. cbn. destruct (entry_of _ _ _); reflexivity. Qed.

(** One call: the calls of [helpers.bulk] it makes; what its backend takes
    of them and what the buffer then holds, put end to end, is the buffer
    as it was, followed by the entry of the record if the call is an [emit]
    that builds one. *)
Lemma call_account (c : Call) (s : State) :
  exists new,
    bulk_calls (world (call c s).2) = bulk_calls (world s) ++ new /\
    delivered (backend_of c) new ++ _buffer (self (call c s).2)
    = _buffer (self s)
      ++ appended (deref (world s) (es_additional_fields (self s)))
           (default_timestamp_field_name (self s)) [c].
Proof.
  destruct c as [backend record|backend|backend|backend t];
    cbn [call backend_of] in *;
    [|change (appended _ _ [_]) with (@nil Dict)..].
  - rewrite emit_eq, appended_emit.
    destruct (entry_of _ _ record) as [rec|e]; cbn [snd];
      [|exists []; now rewrite !app_nil_r].
    rewrite try_flush_eq.
    set (s1 := set__buffer _ s).
    assert (Hs1 : bulk_calls (world s1) = bulk_calls (world s) /\
                  _buffer (self s1) = _buffer (self s) ++ [rec])
      by (destruct s as [[] ?]; split; reflexivity).
    destruct Hs1 as [Hbc Hbuf].
    destruct (_ && _).
    + destruct (flush_account backend s1) as (new & Hnew & Hacc).
      exists new. now rewrite Hnew, Hacc, Hbc, Hbuf.
    + exists []. rewrite app_nil_r. cbn [delivered app].
      destruct (_timer (self s1)) as [t|] eqn:Et.
      * rewrite (schedule_flush_armed s1 t Et). cbn [snd].
        now rewrite Hbc, Hbuf.
      * rewrite (schedule_flush_unarmed s1 Et). cbn.
        destruct s as [[] ?]. split; reflexivity.
  - rewrite app_nil_r. apply flush_account.
  - rewrite close_eq, app_nil_r.
    destruct (_timer (self s)) as [t|].
    + destruct (flush_account backend s) as (new & Hnew & Hacc).
      exists new.
      destruct (flush backend s) as [[[]|e] s']; cbn [snd] in *;
        [|now split].
      destruct s' as [[] ?]. now split.
    + exists []. destruct s as [[] ?]. now rewrite app_nil_r.
  - rewrite app_nil_r.
    destruct (decide (Timer_status (world s) t = Waiting)) as [Hw|Hw];
      [|rewrite Timer_run_not_waiting by assumption; exists [];
        now rewrite app_nil_r].
    rewrite (Timer_run_waiting _ _ _ Hw).
    destruct (flush_account backend
                (mk_State (self s) (set_timers <[t:=Running]> (world s))))
      as (new & Hnew & Hacc).
    exists new.
    destruct (flush backend _) as [r s1]. cbn in *.
    destruct s as [? []], s1 as [? []]. now split.
Qed.

Lemma appended_app fields ts cs cs' :
  appended fields ts (cs ++ cs') = appended fields ts cs ++ appended fields ts cs'.
Proof. unfold appended. apply omap_app. Qed.

Lemma call_frame (c : Call) (s : State) :
  same_config (self s) (self (call c s).2) /\
  same_surroundings (world s) (world (call c s).2).
Proof.
  destruct c; cbn.
  - apply emit_frame.
  - apply flush_frame.
  - apply close_frame.
  - apply Timer_run_frame.
Qed.

(** What is handed over during a call, and along a history, read off the
    calls of [helpers.bulk] that were made. *)
Lemma taken_new (c : Call) (s : State) (new : list (list Action)) :
  bulk_calls (world (call c s).2) = bulk_calls (world s) ++ new ->
  taken c s = delivered (backend_of c) new.
Proof. intros Hnew. unfold taken. now rewrite Hnew, drop_app_length. Qed.

Lemma history_account (cs : list Call) (s : State) :
  (exists new, bulk_calls (world (run cs s)) = bulk_calls (world s) ++ new /\
     forall b,
       (forall c, c ∈ cs ->
          forall acts, helpers_bulk (backend_of c) acts = helpers_bulk b acts) ->
       taken_along cs s = delivered b new) /\
  taken_along cs s ++ _buffer (self (run cs s))
  = _buffer (self s)
    ++ appended (deref (world s) (es_additional_fields (self s)))
         (default_timestamp_field_name (self s)) cs.
Proof.
  revert s. induction cs as [|c cs IH]; intros s.
  - split; [|cbn; now rewrite app_nil_r].
    exists []. split; [cbn; now rewrite app_nil_r|]. reflexivity.
  - change (run (c :: cs) s) with (run cs (call c s).2).
    cbn [taken_along].
    destruct (call_account c s) as (new & Hnew & Hacc).
    destruct (IH (call c s).2) as [(new' & Hnew' & Hone) Hrest].
    rewrite (taken_new c s new Hnew).
    split.
    + exists (new ++ new'). split; [now rewrite Hnew', Hnew, app_assoc|].
      intros b Hb. rewrite delivered_app. f_equal.
      * apply delivered_ext. intros acts. apply Hb. left.
      * apply Hone. intros c' Hc'. apply Hb. now right.
    + rewrite <- app_assoc, Hrest, app_assoc, Hacc.
      destruct (call_frame c s)
        as [(_ & _ & _ & _ & Hf & _ & Hts & _) (Hheap & _)].
      unfold deref. rewrite Hheap, Hf, Hts.
      change (c :: cs) with ([c] ++ cs).
      rewrite appended_app, <- !app_assoc. reflexivity.
Qed.

(** X10.  Along any history of calls ([emit], [flush], [close], timers
    firing), whatever each call is answered, no entry is lost, handed over
    twice or out of order: the entries that were handed over, call after
    call (those of the calls of [helpers.bulk] that returned), followed by
    the buffer, are the buffer as it was before the history, followed by
    the entries of the records emitted, in order.  When one backend answers
    all the calls, what was handed over is what that backend takes of the
    calls of [helpers.bulk] that the history has added.  While
    [helpers.bulk] raises at every call, the buffer keeps every entry,
    whatever [buffer_size] is. *)
Theorem X10_entries_are_delivered_once_in_order (cs : list Call) (s : State) :
  let emitted := appended (deref (world s) (es_additional_fields (self s)))
                   (default_timestamp_field_name (self s)) cs in
  taken_along cs s ++ _buffer (self (run cs s))
  = _buffer (self s) ++ emitted /\
  (exists new,
     bulk_calls (world (run cs s)) = bulk_calls (world s) ++ new /\
     forall b,
       (forall c, c ∈ cs ->
          forall acts, helpers_bulk (backend_of c) acts = helpers_bulk b acts) ->
       taken_along cs s = delivered b new) /\
  ((forall c, c ∈ cs -> forall acts, helpers_bulk (backend_of c) acts <> None) ->
   _buffer (self (run cs s)) = _buffer (self s) ++ emitted).
Proof.
  intros emitted. destruct (history_account cs s) as [Hcalls Hmain].
  split; [exact Hmain|]. split; [exact Hcalls|].
  intros Hnever. unfold emitted. rewrite <- Hmain.
  assert (Hnone : forall cs' s', (forall c, c ∈ cs' -> c ∈ cs) ->
                                 taken_along cs' s' = []).
  { induction cs' as [|c cs' IH]; intros s' Hin; [reflexivity|].
    cbn [taken_along]. rewrite IH by (intros c' Hc'; apply Hin; now right).
    unfold taken. rewrite delivered_never; [reflexivity|].
    apply Hnever, Hin. left. }
  now rewrite Hnone.
Qed.

End accounts.

(** X10 at a new handler that is given a record, then flushed while the
    backend is down, and whose timer then fires while the backend is up:
    [helpers.bulk] is called twice, and the entry is handed over once. *)
Lemma X10_delivery_witness :
  let s := sample_handler false in
  let cs := [Emit backend_up sample_record; Flush backend_down;
             Fire backend_up 1] in
  let s' := @run sample_builtins cs s in
  length (bulk_calls (world s')) = 2%nat /\
  _buffer (self s') = [] /\
  @taken_along sample_builtins cs s
  = @appended sample_builtins
      (deref (world s) (es_additional_fields (self s)))
      (default_timestamp_field_name (self s)) cs.
Proof.
  intros s cs s'.
  assert (H1 : _buffer (self s') = []) by (vm_compute; reflexivity).
  split; [vm_compute; reflexivity|]. split; [exact H1|].
  destruct (@X10_entries_are_delivered_once_in_order sample_builtins cs s)
    as [H _].
  fold s' in H. rewrite H1, app_nil_r in H. rewrite H.
  assert (H2 : _buffer (self s) = []) by (vm_compute; reflexivity).
  now rewrite H2.
Defined.


(** ** Retries *)

Lemma retry_armed_flush backend s :
  raise_on_indexing_exceptions (self s) = false ->
  retry_armed (flush backend s).2 /\
  (forall t, _timer (self (flush backend s).2) = Some t ->
             (length (timers (world s)) <= t)%nat).
Proof.
  intros Hff. pose proof (flush_cases backend s) as H.
  destruct (flush backend s) as [r s']. cbn [snd]. unfold retry_armed.
  destruct H as (_ & _ & [H|[H|[(e' & H)|(e' & H)]]]).
  - destruct H as (_ & _ & Hb' & -> & _). split; [exact Hb'|discriminate].
  - destruct H as (_ & _ & _ & Hb' & -> & _). split; [exact Hb'|discriminate].
  - destruct H as (_ & _ & Hff' & _). congruence.
  - destruct H as (_ & _ & _ & _ & _ & -> & Hts & _). split.
    + unfold Timer_status. rewrite Hts, <- (length_held_cancelled s).
      now rewrite status_new_timer.
    + intros t [= <-]. lia.
Qed.

Lemma retry_armed_schedule s :
  (forall t, _timer (self s) = Some t -> Timer_status (world s) t = Waiting) ->
  retry_armed (_schedule_flush s).2.
Proof.
  intros Hheld. unfold retry_armed.
  destruct (_timer (self s)) as [t|] eqn:Et.
  - rewrite (schedule_flush_armed s t Et). cbn [snd]. rewrite Et. now apply Hheld.
  - rewrite (schedule_flush_unarmed s Et).
    destruct s as [[] [? tms ? ? ? ? ? ?]]. cbn in *.
    unfold Timer_status. cbn. now rewrite status_new_timer.
Qed.

Lemma retry_armed_held s t :
  retry_armed s -> _timer (self s) = Some t ->
  Timer_status (world s) t = Waiting.
Proof. unfold retry_armed. intros Hr Ht. now rewrite Ht in Hr. Qed.

Lemma retry_armed_Timer_run backend t s :
  raise_on_indexing_exceptions (self s) = false ->
  retry_armed s -> retry_armed (Timer_run backend t s).2.
Proof.
  intros Hff Hr.
  destruct (decide (Timer_status (world s) t = Waiting)) as [Hw|Hw];
    [|now rewrite Timer_run_not_waiting by assumption].
  rewrite (Timer_run_waiting _ _ _ Hw).
  set (s_run := mk_State (self s) _).
  assert (Hlt : (t < length (timers (world s_run)))%nat).
  { unfold s_run. cbn. rewrite length_insert. unfold Timer_status in Hw.
    destruct (timers (world s) !! t) eqn:E; [|discriminate].
    eapply lookup_lt_Some, E. }
  destruct (retry_armed_flush backend s_run Hff) as [Hfl Hnew].
  destruct (flush backend s_run) as [r s1]. cbn [snd] in *.
  unfold retry_armed in *. cbn.
  destruct (_timer (self s1)) as [t1|]; [|exact Hfl].
  specialize (Hnew t1 eq_refl).
  unfold Timer_status in *. cbn.
  rewrite list_lookup_insert_ne by lia. exact Hfl.
Qed.

Section retries.
Context `{Builtins}.

Lemma retry_armed_emit backend record s :
  raise_on_indexing_exceptions (self s) = false ->
  retry_armed s -> retry_armed (emit backend record s).2.
Proof.
  intros Hff Hr. rewrite emit_eq.
  destruct (entry_of _ _ _) as [rec|e]; [|exact Hr].
  rewrite try_flush_eq. set (s1 := set__buffer _ s).
  assert (Hs1 : raise_on_indexing_exceptions (self s1) = false /\
                _timer (self s1) = _timer (self s) /\ world s1 = world s)
    by (destruct s as [[] ?]; repeat split; exact Hff).
  destruct Hs1 as (Hff1 & Htm & Hw).
  destruct (_ && _).
  - now apply retry_armed_flush.
  - apply retry_armed_schedule. rewrite Htm, Hw.
    intros t. now apply retry_armed_held.
Qed.

(** X11.  When the handler does not raise on indexing exceptions and
    [close] is not called, the entries in the buffer never wait in vain:
    after any history of calls, either the buffer is empty or the handler
    holds a timer that is waiting to run [flush]. *)
Theorem X11_buffered_entries_have_a_timer (cs : list Call) (s : State) :
  raise_on_indexing_exceptions (self s) = false ->
  retry_armed s ->
  Forall (fun c => is_close c = false) cs ->
  retry_armed (run cs s) /\
  (_buffer (self (run cs s)) <> [] ->
   exists t, _timer (self (run cs s)) = Some t /\
             t ∈ live_timers (world (run cs s))).
Proof.
  intros Hff Hr Hcs.
  assert (Hinv : retry_armed (run cs s)).
  { revert s Hff Hr. induction Hcs as [|c cs Hc _ IH]; intros s Hff Hr; [exact Hr|].
    change (run (c :: cs) s) with (run cs (call c s).2).
    destruct (call_frame c s) as [(_ & _ & _ & _ & _ & Hff' & _) _].
    apply IH; [congruence|].
    destruct c; cbn in Hc |- *; try discriminate.
    - now apply retry_armed_emit.
    - now apply retry_armed_flush.
    - now apply retry_armed_Timer_run. }
  split; [exact Hinv|].
  intros Hne. unfold retry_armed in Hinv.
  destruct (_timer (self (run cs s))) as [t|]; [|contradiction].
  exists t. split; [reflexivity|].
  unfold live_timers. apply list_elem_of_filter. split; [exact Hinv|].
  apply elem_of_seq. split; [lia|]. cbn.
  unfold Timer_status in Hinv.
  destruct (timers _ !! t) eqn:E; [|discriminate].
  eapply lookup_lt_Some, E.
Qed.

End retries.

(** X11 at a new handler that is given a record while the backend is
    down, and whose timer then fires: the entry is in the buffer and a
    second timer is waiting. *)
Lemma X11_retry_witness :
  let s := sample_handler false in
  let cs := [Emit backend_down sample_record; Fire backend_down 0] in
  retry_armed (@run sample_builtins cs s).
Proof.
  intros s cs.
  apply (@X11_buffered_entries_have_a_timer sample_builtins cs s).
  - vm_compute. reflexivity.
  - unfold retry_armed.
    assert (Ht : _timer (self s) = None) by (vm_compute; reflexivity).
    rewrite Ht. vm_compute. reflexivity.
  - repeat constructor.
Defined.



(** ** A failed [flush] in fail-fast mode *)

(** X12.  In fail-fast mode, a [flush] whose transmission fails raises and
    leaves the entries in the buffer with no timer to send them: the
    handler holds none, and (when it held every timer that could fire)
    none is waiting.  The entries stay until the next [emit] or
    [flush]. *)
Theorem X12_failed_flush_in_fail_fast_mode_arms_no_timer
    (backend : Backend) (s : State) (e : Exn) :
  raise_on_indexing_exceptions (self s) = true ->
  _buffer (self s) <> [] ->
  (transmit backend s).1 = Raise e ->
  timers_held s ->
  let '(r, s') := flush backend s in
  r = Raise e /\
  _buffer (self s') = _buffer (self s) /\
  _timer (self s') = None /\
  live_timers (world s') = [] /\
  error_stream (world s') = error_stream (world s).
Proof.
  intros Hff Hne Hfail Hheld.
  pose proof (flush_cases backend s) as H.
  pose proof (held_cancelled_not_waiting s) as Hnw.
  destruct (flush backend s) as [r s'].
  destruct H as (_ & _ & [H|[H|[(e' & H)|(e' & H)]]]).
  - destruct H as (Hb & _). contradiction.
  - destruct H as (_ & Hok & _). congruence.
  - destruct H as (_ & He & _ & -> & Hb & Ht & Hts & _ & Herr).
    repeat split; try assumption; [congruence|].
    apply no_live_timers. intros t Hw. unfold Timer_status in Hw.
    rewrite Hts in Hw.
    destruct (held_cancelled s !! t) as [st|] eqn:E; cbn in Hw; [|discriminate].
    subst st. eapply Hnw; eauto.
  - destruct H as (_ & _ & Hff' & _). congruence.
Qed.

(** X12 at a handler in fail-fast mode with one entry, the backend being
    down. *)
Lemma X12_fail_fast_witness :
  let s := one_buffered true in
  let e := Exception "connection refused" in
  (flush backend_down s).1 = Raise e /\
  _timer (self (flush backend_down s).2) = None /\
  live_timers (world (flush backend_down s).2) = [].
Proof.
  intros s e.
  assert (H0 : raise_on_indexing_exceptions (self s) = true)
    by (vm_compute; reflexivity).
  assert (H1 : _buffer (self s) <> [])
    by (intros Hb; apply (f_equal length) in Hb; vm_compute in Hb; discriminate Hb).
  assert (H2 : (transmit backend_down s).1 = Raise e) by (vm_compute; reflexivity).
  pose proof (X12_failed_flush_in_fail_fast_mode_arms_no_timer backend_down s e
                H0 H1 H2 (timers_held_one_buffered true)) as H.
  destruct (flush backend_down s) as [r s']. cbn [fst snd].
  destruct H as (Hr & _ & Ht & Hl & _). auto.
Defined.


(** ** What [emit] raises *)

Section emit_errors.
Context `{Builtins}.

Lemma emit_loop_raises (fields : Dict) (record : LogRecord) (a : Value) (e : Exn) :
  record !! "args" = Some a -> iter a = Raise e ->
  map_fold emit_item (Ok fields) record = Raise e.
Proof.
  intros Ha Hit. pose proof (emit_loop_spec fields record) as Hs.
  destruct (map_fold _ _ _) as [rec|e'].
  - specialize (Hs "args"). rewrite Ha in Hs.
    rewrite bool_decide_eq_false_2 in Hs by apply args_not_filtered.
    destruct Hs as (v' & Hst & _). unfold stored in Hst. cbn in Hst.
    rewrite Hit in Hst. discriminate.
  - destruct Hs as (v & Hv & Hit'). congruence.
Qed.

(** X13.  [emit] raises before it touches the buffer or a timer when it
    cannot build the entry of the record: [TypeError] when [record.args]
    cannot be iterated over ([None], a number), [AttributeError] when the
    record has no [created], [TypeError] when [created] is not a number,
    and an error when it is an instant outside of the years 1 to 9999.  The
    handler is then as it was. *)
Theorem X13_emit_raises_before_buffering
    (backend : Backend) (record : LogRecord) (s : State) :
  (forall a e, record !! "args" = Some a -> iter a = Raise e ->
     emit backend record s = (Raise e, s)) /\
  ((forall a, record !! "args" = Some a -> is_Ok (iter a) = true) ->
   (record !! "created" = None ->
    exists m, emit backend record s = (Raise (AttributeError m), s)) /\
   (forall v, record !! "created" = Some v ->
      (forall e, _get_es_datetime_str v = Raise e ->
                 emit backend record s = (Raise e, s)) /\
      (timestamp_us v = Raise (TypeError "an integer is required") ->
       emit backend record s
       = (Raise (TypeError "an integer is required"), s)) /\
      (forall us, timestamp_us v = Ok us ->
         ~ (0 < EPOCH_ORDINAL + us / US_PER_DAY <= _MAXORDINAL) ->
         exists e, emit backend record s = (Raise e, s)))).
Proof.
  split.
  - intros a e Ha Hit. rewrite emit_eq. unfold entry_of.
    now rewrite (emit_loop_raises _ _ a e Ha Hit).
  - intros Hargs.
    destruct (emit_loop_total
                (deref (world s) (es_additional_fields (self s))) record Hargs)
      as (rec & Hloop).
    split.
    + intros Hc. rewrite emit_eq. unfold entry_of, created.
      rewrite Hloop, Hc. cbn. eauto.
    + intros v Hc.
      assert (Hraise : forall e, _get_es_datetime_str v = Raise e ->
                emit backend record s = (Raise e, s)).
      { intros e He. rewrite emit_eq. unfold entry_of, created.
        rewrite Hloop, Hc, !Result_bind_Ok, He. reflexivity. }
      split; [exact Hraise|]. split.
      * intros Hty. apply Hraise. unfold _get_es_datetime_str.
        rewrite Hty. reflexivity.
      * intros us Hus Hout.
        assert (Hdt : exists e, utcfromtimestamp us = Raise e).
        { unfold utcfromtimestamp. cbv zeta.
          destruct (Z.ltb_spec 0 (EPOCH_ORDINAL + us / US_PER_DAY));
            destruct (Z.leb_spec (EPOCH_ORDINAL + us / US_PER_DAY) _MAXORDINAL);
            cbn [andb]; try (eexists; reflexivity).
          exfalso. apply Hout. lia. }
        destruct Hdt as (e & He). exists e. apply Hraise.
        unfold _get_es_datetime_str. rewrite Hus, Result_bind_Ok, He.
        reflexivity.
Qed.

End emit_errors.

(** X13 at a record whose [args] is [None]. *)
Lemma X13_emit_raises_witness :
  let s := sample_handler false in
  @emit sample_builtins backend_up record_args_None s
  = (Raise (TypeError "'NoneType' object is not iterable"), s).
Proof.
  intros s.
  apply (proj1 (@X13_emit_raises_before_buffering sample_builtins backend_up
                  record_args_None s) VNone).
  - vm_compute. reflexivity.
  - reflexivity.
Defined.


(** ** The address of the host *)

Lemma init_fields_eq (args : InitArgs) (w : World) :
  let l := fresh (dom (heap w)) in
  (match arg_es_additional_fields args with
   | None => dict_new ∅
   | Some d => dict_copy d
   end) w
  = (Ok l, set_heap <[l := match arg_es_additional_fields args with
                          | None => ∅
                          | Some d => deref w d
                          end]> w).
Proof. destruct (arg_es_additional_fields args); reflexivity. Qed.

(** What [__init__] makes of the answer of the resolver. *)
Lemma init_host_ip (args : InitArgs) (w : World) :
  let resolved := gethostbyname w (hostname w) in
  (forall ip,
     String.eqb (platform_system w) "Darwin" = true /\ ip = "127.0.0.1"
     \/ String.eqb (platform_system w) "Darwin" = false /\ resolved = Ok ip
     \/ String.eqb (platform_system w) "Darwin" = false /\
        resolved = Raise (OSError 8) /\ ip = "127.0.0.1" ->
     exists h w',
       __init__ args w = (Ok h, w') /\
       deref w' (es_additional_fields h) !! "host_ip" = Some (VStr ip) /\
       deref w' (es_additional_fields h) !! "host" = Some (VStr (hostname w))) /\
  (String.eqb (platform_system w) "Darwin" = false ->
   (forall n, resolved = Raise (OSError n) -> n <> 8 ->
      (__init__ args w).1 = Raise (OSError n)) /\
   (forall e, resolved = Raise e -> (forall n, e <> OSError n) ->
      exists m, (__init__ args w).1 = Raise (AttributeError m))).
Proof.
  intros resolved. split.
  - intros ip Hcase.
    assert (Hinit : exists h w',
              __init__ args w = (Ok h, w') /\
              w' = set_heap <[es_additional_fields h :=
                      <["host" := VStr (hostname w)]>
                        (<["host_ip" := VStr ip]> ∅)
                      ∪ deref (set_heap <[es_additional_fields h :=
                            match arg_es_additional_fields args with
                            | None => ∅
                            | Some d => deref w d
                            end]> w) (es_additional_fields h)]>
                     (set_heap <[es_additional_fields h :=
                            match arg_es_additional_fields args with
                            | None => ∅
                            | Some d => deref w d
                            end]> w)).
    { unfold __init__. rewrite bind_apply, init_fields_eq.
      destruct w as [hp tms err bc clk hn ps gh].
      unfold mbind, M_bind, gets, mret, M_ret, try_except, lift_result, raise,
        dict_update, modify, errno_of, set_heap.
      cbv beta iota delta [hostname platform_system gethostbyname heap timers
                           error_stream bulk_calls clock].
      unfold resolved in Hcase.
      cbv beta iota delta [hostname platform_system gethostbyname] in Hcase.
      destruct Hcase as [[Hs ->]|[[Hs Hr]|(Hs & Hr & ->)]];
        rewrite Hs; cbn [negb]; rewrite ?Hr;
        eexists _, _; (split; [reflexivity|]); reflexivity. }
    destruct Hinit as (h & w' & Hinit & ->). eexists h, _.
    split; [exact Hinit|].
    unfold deref, set_heap. cbn [heap].
    rewrite !lookup_insert_eq. cbn [default].
    split.
    + apply lookup_union_Some_l. rewrite lookup_insert_ne by discriminate.
      apply lookup_insert_eq.
    + apply lookup_union_Some_l. apply lookup_insert_eq.
  - intros Hsys. split.
    + intros n Hres Hn. unfold __init__. rewrite bind_apply, init_fields_eq.
      destruct w as [hp tms err bc clk hn ps gh].
      unfold mbind, M_bind, gets, mret, M_ret, try_except, lift_result, raise,
        dict_update, modify, errno_of, set_heap.
      cbv beta iota delta [hostname platform_system gethostbyname heap timers
                           error_stream bulk_calls clock].
      unfold resolved in Hres.
      cbv beta iota delta [hostname platform_system gethostbyname] in Hres, Hsys.
      rewrite Hsys. cbn [negb]. rewrite Hres.
      destruct (Z.eqb_spec n 8); [contradiction|reflexivity].
    + intros e Hres He. unfold __init__. rewrite bind_apply, init_fields_eq.
      destruct w as [hp tms err bc clk hn ps gh].
      unfold mbind, M_bind, gets, mret, M_ret, try_except, lift_result, raise,
        dict_update, modify, errno_of, set_heap.
      cbv beta iota delta [hostname platform_system gethostbyname heap timers
                           error_stream bulk_calls clock].
      unfold resolved in Hres.
      cbv beta iota delta [hostname platform_system gethostbyname] in Hres, Hsys.
      rewrite Hsys. cbn [negb]. rewrite Hres.
      destruct e; try (eexists; reflexivity).
      exfalso. eapply He. reflexivity.
Qed.

(** X14.  The [host_ip] field of a new handler: on Darwin it is 127.0.0.1
    and the answer of the resolver does not matter; elsewhere it is what
    [gethostbyname] returns for the host name, and 127.0.0.1 when
    [gethostbyname] raises an [OSError] whose [errno] is 8.  Any other
    [OSError] is raised again by [__init__], and an exception without
    [errno] is replaced by an [AttributeError].  The [host] field is the
    host name; what the caller gave under [host] and [host_ip] is
    overwritten. *)
Theorem X14_host_ip_of_a_new_handler (args : InitArgs) (w : World) :
  let resolved := gethostbyname w (hostname w) in
  let made ip :=
    exists h w',
      __init__ args w = (Ok h, w') /\
      deref w' (es_additional_fields h) !! "host_ip" = Some (VStr ip) /\
      deref w' (es_additional_fields h) !! "host" = Some (VStr (hostname w)) in
  (String.eqb (platform_system w) "Darwin" = true -> made "127.0.0.1") /\
  (String.eqb (platform_system w) "Darwin" = false ->
   (forall ip, resolved = Ok ip -> made ip) /\
   (resolved = Raise (OSError 8) -> made "127.0.0.1") /\
   (forall n, resolved = Raise (OSError n) -> n <> 8 ->
      (__init__ args w).1 = Raise (OSError n)) /\
   (forall e, resolved = Raise e -> (forall n, e <> OSError n) ->
      exists m, (__init__ args w).1 = Raise (AttributeError m))).
Proof.
  cbv zeta. destruct (init_host_ip args w) as [Hmade Hraise]. split.
  - intros Hd. apply Hmade. left. auto.
  - intros Hd. destruct (Hraise Hd) as [Hn He].
    split; [|split; [|split]].
    + intros ip Hr. apply Hmade. right. left. auto.
    + intros Hr. apply Hmade. right. right. auto.
    + exact Hn.
    + exact He.
Qed.

(** X14 at the sample host, a Linux machine whose name resolves. *)
Lemma X14_host_ip_witness :
  exists h w',
    __init__ (sample_args false) sample_world = (Ok h, w') /\
    deref w' (es_additional_fields h) !! "host_ip" = Some (VStr "10.0.0.1").
Proof.
  destruct (X14_host_ip_of_a_new_handler (sample_args false) sample_world)
    as [_ H].
  destruct (H eq_refl) as (Hip & _).
  destruct (Hip "10.0.0.1" eq_refl) as (h & w' & Hinit & Hh & _).
  exists h, w'. auto.
Defined.


(** ** [close] when the flush succeeds *)

(** X15.  When the handler holds every timer that could fire and the
    last flush goes through (the buffer is empty, or the transmission
    succeeds), [close] returns normally and leaves nothing behind: the
    buffer is empty, the handler holds no timer and no timer is waiting. *)
Theorem X15_close_leaves_nothing_when_the_flush_succeeds
    (backend : Backend) (s : State) (t : nat) :
  timers_held s ->
  _timer (self s) = Some t ->
  _buffer (self s) = [] \/ (transmit backend s).1 = Ok tt ->
  let '(r, s') := close backend s in
  r = Ok tt /\
  _buffer (self s') = [] /\
  _timer (self s') = None /\
  live_timers (world s') = [] /\
  error_stream (world s') = error_stream (world s).
Proof.
  intros Hheld Ht Hok. rewrite close_eq, Ht.
  pose proof (flush_cases backend s) as H.
  pose proof (held_cancelled_not_waiting s) as Hnw.
  destruct (flush backend s) as [r s'].
  assert (Hgood : r = Ok tt /\ _buffer (self s') = [] /\
                  timers (world s') = held_cancelled s /\
                  error_stream (world s') = error_stream (world s)).
  { destruct H as (_ & _ & [H|[H|[(e' & H)|(e' & H)]]]).
    - destruct H as (_ & -> & Hb & _ & Hts & _ & Herr). auto.
    - destruct H as (_ & _ & -> & Hb & _ & Hts & _ & Herr). auto.
    - destruct H as (Hne & Hno & _). destruct Hok; congruence.
    - destruct H as (Hne & Hno & _). destruct Hok; congruence. }
  destruct Hgood as (-> & Hb & Hts & Herr).
  destruct s' as [[] [? tms ? ? ? ? ? ?]]. cbn in *.
  repeat split; try assumption.
  apply no_live_timers. intros t' Hw. unfold Timer_status in Hw. cbn in Hw.
  rewrite Hts in Hw.
  destruct (held_cancelled s !! t') as [st|] eqn:E; cbn in Hw; [|discriminate].
  subst st. eapply Hnw; eauto.
Qed.

(** X15 at a handler with one entry and its timer, the backend being
    up. *)
Lemma X15_close_witness :
  let s := one_buffered false in
  (close backend_up s).1 = Ok tt /\
  _buffer (self (close backend_up s).2) = [] /\
  live_timers (world (close backend_up s).2) = [].
Proof.
  intros s.
  assert (H1 : _timer (self s) = Some 0%nat) by (vm_compute; reflexivity).
  assert (H2 : (transmit backend_up s).1 = Ok tt) by (vm_compute; reflexivity).
  pose proof (X15_close_leaves_nothing_when_the_flush_succeeds backend_up s 0
                (timers_held_one_buffered false) H1 (or_intror H2)) as H.
  destruct (close backend_up s) as [r s']. cbn [fst snd].
  destruct H as (Hr & Hb & _ & Hl & _). auto.
Defined.



(** ** Reading numbers back from their digits *)

Lemma append_inj_length (s1 s2 t1 t2 : string) :
  String.length s1 = String.length s2 ->
  s1 +:+ t1 = s2 +:+ t2 -> s1 = s2 /\ t1 = t2.
Proof.
  revert s2. induction s1 as [|c s1 IH]; intros [|c' s2] Hlen Heq;
    try discriminate.
  - split; [reflexivity|exact Heq].
  - change (String c (s1 +:+ t1) = String c' (s2 +:+ t2)) in Heq.
    injection Heq as -> Heq. injection Hlen as Hlen.
    destruct (IH s2 Hlen Heq) as [-> ->]. split; reflexivity.
Qed.

Lemma append_inj_l (s t1 t2 : string) : s +:+ t1 = s +:+ t2 -> t1 = t2.
Proof. intros Heq. now apply (append_inj_length s s t1 t2). Qed.

Lemma digit_inj (a b : Z) :
  0 <= a < 10 -> 0 <= b < 10 -> digit a = digit b -> a = b.
Proof.
  intros Ha Hb Heq. unfold digit in Heq.
  apply (f_equal nat_of_ascii) in Heq.
  rewrite !nat_ascii_embedding in Heq by lia. lia.
Qed.

Lemma digits_inj (w : nat) (a b : Z) :
  0 <= a < 10 ^ Z.of_nat w -> 0 <= b < 10 ^ Z.of_nat w ->
  digits w a = digits w b -> a = b.
Proof.
  revert a b. induction w as [|w IH]; intros a b Ha Hb Heq.
  - change (10 ^ Z.of_nat 0) with 1 in *. lia.
  - rewrite Nat2Z.inj_succ, Z.pow_succ_r in Ha, Hb by lia.
    cbn [digits] in Heq.
    apply append_inj_length in Heq as [Hhi Hlo];
      [|now rewrite !length_digits].
    injection Hlo as Hlo.
    apply digit_inj in Hlo; [|apply Z.mod_pos_bound; lia..].
    apply IH in Hhi;
      [|split; [apply Z.div_pos; lia|apply Z.div_lt_upper_bound; lia]..].
    rewrite (Z.div_mod a 10), (Z.div_mod b 10) by lia. lia.
Qed.

(** ** The timestamp of an entry *)

Lemma utcfromtimestamp_fields (us : Z) (dt : datetime) :
  utcfromtimestamp us = Ok dt ->
  (year dt, month dt, day dt) = _ord2ymd (EPOCH_ORDINAL + us / US_PER_DAY) /\
  hour dt = us mod US_PER_DAY / US_PER_SECOND / 3600 /\
  minute dt = us mod US_PER_DAY / US_PER_SECOND / 60 mod 60 /\
  second dt = us mod US_PER_DAY / US_PER_SECOND mod 60.
Proof.
  unfold utcfromtimestamp. cbv zeta. destruct (_ && _); [|discriminate].
  destruct (_ord2ymd _) as [[y m] d]. intros [= <-]. cbn. auto.
Qed.

(** The timestamp of an instant, through its milliseconds. *)
Lemma stamp_of_milliseconds (v : Value) (stamp : string) :
  _get_es_datetime_str v = Ok stamp ->
  exists us,
    timestamp_us v = Ok us /\
    let ms := us / 1000 in
    1 <= EPOCH_ORDINAL + ms / 86400000 <= _MAXORDINAL /\
    let '(y, m, d) := _ord2ymd (EPOCH_ORDINAL + ms / 86400000) in
    let secs := ms mod 86400000 / 1000 in
    stamp = digits 4 y +:+ "-" +:+ digits 2 m +:+ "-" +:+ digits 2 d +:+ "T"
            +:+ digits 2 (secs / 3600) +:+ ":" +:+ digits 2 (secs / 60 mod 60)
            +:+ ":" +:+ digits 2 (secs mod 60) +:+ "."
            +:+ digits 3 (ms mod 1000) +:+ "Z".
Proof.
  intros Hstamp.
  destruct (get_es_datetime_str_Ok v stamp Hstamp)
    as (us & dt & Hus & Hdt & Hv & Hord & _ & ->).
  exists us. split; [exact Hus|]. cbv zeta.
  pose proof (toordinal_bounds dt Hv) as Hb. rewrite Hord in Hb.
  apply utcfromtimestamp_fields in Hdt as (Hymd & Hh & Hmi & Hs).
  assert (Hday : us / US_PER_DAY = us / 1000 / 86400000).
  { unfold US_PER_DAY, US_PER_SECOND. rewrite Z.div_div by lia. reflexivity. }
  assert (Hsec : us mod US_PER_DAY / US_PER_SECOND
                 = us / 1000 mod 86400000 / 1000).
  { unfold US_PER_DAY, US_PER_SECOND. Z.div_mod_to_equations. lia. }
  rewrite <- Hday. split; [exact Hb|].
  rewrite <- Hymd, <- Hsec, <- Hh, <- Hmi, <- Hs. reflexivity.
Qed.

Lemma stamp_fields_inj (y m d h mi s ms y' m' d' h' mi' s' ms' : Z) :
  digits 4 y +:+ "-" +:+ digits 2 m +:+ "-" +:+ digits 2 d +:+ "T"
    +:+ digits 2 h +:+ ":" +:+ digits 2 mi +:+ ":" +:+ digits 2 s +:+ "."
    +:+ digits 3 ms +:+ "Z"
  = digits 4 y' +:+ "-" +:+ digits 2 m' +:+ "-" +:+ digits 2 d' +:+ "T"
    +:+ digits 2 h' +:+ ":" +:+ digits 2 mi' +:+ ":" +:+ digits 2 s' +:+ "."
    +:+ digits 3 ms' +:+ "Z" ->
  digits 4 y = digits 4 y' /\ digits 2 m = digits 2 m' /\
  digits 2 d = digits 2 d' /\ digits 2 h = digits 2 h' /\
  digits 2 mi = digits 2 mi' /\ digits 2 s = digits 2 s' /\
  digits 3 ms = digits 3 ms'.
Proof.
  intros Heq.
  repeat match type of Heq with
  | digits ?w ?a +:+ ?t = digits ?w ?b +:+ ?t' =>
      let H := fresh "Hd" in
      apply append_inj_length in Heq as [H Heq];
      [|now rewrite !length_digits]
  | String ?c "" +:+ ?t = String ?c "" +:+ ?t' =>
      apply append_inj_l in Heq
  end.
  repeat split; assumption.
Qed.

Lemma days_in_month_le (y m : Z) : 1 <= m <= 12 -> _days_in_month y m <= 31.
Proof.
  intros Hm. unfold _days_in_month. destruct (_ && _); [lia|].
  assert (Hcases : m = 1 \/ m = 2 \/ m = 3 \/ m = 4 \/ m = 5 \/ m = 6 \/
                   m = 7 \/ m = 8 \/ m = 9 \/ m = 10 \/ m = 11 \/ m = 12) by lia.
  repeat (destruct Hcases as [-> | Hcases]); try subst m; cbn; lia.
Qed.

(** Two instants have the same timestamp exactly when they are of the same
    millisecond. *)
Lemma stamps_of_one_millisecond (ms1 ms2 : Z) :
  1 <= EPOCH_ORDINAL + ms1 / 86400000 <= _MAXORDINAL ->
  1 <= EPOCH_ORDINAL + ms2 / 86400000 <= _MAXORDINAL ->
  let stamp ms :=
    let '(y, m, d) := _ord2ymd (EPOCH_ORDINAL + ms / 86400000) in
    let secs := ms mod 86400000 / 1000 in
    digits 4 y +:+ "-" +:+ digits 2 m +:+ "-" +:+ digits 2 d +:+ "T"
    +:+ digits 2 (secs / 3600) +:+ ":" +:+ digits 2 (secs / 60 mod 60)
    +:+ ":" +:+ digits 2 (secs mod 60) +:+ "."
    +:+ digits 3 (ms mod 1000) +:+ "Z" in
  stamp ms1 = stamp ms2 -> ms1 = ms2.
Proof.
  intros Ho1 Ho2. cbv beta zeta.
  pose proof (ord2ymd_spec _ (proj1 Ho1)) as Hs1.
  pose proof (ord2ymd_spec _ (proj1 Ho2)) as Hs2.
  destruct (_ord2ymd (EPOCH_ORDINAL + ms1 / 86400000)) as [[y1 m1] d1].
  destruct (_ord2ymd (EPOCH_ORDINAL + ms2 / 86400000)) as [[y2 m2] d2].
  intros Heq.
  destruct Hs1 as (Hord1 & Hy1 & Hm1 & Hd1 & Hy1').
  destruct Hs2 as (Hord2 & Hy2 & Hm2 & Hd2 & Hy2').
  specialize (Hy1' (proj2 Ho1)). specialize (Hy2' (proj2 Ho2)).
  pose proof (days_in_month_le y1 m1 Hm1).
  pose proof (days_in_month_le y2 m2 Hm2).
  apply stamp_fields_inj in Heq as (Ey & Em & Ed & Eh & Emi & Es & Ems).
  assert (Hsecs1 : 0 <= ms1 mod 86400000 / 1000 < 86400)
    by (Z.div_mod_to_equations; lia).
  assert (Hsecs2 : 0 <= ms2 mod 86400000 / 1000 < 86400)
    by (Z.div_mod_to_equations; lia).
  remember (ms1 mod 86400000 / 1000) as secs1 eqn:X1.
  remember (ms2 mod 86400000 / 1000) as secs2 eqn:X2.
  apply (digits_inj 4) in Ey; [|change (10 ^ Z.of_nat 4) with 10000; lia..].
  apply (digits_inj 2) in Em; [|change (10 ^ Z.of_nat 2) with 100; lia..].
  apply (digits_inj 2) in Ed; [|change (10 ^ Z.of_nat 2) with 100; lia..].
  apply (digits_inj 2) in Eh;
    [|change (10 ^ Z.of_nat 2) with 100; Z.div_mod_to_equations; lia..].
  apply (digits_inj 2) in Emi;
    [|change (10 ^ Z.of_nat 2) with 100; Z.div_mod_to_equations; lia..].
  apply (digits_inj 2) in Es;
    [|change (10 ^ Z.of_nat 2) with 100; Z.div_mod_to_equations; lia..].
  apply (digits_inj 3) in Ems;
    [|change (10 ^ Z.of_nat 3) with 1000; Z.div_mod_to_equations; lia..].
  subst y2 m2 d2.
  assert (Hday : ms1 / 86400000 = ms2 / 86400000) by lia.
  assert (Hsecs : secs1 = secs2) by (Z.div_mod_to_equations; lia).
  subst secs1 secs2. clear - Hday Hsecs Ems.
  Z.div_mod_to_equations. lia.
Qed.

(** X16.  The timestamp of an entry is [record.created] brought to whole
    microseconds, as [utcfromtimestamp] does, and then cut to the
    millisecond: two creation times get the same timestamp exactly when
    their microseconds are of the same millisecond.  The microseconds of an
    integer are exact; those of a float are less than one microsecond from
    it, and are the nearest ones for every float from [2^19] seconds on.
    So the timestamp is not [created] cut to the millisecond: a float
    within half a microsecond of the next millisecond gets the timestamp
    of that one. *)
Theorem X16_timestamp_is_the_millisecond
    (v1 v2 : Value) (stamp1 stamp2 : string) :
  _get_es_datetime_str v1 = Ok stamp1 ->
  _get_es_datetime_str v2 = Ok stamp2 ->
  exists us1 us2,
    microseconds_of v1 us1 /\ microseconds_of v2 us2 /\
    (stamp1 = stamp2 <-> us1 / 1000 = us2 / 1000).
Proof.
  intros H1 H2.
  destruct (stamp_of_milliseconds v1 stamp1 H1) as (us1 & Hus1 & Ho1 & Hs1).
  destruct (stamp_of_milliseconds v2 stamp2 H2) as (us2 & Hus2 & Ho2 & Hs2).
  exists us1, us2.
  split; [now apply timestamp_us_spec|]. split; [now apply timestamp_us_spec|].
  cbv zeta in Ho1, Ho2, Hs1, Hs2.
  pose proof (stamps_of_one_millisecond (us1 / 1000) (us2 / 1000) Ho1 Ho2)
    as Hinj.
  cbv beta zeta in Hinj.
  remember (us1 / 1000) as ms1 eqn:X1. clear X1.
  remember (us2 / 1000) as ms2 eqn:X2. clear X2.
  split.
  - revert Hs1 Hs2 Hinj.
    destruct (_ord2ymd (EPOCH_ORDINAL + ms1 / 86400000)) as [[y1 m1] d1].
    destruct (_ord2ymd (EPOCH_ORDINAL + ms2 / 86400000)) as [[y2 m2] d2].
    intros Hs1 Hs2 Hinj Heq. apply Hinj. now rewrite <- Hs1, <- Hs2.
  - intros Hms. clear Hinj. subst ms1. revert Hs1 Hs2.
    destruct (_ord2ymd (EPOCH_ORDINAL + ms2 / 86400000)) as [[y m] d].
    intros Hs1 Hs2. now rewrite Hs1, Hs2.
Qed.

(** X16 at two floats of the same millisecond, 1700000000.0 and the one
    nearest to 1700000000.0009996: the second is brought to 1700000000.001
    and gets another timestamp. *)
Lemma X16_timestamp_witness :
  _get_es_datetime_str on_the_second = Ok "2023-11-14T22:13:20.000Z" /\
  _get_es_datetime_str late_in_the_millisecond
  = Ok "2023-11-14T22:13:20.001Z" /\
  exists us1 us2,
    microseconds_of on_the_second us1 /\
    microseconds_of late_in_the_millisecond us2 /\
    us1 = 1700000000000000 /\ us2 = 1700000000001000.
Proof.
  assert (H1 : _get_es_datetime_str on_the_second
               = Ok "2023-11-14T22:13:20.000Z") by (vm_compute; reflexivity).
  assert (H2 : _get_es_datetime_str late_in_the_millisecond
               = Ok "2023-11-14T22:13:20.001Z") by (vm_compute; reflexivity).
  split; [exact H1|]. split; [exact H2|].
  destruct (X16_timestamp_is_the_millisecond _ _ _ _ H1 H2)
    as (us1 & us2 & Hm1 & Hm2 & Hiff).
  exists us1, us2. split; [exact Hm1|]. split; [exact Hm2|].
  destruct Hm1 as [Hm1 _]. destruct Hm2 as [_ Hm2].
  unfold US_PER_SECOND in Hm1, Hm2.
  specialize (Hm2 ltac:(exists 2048; reflexivity)).
  split; lia.
Defined.

(** The product with [1e6] is rounded to a float before it is rounded to
    an integer: [0.1369995] lies below 136999.5 microseconds, its product
    with [1e6] is the float 136999.5, and the tie goes to the even 137000. *)
Lemma stamp_of_a_float_below_the_half :
  2 * (2467963588599777 * US_PER_SECOND) < 273999 * 18014398509481984 /\
  timestamp_us below_the_half = Ok 137000 /\
  _get_es_datetime_str below_the_half = Ok "1970-01-01T00:00:00.137Z".
Proof. conjuncts; vm_compute; reflexivity. Qed.

(** ** One index per day, week, month, year *)

Ltac peel Heq :=
  repeat match type of Heq with
  | digits ?w ?a +:+ ?t = digits ?w ?b +:+ ?t' =>
      let H := fresh "Hd" in
      apply append_inj_length in Heq as [H Heq];
      [|now rewrite !length_digits]
  | String ?c "" +:+ ?t = String ?c "" +:+ ?t' =>
      apply append_inj_l in Heq
  end.

Lemma index_name_of (f : IndexNameFrequency) (name : string) (w : World) :
  valid_datetime (clock w) ->
  exists monday,
    sub_days (clock w) (weekday (clock w)) = Ok monday /\
    valid_datetime monday /\
    toordinal monday = toordinal (clock w) - weekday (clock w) /\
    (year monday, month monday, day monday)
    = _ord2ymd (toordinal (clock w) - weekday (clock w)) /\
    (_INDEX_FREQUENCY_FUNCION_DICT f name w).1
    = Ok (match f with
          | NO_FREQ => name
          | DAILY =>
              name +:+ "-" +:+ digits 4 (year (clock w)) +:+ "."
              +:+ digits 2 (month (clock w)) +:+ "."
              +:+ digits 2 (day (clock w))
          | WEEKLY =>
              name +:+ "-" +:+ digits 4 (year monday) +:+ "."
              +:+ digits 2 (month monday) +:+ "." +:+ digits 2 (day monday)
          | MONTHLY =>
              name +:+ "-" +:+ digits 4 (year (clock w)) +:+ "."
              +:+ digits 2 (month (clock w))
          | YEARLY => name +:+ "-" +:+ digits 4 (year (clock w))
          end).
Proof.
  intros Hv.
  destruct (sub_days_weekday (clock w) Hv) as (monday & Hsub & Hord & _ & _ & Hvm).
  exists monday. split; [exact Hsub|]. split; [exact Hvm|]. split; [exact Hord|].
  split.
  { unfold sub_days in Hsub. destruct (_ && _); [|discriminate].
    destruct (_ord2ymd _) as [[y m] d]. now injection Hsub as <-. }
  assert (Hfmt : forall d, valid_datetime d ->
            format_0d 4 (year d) = digits 4 (year d) /\
            format_0d 2 (month d) = digits 2 (month d) /\
            format_0d 2 (day d) = digits 2 (day d)).
  { intros d (Hy & Hm & Hd & _).
    pose proof (days_in_month_le (year d) (month d) Hm).
    rewrite format_0d_4, !format_0d_2 by lia. auto. }
  destruct (Hfmt _ Hv) as (Ey & Em & Ed).
  destruct (Hfmt _ Hvm) as (Ey' & Em' & Ed').
  destruct f;
    unfold _INDEX_FREQUENCY_FUNCION_DICT, _get_unchanged_index_name,
      _get_daily_index_name, _get_weekly_index_name, _get_monthly_index_name,
      _get_yearly_index_name, datetime_now, mbind, mret, M_bind, M_ret, gets,
      lift_result; cbn [fst];
    rewrite ?Hsub; cbn [fst];
    rewrite ?strftime_Ymd, ?strftime_Ym, ?strftime_Y, ?Ey, ?Em, ?Ed,
      ?Ey', ?Em', ?Ed'; reflexivity.
Qed.

Lemma valid_datetime_digits (d : datetime) :
  valid_datetime d ->
  0 <= year d < 10 ^ Z.of_nat 4 /\ 0 <= month d < 10 ^ Z.of_nat 2 /\
  0 <= day d < 10 ^ Z.of_nat 2.
Proof.
  intros (Hy & Hm & Hd & _).
  pose proof (days_in_month_le (year d) (month d) Hm).
  change (10 ^ Z.of_nat 4) with 10000. change (10 ^ Z.of_nat 2) with 100. lia.
Qed.

(** X17.  With a clock in the years 1 to 9999, the index name changes
    exactly with the day ([DAILY]), the month ([MONTHLY]), the year
    ([YEARLY]) or the week from Monday to Sunday ([WEEKLY]): two instants
    give the same name exactly when they agree on it; [NO_FREQ] gives one
    name for ever. *)
Theorem X17_one_index_per_period (name : string) (w w' : World) :
  valid_datetime (clock w) -> valid_datetime (clock w') ->
  let now := clock w in
  let now' := clock w' in
  let same f := (_INDEX_FREQUENCY_FUNCION_DICT f name w).1
                = (_INDEX_FREQUENCY_FUNCION_DICT f name w').1 in
  same NO_FREQ /\
  (same DAILY <->
   year now = year now' /\ month now = month now' /\ day now = day now') /\
  (same WEEKLY <->
   toordinal now - weekday now = toordinal now' - weekday now') /\
  (same MONTHLY <-> year now = year now' /\ month now = month now') /\
  (same YEARLY <-> year now = year now').
Proof.
  intros Hv Hv'. cbv zeta.
  pose proof (valid_datetime_digits _ Hv) as (Hy & Hm & Hd).
  pose proof (valid_datetime_digits _ Hv') as (Hy' & Hm' & Hd').
  split; [|split; [|split; [|split]]].
  - destruct (index_name_of NO_FREQ name w Hv) as (_ & _ & _ & _ & _ & ->).
    destruct (index_name_of NO_FREQ name w' Hv') as (_ & _ & _ & _ & _ & ->).
    reflexivity.
  - destruct (index_name_of DAILY name w Hv) as (_ & _ & _ & _ & _ & ->).
    destruct (index_name_of DAILY name w' Hv') as (_ & _ & _ & _ & _ & ->).
    split.
    + intros Heq. apply Ok_inj, append_inj_l, append_inj_l in Heq.
      peel Heq.
      apply digits_inj in Hd0, Hd1, Heq; auto.
    + intros (-> & -> & ->). reflexivity.
  - destruct (index_name_of WEEKLY name w Hv)
      as (monday & _ & Hvm & Hord & Hymd & ->).
    destruct (index_name_of WEEKLY name w' Hv')
      as (monday' & _ & Hvm' & Hord' & Hymd' & ->).
    pose proof (valid_datetime_digits _ Hvm) as (Hmy & Hmm & Hmd).
    pose proof (valid_datetime_digits _ Hvm') as (Hmy' & Hmm' & Hmd').
    split.
    + intros Heq. apply Ok_inj, append_inj_l, append_inj_l in Heq.
      peel Heq.
      apply digits_inj in Hd0, Hd1, Heq; auto.
      rewrite <- Hord, <- Hord'. unfold toordinal. congruence.
    + intros Heq. rewrite Heq in Hymd. rewrite <- Hymd' in Hymd.
      injection Hymd as -> -> ->. reflexivity.
  - destruct (index_name_of MONTHLY name w Hv) as (_ & _ & _ & _ & _ & ->).
    destruct (index_name_of MONTHLY name w' Hv') as (_ & _ & _ & _ & _ & ->).
    split.
    + intros Heq. apply Ok_inj, append_inj_l, append_inj_l in Heq.
      peel Heq.
      apply digits_inj in Hd0, Heq; auto.
    + intros (-> & ->). reflexivity.
  - destruct (index_name_of YEARLY name w Hv) as (_ & _ & _ & _ & _ & ->).
    destruct (index_name_of YEARLY name w' Hv') as (_ & _ & _ & _ & _ & ->).
    split.
    + intros Heq. apply Ok_inj, append_inj_l, append_inj_l in Heq.
      apply digits_inj in Heq; auto.
    + intros ->. reflexivity.
Qed.

(** X17 at Wednesday 2026-11-04 and Sunday 2026-11-08: one weekly index,
    two daily ones. *)
Lemma X17_one_index_witness :
  let w' := sample_world_at (mk_datetime 2026 11 8 23 59 59 0) in
  (_INDEX_FREQUENCY_FUNCION_DICT WEEKLY "python_logger" sample_world).1
  = (_INDEX_FREQUENCY_FUNCION_DICT WEEKLY "python_logger" w').1 /\
  (_INDEX_FREQUENCY_FUNCION_DICT DAILY "python_logger" sample_world).1
  <> (_INDEX_FREQUENCY_FUNCION_DICT DAILY "python_logger" w').1.
Proof.
  intros w'.
  destruct (X17_one_index_per_period "python_logger" sample_world w')
    as (_ & Hdaily & Hweekly & _).
  - repeat split; vm_compute; (reflexivity || discriminate).
  - repeat split; vm_compute; (reflexivity || discriminate).
  - split.
    + apply Hweekly. vm_compute. reflexivity.
    + intros Heq. apply Hdaily in Heq as (_ & _ & Hd).
      vm_compute in Hd. discriminate Hd.
Defined.

